(** * FullAutomationLight: a shallow embedding of the light-automation app

    The Python class [FullAutomationLight] (an AppDaemon app for Home
    Assistant) is embedded as Rocq functions over an explicit application
    state.  The embedding follows [apps/FullAutomationLight/FullAutomationLight.py]
    method by method and keeps the method names.

    - Python values that reach the arithmetic of the app (sensor states,
      thresholds, brightness) are values of [pyval]; a Python [float] is an
      IEEE binary64 number of [SpecFloat], so that rounding is the
      interpreter's.
    - A Python exception is the [Raise] outcome of a computation; mutations
      made before the exception stay in the state, as in Python.
    - The host (AppDaemon) is a record of the three readings the app makes:
      the state of an entity, an attribute of an entity, and whether an
      entity exists.  Service calls and listener registrations are appended
      to lists kept in the application state. *)

From Stdlib Require Import ZArith List String Ascii Bool Lia SpecFloat.
Import ListNotations.
Local Open Scope string_scope.
Local Open Scope Z_scope.

Set Implicit Arguments.

(** ** Outcomes of Python computations *)

Inductive pyexc : Type :=
| KeyError
| TypeError
| ValueError
| OverflowError
| ZeroDivisionError.

Inductive outcome (A : Type) : Type :=
| Ok (a : A)
| Raise (e : pyexc).

Arguments Ok {A} a.
Arguments Raise {A} e.

Definition obind {A B : Type} (x : outcome A) (f : A -> outcome B) : outcome B :=
  match x with
  | Ok a => f a
  | Raise e => Raise e
  end.

Declare Scope outcome_scope.
Delimit Scope outcome_scope with outcome.
Notation "'let?' x ':=' c 'in' k" := (obind c (fun x => k))
  (at level 10, x name, c at level 100, k at level 200)
  : outcome_scope.
Local Open Scope outcome_scope.

(** ** Python values *)

Inductive pyval : Type :=
| VNone
| VBool (b : bool)
| VInt (z : Z)
| VFloat (f : spec_float)
| VStr (s : string).

(** ** Binary64 arithmetic, as CPython's [float] *)

Module Py.

Definition prec : Z := 53.
Definition emax : Z := 1024.

Definition fzero : spec_float := S754_zero false.
Definition fone : spec_float := S754_finite false 4503599627370496 (-52).

(** An integer seen as an (unnormalised) float: exact, whatever its size. *)
Definition raw_of_Z (z : Z) (szero : bool) : spec_float :=
  match z with
  | Z0 => S754_zero szero
  | Zpos p => S754_finite false p 0
  | Zneg p => S754_finite true p 0
  end.

(** [float(n)] for an [int]: round to nearest even, [OverflowError] when the
    integer is beyond the largest double. *)
Definition float_of_Z (z : Z) : outcome spec_float :=
  match binary_normalize prec emax z 0 false with
  | S754_infinity _ => Raise OverflowError
  | f => Ok f
  end.

(** [a / b] on two [int]s: the correctly rounded quotient. *)
Definition int_truediv (a b : Z) : outcome spec_float :=
  if b =? 0 then Raise ZeroDivisionError
  else if a =? 0 then Ok (S754_zero (b <? 0))
  else match SFdiv prec emax (raw_of_Z a false) (raw_of_Z b false) with
       | S754_infinity _ => Raise OverflowError
       | f => Ok f
       end.

Definition is_fzero (f : spec_float) : bool :=
  match f with
  | S754_zero _ => true
  | _ => false
  end.

(** [x / y] on two [float]s: division by a zero raises. *)
Definition float_truediv (x y : spec_float) : outcome spec_float :=
  if is_fzero y then Raise ZeroDivisionError else Ok (SFdiv prec emax x y).

(** [int(x)] for a [float]: truncation toward zero. *)
Definition int_of_float (f : spec_float) : outcome Z :=
  match f with
  | S754_zero _ => Ok 0
  | S754_infinity _ => Raise OverflowError
  | S754_nan => Raise ValueError
  | S754_finite s m e =>
      let a := match e with
               | Zneg k => Z.shiftr (Zpos m) (Zpos k)
               | _ => Z.shiftl (Zpos m) e
               end in
      Ok (if s then - a else a)
  end.

(** Exact comparison of an [int] with a [float], as CPython does it. *)
Definition compare_Z_float (z : Z) (f : spec_float) : option comparison :=
  match f with
  | S754_nan => None
  | S754_infinity s => Some (if s then Gt else Lt)
  | S754_zero _ => Some (z ?= 0)
  | S754_finite s m e =>
      let v := if s then Zneg m else Zpos m in
      match e with
      | Zneg k => Some (Z.shiftl z (Zpos k) ?= v)
      | _ => Some (z ?= Z.shiftl v e)
      end
  end.

(** The numeric reading of a value: [bool] is a subclass of [int]. *)
Inductive num : Type :=
| NInt (z : Z)
| NFloat (f : spec_float).

Definition as_num (v : pyval) : option num :=
  match v with
  | VBool b => Some (NInt (Z.b2z b))
  | VInt z => Some (NInt z)
  | VFloat f => Some (NFloat f)
  | VNone | VStr _ => None
  end.

Definition num_to_float (n : num) : outcome spec_float :=
  match n with
  | NInt z => float_of_Z z
  | NFloat f => Ok f
  end.

Definition num_compare (a b : num) : option comparison :=
  match a, b with
  | NInt x, NInt y => Some (x ?= y)
  | NFloat x, NFloat y => SFcompare x y
  | NInt x, NFloat y => compare_Z_float x y
  | NFloat x, NInt y => option_map CompOpp (compare_Z_float y x)
  end.

Definition num_arith (fz : Z -> Z -> Z) (ff : spec_float -> spec_float -> spec_float)
    (a b : num) : outcome pyval :=
  match a, b with
  | NInt x, NInt y => Ok (VInt (fz x y))
  | _, _ =>
      let? x := num_to_float a in
      let? y := num_to_float b in
      Ok (VFloat (ff x y))
  end.

(** [a == b]. *)
Definition eq (a b : pyval) : bool :=
  match as_num a, as_num b with
  | Some x, Some y =>
      match num_compare x y with
      | Some Eq => true
      | _ => false
      end
  | _, _ =>
      match a, b with
      | VNone, VNone => true
      | VStr s, VStr t => String.eqb s t
      | _, _ => false
      end
  end.

(** [a in l] for a list literal [l]. *)
Definition contains (a : pyval) (l : list pyval) : bool :=
  existsb (fun x => eq a x) l.

(** Ordering: numbers among themselves, strings among themselves. *)
Definition order (test : comparison -> bool) (a b : pyval) : outcome bool :=
  match as_num a, as_num b with
  | Some x, Some y =>
      Ok match num_compare x y with
         | Some c => test c
         | None => false
         end
  | _, _ =>
      match a, b with
      | VStr s, VStr t => Ok (test (String.compare s t))
      | _, _ => Raise TypeError
      end
  end.

Definition is_lt (c : comparison) : bool :=
  match c with Lt => true | _ => false end.
Definition is_gt (c : comparison) : bool :=
  match c with Gt => true | _ => false end.
Definition is_le (c : comparison) : bool :=
  match c with Gt => false | _ => true end.

Definition lt : pyval -> pyval -> outcome bool := order is_lt.
Definition gt : pyval -> pyval -> outcome bool := order is_gt.
Definition le : pyval -> pyval -> outcome bool := order is_le.

(** [max(a, b)] keeps [a] unless [b > a]; [min(a, b)] keeps [a] unless [b < a]. *)
Definition max (a b : pyval) : outcome pyval :=
  let? g := gt b a in Ok (if g then b else a).

Definition min (a b : pyval) : outcome pyval :=
  let? l := lt b a in Ok (if l then b else a).

(** [a + b]. *)
Definition add (a b : pyval) : outcome pyval :=
  match as_num a, as_num b with
  | Some x, Some y => num_arith Z.add (SFadd prec emax) x y
  | _, _ =>
      match a, b with
      | VStr s, VStr t => Ok (VStr (String.append s t))
      | _, _ => Raise TypeError
      end
  end.

(** [a - b]. *)
Definition sub (a b : pyval) : outcome pyval :=
  match as_num a, as_num b with
  | Some x, Some y => num_arith Z.sub (SFsub prec emax) x y
  | _, _ => Raise TypeError
  end.

(** [a / b]: true division always yields a [float]. *)
Definition truediv (a b : pyval) : outcome spec_float :=
  match as_num a, as_num b with
  | Some (NInt x), Some (NInt y) => int_truediv x y
  | Some x, Some y =>
      let? fx := num_to_float x in
      let? fy := num_to_float y in
      float_truediv fx fy
  | _, _ => Raise TypeError
  end.

(** [x * b] and [x + b] for a [float] [x]; [a + x] likewise. *)
Definition float_mul (x : spec_float) (b : pyval) : outcome spec_float :=
  match as_num b with
  | Some y => let? fy := num_to_float y in Ok (SFmul prec emax x fy)
  | None => Raise TypeError
  end.

Definition float_add (x : spec_float) (b : pyval) : outcome spec_float :=
  match as_num b with
  | Some y => let? fy := num_to_float y in Ok (SFadd prec emax x fy)
  | None => Raise TypeError
  end.

Definition add_float (a : pyval) (x : spec_float) : outcome spec_float :=
  match as_num a with
  | Some y => let? fy := num_to_float y in Ok (SFadd prec emax fy x)
  | None => Raise TypeError
  end.

(** Truth value of an object. *)
Definition truthy (v : pyval) : bool :=
  match v with
  | VNone => false
  | VBool b => b
  | VInt z => negb (z =? 0)
  | VFloat f => negb (is_fzero f)
  | VStr s => negb (String.eqb s "")
  end.

End Py.

(** ** The text of a [float]: what [float(s)] accepts for a [str]

    Surrounding white space, a sign, then [inf], [infinity] or [nan] in any
    letter case, or a decimal numeral with an optional fraction and an
    optional exponent; a single underscore may separate two digits.  The
    numeral is rounded to the nearest double.

    A string is the UTF-8 text of the Python [str].  Before it reads the
    text, [float] replaces every white-space character outside ASCII by a
    space and every decimal digit outside ASCII by its ASCII digit, and
    refuses any other character outside ASCII; the tables are those of
    Unicode 14 (CPython 3.11). *)

Module FloatSyntax.

Definition code (c : ascii) : Z := Z.of_N (N_of_ascii c).

(** The white space that [float] strips at both ends ([Py_ISSPACE]). *)
Definition is_space (c : ascii) : bool :=
  let n := code c in
  ((9 <=? n) && (n <=? 13)) || (n =? 32).

(** White space outside ASCII ([Py_UNICODE_ISSPACE]), by code point. *)
Definition is_unicode_space (cp : Z) : bool :=
  existsb (Z.eqb cp) [133; 160; 5760; 8232; 8233; 8239; 8287; 12288]
  || ((8192 <=? cp) && (cp <=? 8202)).

(** The decimal digits outside ASCII come in runs of ten, from the zero of
    each script: the code points of these zeros. *)
Definition decimal_zeros : list Z :=
  [1632; 1776; 1984; 2406; 2534; 2662; 2790; 2918; 3046; 3174; 3302; 3430;
   3558; 3664; 3792; 3872; 4160; 4240; 6112; 6160; 6470; 6608; 6784; 6800;
   6992; 7088; 7232; 7248; 42528; 43216; 43264; 43472; 43504; 43600; 44016;
   65296; 66720; 68912; 69734; 69872; 69942; 70096; 70384; 70736; 70864;
   71248; 71360; 71472; 71904; 72016; 72784; 73040; 73120; 92768; 92864;
   93008; 120782; 120792; 120802; 120812; 120822; 123200; 123632; 125264;
   130032].

(** [Py_UNICODE_TODECIMAL] outside ASCII. *)
Definition unicode_decimal (cp : Z) : option Z :=
  match find (fun z => (z <=? cp) && (cp <=? z + 9)) decimal_zeros with
  | Some z => Some (cp - z)
  | None => None
  end.

(** The ASCII character that stands for a character outside ASCII. *)
Definition to_ascii (cp : Z) : option ascii :=
  if is_unicode_space cp then Some " "%char
  else match unicode_decimal cp with
       | Some d => Some (ascii_of_N (Z.to_N (48 + d)))
       | None => None
       end.

(** Is [c] the continuation byte of a UTF-8 sequence? *)
Definition is_continuation (c : ascii) : bool :=
  (128 <=? code c) && (code c <=? 191).

(** The text as [float] reads it: ASCII characters as they are, the others
    decoded from UTF-8 and replaced.  [None] when a character is refused
    (or the bytes are not the UTF-8 text of a [str]). *)
Fixpoint transform (cs : list ascii) : option (list ascii) :=
  match cs with
  | [] => Some []
  | c :: r =>
      let n := code c in
      if n <? 128 then option_map (cons c) (transform r)
      else if (194 <=? n) && (n <=? 223) then
        match r with
        | c2 :: r2 =>
            if is_continuation c2 then
              match to_ascii ((n - 192) * 64 + (code c2 - 128)), transform r2 with
              | Some a, Some rest => Some (a :: rest)
              | _, _ => None
              end
            else None
        | _ => None
        end
      else if (224 <=? n) && (n <=? 239) then
        match r with
        | c2 :: c3 :: r3 =>
            let cp := (n - 224) * 4096 + (code c2 - 128) * 64 + (code c3 - 128) in
            if is_continuation c2 && is_continuation c3 && (2048 <=? cp)
               && negb ((55296 <=? cp) && (cp <=? 57343)) then
              match to_ascii cp, transform r3 with
              | Some a, Some rest => Some (a :: rest)
              | _, _ => None
              end
            else None
        | _ => None
        end
      else if (240 <=? n) && (n <=? 244) then
        match r with
        | c2 :: c3 :: c4 :: r4 =>
            let cp := (n - 240) * 262144 + (code c2 - 128) * 4096
                      + (code c3 - 128) * 64 + (code c4 - 128) in
            if is_continuation c2 && is_continuation c3 && is_continuation c4
               && (65536 <=? cp) && (cp <=? 1114111) then
              match to_ascii cp, transform r4 with
              | Some a, Some rest => Some (a :: rest)
              | _, _ => None
              end
            else None
        | _ => None
        end
      else None
  end.

Definition digit_of (c : ascii) : option Z :=
  let n := code c in
  if (48 <=? n) && (n <=? 57) then Some (n - 48) else None.

Definition is_digit (c : ascii) : bool :=
  match digit_of c with
  | Some _ => true
  | None => false
  end.

Definition lower (c : ascii) : ascii :=
  let n := code c in
  if (65 <=? n) && (n <=? 90) then ascii_of_N (Z.to_N (n + 32)) else c.

Fixpoint lstrip (cs : list ascii) : list ascii :=
  match cs with
  | c :: r => if is_space c then lstrip r else cs
  | [] => []
  end.

Definition strip (cs : list ascii) : list ascii :=
  rev (lstrip (rev (lstrip cs))).

(** Digits from the front of [cs]; [prev] tells that the previous character
    was a digit, the only place where an underscore may follow. *)
Fixpoint scan_digits (prev : bool) (cs : list ascii) : list Z * list ascii :=
  match cs with
  | [] => ([], [])
  | c :: r =>
      match digit_of c with
      | Some d => let (ds, rest) := scan_digits true r in (d :: ds, rest)
      | None =>
          if prev && Ascii.eqb c "_"
             && match r with
                | c' :: _ => is_digit c'
                | [] => false
                end
          then scan_digits false r
          else ([], cs)
      end
  end.

Definition value_of_digits (ds : list Z) : Z :=
  fold_left (fun acc d => 10 * acc + d) ds 0.

(** A decimal numeral as a mantissa and a power of ten. *)
Definition parse_decimal (cs : list ascii) : option (Z * Z) :=
  let (ip, r1) := scan_digits false cs in
  let (fp, r2) := match r1 with
                  | c :: r => if Ascii.eqb c "." then scan_digits false r else ([], r1)
                  | [] => ([], r1)
                  end in
  match (ip ++ fp)%list with
  | [] => None
  | ds =>
      let m := value_of_digits ds in
      let k := Z.of_nat (List.length fp) in
      match r2 with
      | [] => Some (m, - k)
      | c :: r3 =>
          if Ascii.eqb (lower c) "e" then
            let (neg, r4) := match r3 with
                             | s :: r =>
                                 if Ascii.eqb s "+" then (false, r)
                                 else if Ascii.eqb s "-" then (true, r)
                                 else (false, r3)
                             | [] => (false, r3)
                             end in
            match scan_digits false r4 with
            | (d :: ed, []) =>
                let e := value_of_digits (d :: ed) in
                Some (m, (if neg then - e else e) - k)
            | _ => None
            end
          else None
      end
  end.

(** [m * 10^e] with sign [s], rounded to the nearest double. *)
Definition decimal_to_float (s : bool) (m e : Z) : spec_float :=
  if m =? 0 then S754_zero s
  else
    let sm := if s then - m else m in
    match e with
    | Zneg k => SFdiv Py.prec Py.emax (Py.raw_of_Z sm s) (Py.raw_of_Z (10 ^ Zpos k) false)
    | _ => binary_normalize Py.prec Py.emax (sm * 10 ^ e) 0 s
    end.

Definition parse_ascii (text : list ascii) : option spec_float :=
  let cs := strip text in
  let (neg, body) := match cs with
                     | c :: r =>
                         if Ascii.eqb c "+" then (false, r)
                         else if Ascii.eqb c "-" then (true, r)
                         else (false, cs)
                     | [] => (false, cs)
                     end in
  let word := string_of_list_ascii (map lower body) in
  if String.eqb word "inf" || String.eqb word "infinity" then Some (S754_infinity neg)
  else if String.eqb word "nan" then Some S754_nan
  else match parse_decimal body with
       | Some (m, e) => Some (decimal_to_float neg m e)
       | None => None
       end.

Definition parse_float (s : string) : option spec_float :=
  match transform (list_ascii_of_string s) with
  | Some text => parse_ascii text
  | None => None
  end.

End FloatSyntax.

Module PyBuiltin.

(** [float(v)]. *)
Definition float (v : pyval) : outcome spec_float :=
  match v with
  | VNone => Raise TypeError
  | VBool b => Ok (if b then Py.fone else Py.fzero)
  | VInt z => Py.float_of_Z z
  | VFloat f => Ok f
  | VStr s =>
      match FloatSyntax.parse_float s with
      | Some f => Ok f
      | None => Raise ValueError
      end
  end.

End PyBuiltin.

(** ** The numeric helpers of the class *)

(** [FullAutomationLight.int]: the two sentinels give [0]; otherwise the
    value goes through [int(float(val))], and when that raises, the bare
    [except] hands back [val] itself. *)
Definition int (val : pyval) : pyval :=
  if Py.contains val [VStr "unknown"; VStr "unavailable"] then VInt 0
  else match (let? f := PyBuiltin.float val in Py.int_of_float f) with
       | Ok z => VInt z
       | Raise _ => val
       end.

(** [FullAutomationLight.scale]:
    [int((min(max(val, src[0]), src[1]) - src[0]) / (src[1]-src[0]) * (dst[1]-dst[0]) + dst[0])].
    The two ranges are pairs of Python [int]s, as in the default
    configuration; [val] is what [int] returned for the sun elevation. *)
Definition scale (val : pyval) (src dst : Z * Z) : outcome pyval :=
  let? hi := Py.max val (VInt (fst src)) in
  let? clamped := Py.min hi (VInt (snd src)) in
  let? offset := Py.sub clamped (VInt (fst src)) in
  let? ratio := Py.truediv offset (VInt (snd src - fst src)) in
  let? scaled := Py.float_mul ratio (VInt (snd dst - fst dst)) in
  let? shifted := Py.float_add scaled (VInt (fst dst)) in
  Ok (int (VFloat shifted)).

(** ** Dictionaries keyed by strings

    A Python [dict] keeps its keys in insertion order, and the app iterates
    over its rooms and its modes: a dictionary is an association list in
    which assignment to a present key replaces the value in place. *)

Section Dict.
Variable V : Type.

Fixpoint dict_get (k : string) (d : list (string * V)) : option V :=
  match d with
  | [] => None
  | (k', v) :: rest => if String.eqb k k' then Some v else dict_get k rest
  end.

Fixpoint dict_set (k : string) (v : V) (d : list (string * V)) : list (string * V) :=
  match d with
  | [] => [(k, v)]
  | (k', v') :: rest =>
      if String.eqb k k' then (k', v) :: rest else (k', v') :: dict_set k v rest
  end.

Fixpoint dict_del (k : string) (d : list (string * V)) : list (string * V) :=
  match d with
  | [] => []
  | (k', v') :: rest =>
      if String.eqb k k' then rest else (k', v') :: dict_del k rest
  end.

Definition dict_has (k : string) (d : list (string * V)) : bool :=
  match dict_get k d with
  | Some _ => true
  | None => false
  end.

Definition dict_keys (d : list (string * V)) : list string := map fst d.

(** [d.update(u)]. *)
Definition dict_update (d u : list (string * V)) : list (string * V) :=
  fold_left (fun acc kv => dict_set (fst kv) (snd kv) acc) u d.
End Dict.

(** ** Data model *)

(** A scene binding is a dictionary of the configuration, used as it is:
    any of its keys may be missing. *)
Record scene : Type := {
  scene_entity : option string;
  scene_trigger_entity : option string;
  scene_trigger_value : option pyval;
  scene_force_light_on : option pyval
}.

(** A natural-lighting binding of a room, once [init_rooms] has filled the
    defaults in. *)
Record binding : Type := {
  name : string;
  boost_brightness_pct : Z;
  binding_lights_entity : option string;
  natural_entity : option string
}.

(** A room of [self.rooms].  An entity that is [False] (the default) is
    [None]; the keys [natural_lighting] and [scenes] may be absent. *)
Record room : Type := {
  occupancy_entity : option string;
  lights_entity : string;
  occupancy_off_delay : Z;
  luminance_entity : option string;
  luminance_limit : pyval;
  luminance_hysteresis : pyval;
  hight_luminance_off_light : bool;
  occupancy : bool;
  low_light : bool;
  is_light_on : bool;
  natural_lighting : option (list binding);
  scenes : option (list scene)
}.

Definition with_occupancy (b : bool) (r : room) : room :=
  {| occupancy_entity := occupancy_entity r; lights_entity := lights_entity r;
     occupancy_off_delay := occupancy_off_delay r;
     luminance_entity := luminance_entity r; luminance_limit := luminance_limit r;
     luminance_hysteresis := luminance_hysteresis r;
     hight_luminance_off_light := hight_luminance_off_light r;
     occupancy := b; low_light := low_light r; is_light_on := is_light_on r;
     natural_lighting := natural_lighting r; scenes := scenes r |}.

Definition with_low_light (b : bool) (r : room) : room :=
  {| occupancy_entity := occupancy_entity r; lights_entity := lights_entity r;
     occupancy_off_delay := occupancy_off_delay r;
     luminance_entity := luminance_entity r; luminance_limit := luminance_limit r;
     luminance_hysteresis := luminance_hysteresis r;
     hight_luminance_off_light := hight_luminance_off_light r;
     occupancy := occupancy r; low_light := b; is_light_on := is_light_on r;
     natural_lighting := natural_lighting r; scenes := scenes r |}.

Definition with_is_light_on (b : bool) (r : room) : room :=
  {| occupancy_entity := occupancy_entity r; lights_entity := lights_entity r;
     occupancy_off_delay := occupancy_off_delay r;
     luminance_entity := luminance_entity r; luminance_limit := luminance_limit r;
     luminance_hysteresis := luminance_hysteresis r;
     hight_luminance_off_light := hight_luminance_off_light r;
     occupancy := occupancy r; low_light := low_light r; is_light_on := b;
     natural_lighting := natural_lighting r; scenes := scenes r |}.

(** A mode of [self.natural_lighting['modes']]: four configured bounds and
    the two values [set_natural_lighting] derives from the sun elevation. *)
Record mode : Type := {
  max_brightness : Z;
  min_brightness : Z;
  max_kelvin : Z;
  min_kelvin : Z;
  brightness : pyval;
  kelvin : pyval
}.

Record natural_lighting_config : Type := {
  modes : list (string * mode);
  sun_entity : string;
  min_elevation_for_brightness : Z;
  max_elevation_for_brightness : Z;
  min_elevation_for_kelvin : Z;
  max_elevation_for_kelvin : Z;
  sun_elevation : pyval
}.

Definition with_modes (ms : list (string * mode)) (nl : natural_lighting_config)
  : natural_lighting_config :=
  {| modes := ms; sun_entity := sun_entity nl;
     min_elevation_for_brightness := min_elevation_for_brightness nl;
     max_elevation_for_brightness := max_elevation_for_brightness nl;
     min_elevation_for_kelvin := min_elevation_for_kelvin nl;
     max_elevation_for_kelvin := max_elevation_for_kelvin nl;
     sun_elevation := sun_elevation nl |}.

Definition with_sun_elevation (v : pyval) (nl : natural_lighting_config)
  : natural_lighting_config :=
  {| modes := modes nl; sun_entity := sun_entity nl;
     min_elevation_for_brightness := min_elevation_for_brightness nl;
     max_elevation_for_brightness := max_elevation_for_brightness nl;
     min_elevation_for_kelvin := min_elevation_for_kelvin nl;
     max_elevation_for_kelvin := max_elevation_for_kelvin nl;
     sun_elevation := v |}.

(** ** The host *)

(** What AppDaemon answers during one callback. *)
Record hass : Type := {
  get_state : string -> pyval;
  get_attribute : string -> string -> pyval;
  entity_exists : string -> bool
}.

(** [entity.call_service(service, ...)]: a keyword argument that is not
    passed is [None] here. *)
Record service_call : Type := {
  call_entity : string;
  call_service : string;
  call_brightness : option pyval;
  call_kelvin : option pyval;
  call_transition : option pyval
}.

Inductive callback : Type :=
| callback_room_for (room_name trigger : string)
| callback_sun_elevation_for.

(** [self.listen_state(callback, entity, ...)]. *)
Record listener : Type := {
  listen_callback : callback;
  listen_entity : string;
  listen_attribute : option string;
  listen_new : option pyval;
  listen_old : option pyval;
  listen_duration : option Z
}.

(** ** The application state

    The attributes of [self], and what the app has asked of the host so far.
    [dispatched] has one entry for each call of [set_light], written where
    the method emits its first debug line: room, trigger and the transition
    found for the trigger. *)
Record app : Type := {
  self_entities : list string;
  self_natural_lighting : option natural_lighting_config;
  self_transitions : list (string * pyval);
  self_rooms : list (string * room);
  listeners : list listener;
  calls : list service_call;
  dispatched : list (string * string * pyval)
}.

Definition set_entities (x : list string) (a : app) : app :=
  {| self_entities := x; self_natural_lighting := self_natural_lighting a;
     self_transitions := self_transitions a; self_rooms := self_rooms a;
     listeners := listeners a; calls := calls a; dispatched := dispatched a |}.

Definition set_self_natural_lighting (x : option natural_lighting_config) (a : app) : app :=
  {| self_entities := self_entities a; self_natural_lighting := x;
     self_transitions := self_transitions a; self_rooms := self_rooms a;
     listeners := listeners a; calls := calls a; dispatched := dispatched a |}.

Definition set_self_transitions (x : list (string * pyval)) (a : app) : app :=
  {| self_entities := self_entities a; self_natural_lighting := self_natural_lighting a;
     self_transitions := x; self_rooms := self_rooms a;
     listeners := listeners a; calls := calls a; dispatched := dispatched a |}.

Definition set_self_rooms (x : list (string * room)) (a : app) : app :=
  {| self_entities := self_entities a; self_natural_lighting := self_natural_lighting a;
     self_transitions := self_transitions a; self_rooms := x;
     listeners := listeners a; calls := calls a; dispatched := dispatched a |}.

Definition set_listeners (x : list listener) (a : app) : app :=
  {| self_entities := self_entities a; self_natural_lighting := self_natural_lighting a;
     self_transitions := self_transitions a; self_rooms := self_rooms a;
     listeners := x; calls := calls a; dispatched := dispatched a |}.

Definition set_calls (x : list service_call) (a : app) : app :=
  {| self_entities := self_entities a; self_natural_lighting := self_natural_lighting a;
     self_transitions := self_transitions a; self_rooms := self_rooms a;
     listeners := listeners a; calls := x; dispatched := dispatched a |}.

Definition set_dispatched (x : list (string * string * pyval)) (a : app) : app :=
  {| self_entities := self_entities a; self_natural_lighting := self_natural_lighting a;
     self_transitions := self_transitions a; self_rooms := self_rooms a;
     listeners := listeners a; calls := calls a; dispatched := x |}.

(** ** Methods as state transformers that may raise *)

Definition M (A : Type) : Type := app -> outcome A * app.

Definition ret {A : Type} (a : A) : M A := fun s => (Ok a, s).

Definition bind {A B : Type} (m : M A) (f : A -> M B) : M B :=
  fun s =>
    match m s with
    | (Ok a, s') => f a s'
    | (Raise e, s') => (Raise e, s')
    end.

Definition raise {A : Type} (e : pyexc) : M A := fun s => (Raise e, s).

Definition lift {A : Type} (x : outcome A) : M A := fun s => (x, s).

Definition gets {A : Type} (f : app -> A) : M A := fun s => (Ok (f s), s).

Definition modify (f : app -> app) : M unit := fun s => (Ok tt, f s).

(** A dictionary or record key that must be present. *)
Definition key {A : Type} (x : option A) : M A :=
  match x with
  | Some a => ret a
  | None => raise KeyError
  end.

Declare Scope app_scope.
Delimit Scope app_scope with app.
Notation "x <- c ;; k" := (bind c (fun x => k))
  (at level 61, c at next level, right associativity) : app_scope.
Notation "c ;; k" := (bind c (fun _ => k))
  (at level 61, right associativity) : app_scope.
Local Open Scope app_scope.

(** [for x in l: body(x)]. *)
Fixpoint for_each {A : Type} (l : list A) (body : A -> M unit) : M unit :=
  match l with
  | [] => ret tt
  | x :: rest => body x ;; for_each rest body
  end.

(** [self.rooms[room_name]] read, and one of its keys assigned. *)
Definition the_room (room_name : string) : M room :=
  rooms <- gets self_rooms ;;
  key (dict_get room_name rooms).

Definition update_room (room_name : string) (f : room -> room) : M unit :=
  r <- the_room room_name ;;
  modify (fun s => set_self_rooms (dict_set room_name (f r) (self_rooms s)) s).

(** An entity key that holds a usable name: neither [False] nor empty. *)
Definition configured (e : option string) : option string :=
  match e with
  | Some n => if String.eqb n "" then None else Some n
  | None => None
  end.

(** ** [add_entity] *)

Definition add_entity (entity : string) : M unit :=
  modify (fun s =>
    if existsb (String.eqb entity) (self_entities s) then s
    else set_entities (self_entities s ++ [entity])%list s).

Definition listen_state (l : listener) : M unit :=
  modify (fun s => set_listeners (listeners s ++ [l])%list s).

Definition invoke (c : service_call) : M unit :=
  modify (fun s => set_calls (calls s ++ [c])%list s).

(** ** [set_light]: the action dispatcher *)

(** The keyword [transition=...] is passed unless the transition is [None]. *)
Definition transition_arg (transition : pyval) : option pyval :=
  if Py.eq transition VNone then None else Some transition.

(** [entity_id.split('.')[0]]. *)
Fixpoint domain_of (entity_id : string) : string :=
  match entity_id with
  | EmptyString => EmptyString
  | String c rest => if Ascii.eqb c "." then EmptyString else String c (domain_of rest)
  end.

(** The loop over [room['scenes']] of [set_light]: the first scene whose
    trigger entity is in its trigger state is turned on, and the loop
    breaks.  The result tells whether [mode] became ["scene"]. *)
Fixpoint set_light_scenes (h : hass) (transition : pyval) (l : list scene) : M bool :=
  match l with
  | [] => ret false
  | sc :: rest =>
      trigger_entity <- key (scene_trigger_entity sc) ;;
      trigger_value <- key (scene_trigger_value sc) ;;
      if Py.eq (get_state h trigger_entity) trigger_value then
        entity <- key (scene_entity sc) ;;
        invoke {| call_entity := entity; call_service := "turn_on";
                  call_brightness := None; call_kelvin := None;
                  call_transition :=
                    if String.eqb (domain_of entity) "script" then None
                    else transition_arg transition |} ;;
        ret true
      else set_light_scenes h transition rest
  end.

(** Lines 144-148: the boost of a binding, applied only when it is not 0. *)
Definition boost (brightness : pyval) (boost_pct : Z) : outcome pyval :=
  if negb (boost_pct =? 0) then
    let? hundredth := Py.truediv brightness (VInt 100) in
    let? extra := Py.float_mul hundredth (VInt boost_pct) in
    let? total := Py.add_float brightness extra in
    let? b := Py.int_of_float total in
    let b := if b >? 255 then 255 else b in
    let b := if b <? 1 then 1 else b in
    Ok (VInt b)
  else Ok brightness.

(** The body of the loop over [room['natural_lighting']]. *)
Definition set_light_binding (cfg : natural_lighting_config) (r : room)
    (transition : pyval) (b : binding) : M unit :=
  m <- key (dict_get (name b) (modes cfg)) ;;
  let entity := match binding_lights_entity b with
                | Some e => e
                | None => lights_entity r
                end in
  level <- lift (boost (brightness m) (boost_brightness_pct b)) ;;
  invoke {| call_entity := entity; call_service := "turn_on";
            call_brightness := Some level; call_kelvin := Some (kelvin m);
            call_transition := transition_arg transition |}.

Definition is_empty {A : Type} (l : list A) : bool :=
  match l with
  | [] => true
  | _ :: _ => false
  end.

Definition set_light (h : hass) (room_name trigger : string) : M unit :=
  transitions <- gets self_transitions ;;
  let transition := match dict_get trigger transitions with
                    | Some t => t
                    | None => VInt 1
                    end in
  modify (fun s => set_dispatched (dispatched s ++ [(room_name, trigger, transition)])%list s) ;;
  r <- the_room room_name ;;
  if is_light_on r then
    by_scene <- match scenes r with
                | Some l => set_light_scenes h transition l
                | None => ret false
                end ;;
    cfg <- gets self_natural_lighting ;;
    by_natural_lighting <-
      (if by_scene then ret false
       else match cfg, natural_lighting r with
            | Some c, Some bindings =>
                for_each bindings (set_light_binding c r transition) ;;
                ret (negb (is_empty bindings))
            | _, _ => ret false
            end) ;;
    if by_scene || by_natural_lighting then ret tt
    else invoke {| call_entity := lights_entity r; call_service := "turn_on";
                   call_brightness := None; call_kelvin := None;
                   call_transition := transition_arg transition |}
  else
    off <- key (dict_get "off" transitions) ;;
    invoke {| call_entity := lights_entity r; call_service := "turn_off";
              call_brightness := None; call_kelvin := None;
              call_transition := transition_arg off |}.

(** ** [set_is_light_on]: the decision engine *)

(** Lines 287-289. *)
Definition refresh_occupancy (h : hass) (room_name : string) : M unit :=
  r <- the_room room_name ;;
  match configured (occupancy_entity r) with
  | Some e =>
      update_room room_name
        (with_occupancy
           (Py.contains (get_state h e)
              [VStr "on"; VStr "home"; VBool true; VStr "true"; VStr "True"]))
  | None => ret tt
  end.

(** The threshold of lines 292-299; the flag that decides its side is the
    one the previous evaluation left. *)
Definition effective_limit (r : room) : outcome pyval :=
  if low_light r
  then Py.add (int (luminance_limit r)) (int (luminance_hysteresis r))
  else Py.sub (int (luminance_limit r)) (int (luminance_hysteresis r)).

(** Lines 291-301. *)
Definition refresh_low_light (h : hass) (room_name : string) : M unit :=
  r <- the_room room_name ;;
  match configured (luminance_entity r) with
  | Some e =>
      limit <- lift (effective_limit r) ;;
      dark <- lift (Py.le (int (get_state h e)) limit) ;;
      update_room room_name (with_low_light dark)
  | None => ret tt
  end.

(** Lines 306-312: is a scene with [scene_force_light_on] active? *)
Fixpoint force_light_on (h : hass) (l : list scene) : outcome bool :=
  match l with
  | [] => Ok false
  | sc :: rest =>
      match scene_trigger_entity sc, scene_trigger_value sc with
      | Some trigger_entity, Some trigger_value =>
          if Py.eq (get_state h trigger_entity) trigger_value
             && match scene_force_light_on sc with
                | Some flag => Py.truthy flag
                | None => false
                end
          then Ok true
          else force_light_on h rest
      | _, _ => Raise KeyError
      end
  end.

(** The condition of line 316. *)
Definition recompute (r : room) (trigger : string) : bool :=
  negb (is_light_on r && negb (low_light r))
  || hight_luminance_off_light r
  || String.eqb trigger "occupancy".

(** The condition of line 319. *)
Definition must_dispatch (trigger : string) (old_is_light_on new_is_light_on : bool) : bool :=
  existsb (String.eqb trigger) ["init"; "scene"; "natural_lighting"]
  || negb (Bool.eqb old_is_light_on new_is_light_on).

Definition set_is_light_on (h : hass) (room_name trigger : string) : M unit :=
  refresh_occupancy h room_name ;;
  refresh_low_light h room_name ;;
  r <- the_room room_name ;;
  let old_is_light_on := is_light_on r in
  force <- lift (match scenes r with
                 | Some l => force_light_on h l
                 | None => Ok false
                 end) ;;
  (if force then update_room room_name (with_is_light_on true)
   else if recompute r trigger
   then update_room room_name (with_is_light_on (occupancy r && low_light r))
   else ret tt) ;;
  r' <- the_room room_name ;;
  if must_dispatch trigger old_is_light_on (is_light_on r') then
    if force && String.eqb trigger "scene" && negb old_is_light_on
    then set_light h room_name "occupancy"
    else set_light h room_name trigger
  else ret tt.

(** [callback_room]: the handler of occupancy, luminance and scene changes. *)
Definition callback_room (h : hass) (room_name trigger : string) : M unit :=
  set_is_light_on h room_name trigger.

(** ** Natural lighting *)

Definition with_brightness (v : pyval) (m : mode) : mode :=
  {| max_brightness := max_brightness m; min_brightness := min_brightness m;
     max_kelvin := max_kelvin m; min_kelvin := min_kelvin m;
     brightness := v; kelvin := kelvin m |}.

Definition with_kelvin (v : pyval) (m : mode) : mode :=
  {| max_brightness := max_brightness m; min_brightness := min_brightness m;
     max_kelvin := max_kelvin m; min_kelvin := min_kelvin m;
     brightness := brightness m; kelvin := v |}.

(** The loop of [set_natural_lighting] over the modes.  The dictionary is
    updated in place: when a [scale] raises, the modes already visited keep
    their new values, and so does the brightness of the current one. *)
Fixpoint set_modes (nl : natural_lighting_config) (ms : list (string * mode))
  : outcome unit * list (string * mode) :=
  match ms with
  | [] => (Ok tt, [])
  | (n, m) :: rest =>
      match scale (sun_elevation nl)
              (min_elevation_for_brightness nl, max_elevation_for_brightness nl)
              (min_brightness m, max_brightness m) with
      | Raise e => (Raise e, (n, m) :: rest)
      | Ok b =>
          let m1 := with_brightness b m in
          match scale (sun_elevation nl)
                  (min_elevation_for_kelvin nl, max_elevation_for_kelvin nl)
                  (min_kelvin m, max_kelvin m) with
          | Raise e => (Raise e, (n, m1) :: rest)
          | Ok k =>
              let (res, rest') := set_modes nl rest in
              (res, (n, with_kelvin k m1) :: rest')
          end
      end
  end.

(** [set_natural_lighting]: the outcome, and the dictionary as the call
    leaves it. *)
Definition set_natural_lighting (nl : natural_lighting_config)
  : outcome unit * natural_lighting_config :=
  let (res, ms) := set_modes nl (modes nl) in
  (res, with_modes ms nl).

(** A room takes part in natural lighting when the key is there and the
    list is not empty (line 440). *)
Definition has_bindings (r : room) : bool :=
  match natural_lighting r with
  | Some (_ :: _) => true
  | _ => false
  end.

(** [callback_sun_elevation], called with the new elevation.  Without
    natural lighting, [self.natural_lighting] is [False] and the first
    assignment raises. *)
Definition callback_sun_elevation (h : hass) (new : pyval) : M unit :=
  cfg <- gets self_natural_lighting ;;
  match cfg with
  | None => raise TypeError
  | Some nl =>
      let (res, nl') := set_natural_lighting (with_sun_elevation (int new) nl) in
      modify (set_self_natural_lighting (Some nl')) ;;
      lift res ;;
      rooms <- gets self_rooms ;;
      for_each (dict_keys rooms) (fun room_name =>
        r <- the_room room_name ;;
        if has_bindings r && is_light_on r
        then set_light h room_name "natural_lighting"
        else ret tt)
  end.

(** ** Configuration ([self.args]) *)

(** A configuration value that should be a list, and may be anything else. *)
Inductive listed (A : Type) : Type :=
| Listed (l : list A)
| NotAList.

Arguments Listed {A} l.
Arguments NotAList {A}.

Record mode_args : Type := {
  arg_mode_name : option string;
  arg_max_brightness : option Z;
  arg_min_brightness : option Z;
  arg_max_kelvin : option Z;
  arg_min_kelvin : option Z
}.

Record natural_lighting_args : Type := {
  arg_modes : option (listed mode_args);
  arg_sun_entity : option string;
  arg_min_elevation_for_brightness : option Z;
  arg_max_elevation_for_brightness : option Z;
  arg_min_elevation_for_kelvin : option Z;
  arg_max_elevation_for_kelvin : option Z
}.

Record binding_args : Type := {
  arg_name : option string;
  arg_boost_brightness_pct : option Z;
  arg_binding_lights_entity : option string;
  arg_natural_entity : option string
}.

(** A room of the configuration.  Every key of a room but
    [natural_lighting] and [scenes] is copied over the defaults (lines
    201-203), the three flags included. *)
Record room_args : Type := {
  arg_occupancy_entity : option string;
  arg_lights_entity : option string;
  arg_occupancy_off_delay : option Z;
  arg_luminance_entity : option string;
  arg_luminance_limit : option pyval;
  arg_luminance_hysteresis : option pyval;
  arg_hight_luminance_off_light : option bool;
  arg_occupancy : option bool;
  arg_low_light : option bool;
  arg_is_light_on : option bool;
  arg_natural_lighting : option (listed binding_args);
  arg_scenes : option (listed scene)
}.

Record args : Type := {
  args_rooms : option (list (string * room_args));
  args_natural_lighting : option natural_lighting_args;
  args_transitions : option (list (string * pyval))
}.

Definition or_default {A : Type} (x : option A) (d : A) : A :=
  match x with
  | Some a => a
  | None => d
  end.

(** ** [init_transitions] *)

Definition init_transitions (a : args) : list (string * pyval) :=
  dict_update
    [("init", VNone); ("occupancy", VNone); ("low_light", VInt 15);
     ("scene", VInt 10); ("natural_lighting", VInt 10); ("off", VNone)]
    (or_default (args_transitions a) []).

(** ** [init_natural_lighting] *)

Definition default_mode : mode :=
  {| max_brightness := 255; min_brightness := 100;
     max_kelvin := 5500; min_kelvin := 2000;
     brightness := VInt 0; kelvin := VInt 0 |}.

(** A configured mode starts as a copy of the current ["default"] mode and
    takes the four bounds it gives. *)
Definition add_mode (ms : list (string * mode)) (ma : mode_args)
  : outcome (list (string * mode)) :=
  match arg_mode_name ma with
  | None => Raise KeyError
  | Some n =>
      let d := or_default (dict_get "default" ms) default_mode in
      Ok (dict_set n
            {| max_brightness := or_default (arg_max_brightness ma) (max_brightness d);
               min_brightness := or_default (arg_min_brightness ma) (min_brightness d);
               max_kelvin := or_default (arg_max_kelvin ma) (max_kelvin d);
               min_kelvin := or_default (arg_min_kelvin ma) (min_kelvin d);
               brightness := brightness d; kelvin := kelvin d |} ms)
  end.

Fixpoint add_modes (ms : list (string * mode)) (l : list mode_args)
  : outcome (list (string * mode)) :=
  match l with
  | [] => Ok ms
  | ma :: rest => let? ms' := add_mode ms ma in add_modes ms' rest
  end.

Definition init_natural_lighting (h : hass) (a : args)
  : M (option natural_lighting_config) :=
  match args_natural_lighting a with
  | None => ret None
  | Some nl_args =>
      ms <- lift (match arg_modes nl_args with
                  | Some (Listed l) => add_modes [("default", default_mode)] l
                  | _ => Ok [("default", default_mode)]
                  end) ;;
      let sun := or_default (arg_sun_entity nl_args) "sun.sun" in
      add_entity sun ;;
      let nl :=
        {| modes := ms; sun_entity := "sun.sun";
           min_elevation_for_brightness :=
             or_default (arg_min_elevation_for_brightness nl_args) (-20);
           max_elevation_for_brightness :=
             or_default (arg_max_elevation_for_brightness nl_args) 20;
           min_elevation_for_kelvin :=
             or_default (arg_min_elevation_for_kelvin nl_args) 0;
           max_elevation_for_kelvin :=
             or_default (arg_max_elevation_for_kelvin nl_args) 20;
           sun_elevation := int (get_attribute h sun "elevation") |} in
      listen_state {| listen_callback := callback_sun_elevation_for;
                      listen_entity := sun; listen_attribute := Some "elevation";
                      listen_new := None; listen_old := None;
                      listen_duration := None |} ;;
      let (res, nl') := set_natural_lighting nl in
      lift res ;;
      ret (Some nl')
  end.

(** ** [init_rooms] *)

(** One entry of a room's [natural_lighting] list (lines 215-225).  The
    mode name is looked up in [self.natural_lighting['modes']], which
    raises when natural lighting is off ([False] has no items). *)
Definition init_binding (lights : string) (ba : binding_args) : M binding :=
  cfg <- gets self_natural_lighting ;;
  match cfg with
  | None => raise TypeError
  | Some nl =>
      let n := or_default (arg_name ba) "default" in
      let n' := if dict_has n (modes nl) then n else "default" in
      match arg_natural_entity ba with
      | Some e => add_entity e
      | None => ret tt
      end ;;
      ret {| name := n';
             boost_brightness_pct := or_default (arg_boost_brightness_pct ba) 0;
             binding_lights_entity := arg_binding_lights_entity ba;
             natural_entity := Some (or_default (arg_natural_entity ba) lights) |}
  end.

Fixpoint init_bindings (lights : string) (l : list binding_args) : M (list binding) :=
  match l with
  | [] => ret []
  | ba :: rest =>
      b <- init_binding lights ba ;;
      bs <- init_bindings lights rest ;;
      ret (b :: bs)
  end.

(** The startup check of a scene binding (lines 236-242). *)
Definition scene_is_valid (h : hass) (sc : scene) : bool :=
  match scene_entity sc, scene_trigger_entity sc, scene_trigger_value sc with
  | Some e, Some t, Some _ =>
      entity_exists h e && entity_exists h t
      && (String.eqb (domain_of e) "script" || String.eqb (domain_of e) "scene")
  | _, _, _ => false
  end.

(** Lines 235-246: only a valid scene gets its two listeners. *)
Definition listen_scene (h : hass) (room_name : string) (sc : scene) : M unit :=
  if scene_is_valid h sc then
    match scene_trigger_entity sc with
    | Some t =>
        listen_state {| listen_callback := callback_room_for room_name "scene";
                        listen_entity := t; listen_attribute := None;
                        listen_new := scene_trigger_value sc; listen_old := None;
                        listen_duration := None |} ;;
        listen_state {| listen_callback := callback_room_for room_name "scene";
                        listen_entity := t; listen_attribute := None;
                        listen_new := None; listen_old := scene_trigger_value sc;
                        listen_duration := None |}
    | None => ret tt
    end
  else ret tt.

(** Lines 248-259: the listeners of the occupancy and luminance sensors. *)
Definition listen_sensors (h : hass) (room_name : string) (r : room) : M unit :=
  match configured (occupancy_entity r) with
  | Some e =>
      if entity_exists h e then
        if occupancy_off_delay r >? 0 then
          listen_state {| listen_callback := callback_room_for room_name "occupancy";
                          listen_entity := e; listen_attribute := None;
                          listen_new := Some (VStr "on"); listen_old := None;
                          listen_duration := None |} ;;
          listen_state {| listen_callback := callback_room_for room_name "occupancy";
                          listen_entity := e; listen_attribute := None;
                          listen_new := Some (VStr "off"); listen_old := None;
                          listen_duration := Some (occupancy_off_delay r) |}
        else
          listen_state {| listen_callback := callback_room_for room_name "occupancy";
                          listen_entity := e; listen_attribute := None;
                          listen_new := None; listen_old := None;
                          listen_duration := None |}
      else ret tt
  | None => ret tt
  end ;;
  match configured (luminance_entity r) with
  | Some e =>
      if entity_exists h e then
        listen_state {| listen_callback := callback_room_for room_name "low_light";
                        listen_entity := e; listen_attribute := None;
                        listen_new := None; listen_old := None;
                        listen_duration := None |}
      else ret tt
  | None => ret tt
  end.

(** The body of the loop over [self.args['rooms']]: [rooms] is the local
    dictionary built so far. *)
Definition init_room (h : hass) (rooms : list (string * room))
    (room_name : string) (ra : room_args) : M (list (string * room)) :=
  match configured (arg_lights_entity ra) with
  | None => ret (dict_del room_name rooms)
  | Some lights =>
      if negb (entity_exists h lights) then ret (dict_del room_name rooms)
      else
        add_entity lights ;;
        bindings <- match arg_natural_lighting ra with
                    | None => ret None
                    | Some (Listed l) =>
                        bs <- init_bindings lights l ;; ret (Some bs)
                    | Some NotAList =>
                        ret (Some [ {| name := "default"; boost_brightness_pct := 0;
                                       binding_lights_entity := None;
                                       natural_entity := Some lights |} ])
                    end ;;
        let room_scenes := match arg_scenes ra with
                           | Some (Listed l) => Some l
                           | _ => None
                           end in
        for_each (or_default room_scenes []) (listen_scene h room_name) ;;
        let r :=
          {| occupancy_entity := arg_occupancy_entity ra;
             lights_entity := lights;
             occupancy_off_delay := or_default (arg_occupancy_off_delay ra) 0;
             luminance_entity := arg_luminance_entity ra;
             luminance_limit := or_default (arg_luminance_limit ra) (VInt 10);
             luminance_hysteresis := or_default (arg_luminance_hysteresis ra) (VInt 0);
             hight_luminance_off_light :=
               or_default (arg_hight_luminance_off_light ra) false;
             occupancy := or_default (arg_occupancy ra) true;
             low_light := or_default (arg_low_light ra) true;
             is_light_on := or_default (arg_is_light_on ra) false;
             natural_lighting := bindings;
             scenes := room_scenes |} in
        listen_sensors h room_name r ;;
        ret (dict_set room_name r rooms)
  end.

Fixpoint init_rooms_loop (h : hass) (rooms : list (string * room))
    (l : list (string * room_args)) : M (list (string * room)) :=
  match l with
  | [] => ret rooms
  | (room_name, ra) :: rest =>
      rooms' <- init_room h rooms room_name ra ;;
      init_rooms_loop h rooms' rest
  end.

Definition init_rooms (h : hass) (a : args) : M (list (string * room)) :=
  init_rooms_loop h [] (or_default (args_rooms a) []).

(** ** [initialize] *)

(** Lines 93-94: every room is evaluated once, with the trigger ["init"]. *)
Definition set_all_lights (h : hass) : M unit :=
  rooms <- gets self_rooms ;;
  for_each (dict_keys rooms) (fun room_name => set_is_light_on h room_name "init").

(** The state of a fresh instance: no attribute is set yet. *)
Definition fresh : app :=
  {| self_entities := []; self_natural_lighting := None; self_transitions := [];
     self_rooms := []; listeners := []; calls := []; dispatched := [] |}.

Definition initialize (h : hass) (a : args) : M unit :=
  modify (set_entities []) ;;
  nl <- init_natural_lighting h a ;;
  modify (set_self_natural_lighting nl) ;;
  modify (set_self_transitions (init_transitions a)) ;;
  rooms <- init_rooms h a ;;
  modify (set_self_rooms rooms) ;;
  set_all_lights h.

(** ** Reference definitions used by the statements *)

(** Lines 287-301 as functions of the room alone: the room as each of the
    two refresh steps leaves it.  [refresh_occupancy_run] and
    [refresh_low_light_run] below relate them to the code. *)
Definition occupancy_refreshed (h : hass) (r : room) : room :=
  match configured (occupancy_entity r) with
  | Some e =>
      with_occupancy
        (Py.contains (get_state h e)
           [VStr "on"; VStr "home"; VBool true; VStr "true"; VStr "True"]) r
  | None => r
  end.

Definition low_light_refreshed (h : hass) (r : room) : outcome room :=
  match configured (luminance_entity r) with
  | Some e =>
      let? limit := effective_limit r in
      let? dark := Py.le (int (get_state h e)) limit in
      Ok (with_low_light dark r)
  | None => Ok r
  end.

Definition refreshed (h : hass) (r : room) : outcome room :=
  low_light_refreshed h (occupancy_refreshed h r).

(** The room as lines 314-317 leave it. *)
Definition decided (force : bool) (trigger : string) (r : room) : room :=
  if force then with_is_light_on true r
  else if recompute r trigger then with_is_light_on (occupancy r && low_light r) r
  else r.

(** The trigger handed to [set_light] (lines 321-324). *)
Definition dispatch_trigger (force : bool) (trigger : string) (old_is_light_on : bool)
  : string :=
  if force && String.eqb trigger "scene" && negb old_is_light_on
  then "occupancy" else trigger.

(** [self.transitions.get(trigger, 1)]. *)
Definition transition_for (s : app) (trigger : string) : pyval :=
  or_default (dict_get trigger (self_transitions s)) (VInt 1).

(** The room of a state, and its flags. *)
Definition room_of (s : app) (room_name : string) : option room :=
  dict_get room_name (self_rooms s).

Definition clamp (v lo hi : Z) : Z := Z.min (Z.max v lo) hi.

(** The range scaler in the words of the specification: the value clamped
    to the source range, mapped linearly onto the destination range in exact
    arithmetic, truncated toward zero. *)
Definition scale_exact (v : Z) (src dst : Z * Z) : Z :=
  Z.quot ((clamp v (fst src) (snd src) - fst src) * (snd dst - fst dst)
          + fst dst * (snd src - fst src))
         (snd src - fst src).

(** The boost in the words of the specification:
    [int(b + b * boost / 100)] in exact arithmetic, clamped to [1, 255]. *)
Definition boost_exact (b boost_pct : Z) : Z :=
  clamp (Z.quot (b * 100 + b * boost_pct) 100) 1 255.

(** The service call that drives one natural-lighting binding. *)
Definition binding_call (r : room) (m : mode) (b : binding) (level transition : pyval)
  : service_call :=
  {| call_entity := or_default (binding_lights_entity b) (lights_entity r);
     call_service := "turn_on";
     call_brightness := Some level; call_kelvin := Some (kelvin m);
     call_transition := transition_arg transition |}.

(** Does the scene's trigger entity hold the scene's trigger value? *)
Definition scene_matches (h : hass) (sc : scene) : bool :=
  match scene_trigger_entity sc, scene_trigger_value sc with
  | Some e, Some v => Py.eq (get_state h e) v
  | _, _ => false
  end.

Definition scene_forces (sc : scene) : bool :=
  match scene_force_light_on sc with
  | Some flag => Py.truthy flag
  | None => false
  end.

(** A scene that has the two keys every evaluation reads. *)
Definition scene_has_trigger (sc : scene) : bool :=
  match scene_trigger_entity sc, scene_trigger_value sc with
  | Some _, Some _ => true
  | _, _ => false
  end.

(** The two listeners of a scene that passes the startup check. *)
Definition scene_listeners (h : hass) (room_name : string) (sc : scene) : list listener :=
  if scene_is_valid h sc then
    match scene_trigger_entity sc with
    | Some t =>
        [ {| listen_callback := callback_room_for room_name "scene";
             listen_entity := t; listen_attribute := None;
             listen_new := scene_trigger_value sc; listen_old := None;
             listen_duration := None |};
          {| listen_callback := callback_room_for room_name "scene";
             listen_entity := t; listen_attribute := None;
             listen_new := None; listen_old := scene_trigger_value sc;
             listen_duration := None |} ]
    | None => []
    end
  else [].

(** The rooms that a change of the sun elevation drives again: those with
    bindings whose light is on (line 440). *)
Definition redriven (s : app) (room_name : string) : bool :=
  match room_of s room_name with
  | Some r => has_bindings r && is_light_on r
  | None => false
  end.

(** A mode after [set_natural_lighting]: same name and bounds, brightness
    and kelvin scaled from the sun elevation of [nl]. *)
Definition recomputed (nl : natural_lighting_config) (old new : string * mode) : Prop :=
  fst new = fst old
  /\ max_brightness (snd new) = max_brightness (snd old)
  /\ min_brightness (snd new) = min_brightness (snd old)
  /\ max_kelvin (snd new) = max_kelvin (snd old)
  /\ min_kelvin (snd new) = min_kelvin (snd old)
  /\ scale (sun_elevation nl)
        (min_elevation_for_brightness nl, max_elevation_for_brightness nl)
        (min_brightness (snd old), max_brightness (snd old))
      = Ok (brightness (snd new))
  /\ scale (sun_elevation nl)
        (min_elevation_for_kelvin nl, max_elevation_for_kelvin nl)
        (min_kelvin (snd old), max_kelvin (snd old))
      = Ok (kelvin (snd new)).

(** ** Concrete configurations used in the examples *)

(** A host given by the states of its entities; an entity it does not know
    has the state [None]. *)
Definition host_of (states : list (string * pyval)) : hass :=
  {| get_state := fun e => or_default (dict_get e states) VNone;
     get_attribute := fun _ _ => VNone;
     entity_exists := fun e => dict_has e states |}.

Definition no_args : args :=
  {| args_rooms := None; args_natural_lighting := None; args_transitions := None |}.

(** An application with the given rooms and the default transitions. *)
Definition app_of (cfg : option natural_lighting_config) (rooms : list (string * room))
  : app :=
  {| self_entities := []; self_natural_lighting := cfg;
     self_transitions := init_transitions no_args; self_rooms := rooms;
     listeners := []; calls := []; dispatched := [] |}.

(** A room with a luminance sensor, limit 10 and hysteresis 2. *)
Definition lux_room (low : bool) : room :=
  {| occupancy_entity := None; lights_entity := "light.room";
     occupancy_off_delay := 0;
     luminance_entity := Some "sensor.lux";
     luminance_limit := VInt 10; luminance_hysteresis := VInt 2;
     hight_luminance_off_light := false;
     occupancy := true; low_light := low; is_light_on := false;
     natural_lighting := None; scenes := None |}.

(** The low-light flag of that room after one evaluation in which the
    sensor reads [reading]. *)
Definition low_light_after (low : bool) (reading : pyval) : option bool :=
  option_map low_light
    (room_of
       (snd (set_is_light_on (host_of [("sensor.lux", reading)]) "room" "low_light"
               (app_of None [("room", lux_room low)])))
       "room").

Definition movie_scene (force : bool) : scene :=
  {| scene_entity := Some "scene.movie";
     scene_trigger_entity := Some "input_boolean.movie";
     scene_trigger_value := Some (VStr "on");
     scene_force_light_on := Some (VBool force) |}.

(** A room with a presence sensor and one scene bound to a switch. *)
Definition scene_room (on low force : bool) : room :=
  {| occupancy_entity := Some "binary_sensor.presence"; lights_entity := "light.room";
     occupancy_off_delay := 0;
     luminance_entity := Some "sensor.lux";
     luminance_limit := VInt 10; luminance_hysteresis := VInt 0;
     hight_luminance_off_light := false;
     occupancy := true; low_light := low; is_light_on := on;
     natural_lighting := None;
     scenes := Some [movie_scene force] |}.

(** A host for that room: presence, luminance and the scene switch. *)
Definition scene_host (presence lux switch : string) : hass :=
  host_of [("binary_sensor.presence", VStr presence); ("sensor.lux", VStr lux);
           ("input_boolean.movie", VStr switch); ("scene.movie", VStr "scening")].

(** A configuration with two rooms.  The first names a luminance sensor
    that the host does not have; the second is a plain room. *)
Definition hall_args : room_args :=
  {| arg_occupancy_entity := None; arg_lights_entity := Some "light.hall";
     arg_occupancy_off_delay := None;
     arg_luminance_entity := Some "sensor.hall_lux";
     arg_luminance_limit := None; arg_luminance_hysteresis := None;
     arg_hight_luminance_off_light := None;
     arg_occupancy := None; arg_low_light := None; arg_is_light_on := None;
     arg_natural_lighting := None; arg_scenes := None |}.

Definition study_args : room_args :=
  {| arg_occupancy_entity := None; arg_lights_entity := Some "light.study";
     arg_occupancy_off_delay := None;
     arg_luminance_entity := None;
     arg_luminance_limit := None; arg_luminance_hysteresis := None;
     arg_hight_luminance_off_light := None;
     arg_occupancy := None; arg_low_light := None; arg_is_light_on := None;
     arg_natural_lighting := None; arg_scenes := None |}.

Definition rooms_args (l : list (string * room_args)) : args :=
  {| args_rooms := Some l; args_natural_lighting := None; args_transitions := None |}.

Definition two_lights_host : hass :=
  host_of [("light.hall", VStr "off"); ("light.study", VStr "off")].

(** The natural-lighting dictionary of the default configuration, before
    the first reading of the sun. *)
Definition default_natural_lighting (ms : list (string * mode)) : natural_lighting_config :=
  {| modes := ms; sun_entity := "sun.sun";
     min_elevation_for_brightness := -20; max_elevation_for_brightness := 20;
     min_elevation_for_kelvin := 0; max_elevation_for_kelvin := 20;
     sun_elevation := VInt 0 |}.

(** A lit room with one binding to the default mode. *)
Definition sunlit_room (lights : string) (boost_pct : Z) (sc : option (list scene)) : room :=
  {| occupancy_entity := None; lights_entity := lights;
     occupancy_off_delay := 0;
     luminance_entity := None;
     luminance_limit := VInt 10; luminance_hysteresis := VInt 0;
     hight_luminance_off_light := false;
     occupancy := true; low_light := true; is_light_on := true;
     natural_lighting := Some [ {| name := "default"; boost_brightness_pct := boost_pct;
                                   binding_lights_entity := None;
                                   natural_entity := Some lights |} ];
     scenes := sc |}.

(** A scene binding without [scene_entity], whose switch is on. *)
Definition nameless_scene : scene :=
  {| scene_entity := None;
     scene_trigger_entity := Some "input_boolean.movie";
     scene_trigger_value := Some (VStr "on");
     scene_force_light_on := None |}.

(** The integers [lo], [lo + 1], ..., [lo + n - 1]. *)
Definition zrange (lo : Z) (n : nat) : list Z :=
  map (fun i => lo + Z.of_nat i) (seq 0 n).

(** The boost of the code gives the exact boost, or one less. *)
Definition boost_within_one (b boost_pct : Z) : bool :=
  match boost (VInt b) boost_pct with
  | Ok (VInt x) => (x =? boost_exact b boost_pct) || (x =? boost_exact b boost_pct - 1)
  | _ => false
  end.

(** [scale] gives the exact scaling. *)
Definition scale_is_exact (src dst : Z * Z) (v : Z) : bool :=
  match scale (VInt v) src dst with
  | Ok (VInt x) => x =? scale_exact v src dst
  | _ => false
  end.

(** The default mode with a lower bound of 0 for the brightness. *)
Definition dim_mode : mode :=
  {| max_brightness := 255; min_brightness := 0;
     max_kelvin := 5500; min_kelvin := 2000;
     brightness := VInt 0; kelvin := VInt 0 |}.

(** The default mode at brightness 250. *)
Definition bright_mode : mode :=
  {| max_brightness := 255; min_brightness := 100;
     max_kelvin := 5500; min_kelvin := 2000;
     brightness := VInt 250; kelvin := VInt 4000 |}.

Definition boosted_binding (boost_pct : Z) : binding :=
  {| name := "default"; boost_brightness_pct := boost_pct;
     binding_lights_entity := None; natural_entity := Some "light.room" |}.

(** The service call that turns a scene on (lines 129-133). *)
Definition scene_call (entity : string) (transition : pyval) : service_call :=
  {| call_entity := entity; call_service := "turn_on";
     call_brightness := None; call_kelvin := None;
     call_transition :=
       if String.eqb (domain_of entity) "script" then None
       else transition_arg transition |}.

(** A scene binding that fails the startup check: its target is a light,
    neither a script nor a scene. *)
Definition lamp_scene : scene :=
  {| scene_entity := Some "light.lamp";
     scene_trigger_entity := Some "input_boolean.movie";
     scene_trigger_value := Some (VStr "on");
     scene_force_light_on := Some (VBool true) |}.

Definition den_args : room_args :=
  {| arg_occupancy_entity := Some "binary_sensor.presence";
     arg_lights_entity := Some "light.den";
     arg_occupancy_off_delay := None;
     arg_luminance_entity := None;
     arg_luminance_limit := None; arg_luminance_hysteresis := None;
     arg_hight_luminance_off_light := None;
     arg_occupancy := None; arg_low_light := None; arg_is_light_on := None;
     arg_natural_lighting := None; arg_scenes := Some (Listed [lamp_scene]) |}.

Definition den_host (presence switch : string) : hass :=
  host_of [("light.den", VStr "off"); ("light.lamp", VStr "off");
           ("binary_sensor.presence", VStr presence);
           ("input_boolean.movie", VStr switch)].

(** ** Frames

    A relation between the state before and the state after is kept by a
    computation when it holds whatever the outcome is. *)
Definition keeps (R : app -> app -> Prop) {A : Type} (m : M A) : Prop :=
  forall s, R s (snd (m s)).

(** Nothing of [self] and no listener changed. *)
Definition same_self (s s' : app) : Prop :=
  self_entities s' = self_entities s
  /\ self_natural_lighting s' = self_natural_lighting s
  /\ self_transitions s' = self_transitions s
  /\ self_rooms s' = self_rooms s
  /\ listeners s' = listeners s.

Definition same_dispatched (s s' : app) : Prop := dispatched s' = dispatched s.

Definition same_rooms (s s' : app) : Prop := self_rooms s' = self_rooms s.

Definition same_listeners (s s' : app) : Prop := listeners s' = listeners s.

(** ** Reference definitions for the further properties *)

(** The defaults of [init_transitions] (lines 333-340). *)
Definition default_transitions : list (string * pyval) :=
  [("init", VNone); ("occupancy", VNone); ("low_light", VInt 15);
   ("scene", VInt 10); ("natural_lighting", VInt 10); ("off", VNone)].

(** The states of a presence sensor that are words for "occupied". *)
Definition occupied_word (state : string) : bool :=
  existsb (String.eqb state) ["on"; "home"; "true"; "True"].

(** A string without a dot. *)
Fixpoint dotless (s : string) : bool :=
  match s with
  | EmptyString => true
  | String c rest => negb (Ascii.eqb c ".") && dotless rest
  end.

(** The state once [set_light] has written its first debug line. *)
Definition entered (s : app) (room_name trigger : string) : app :=
  set_dispatched
    (dispatched s ++ [(room_name, trigger, transition_for s trigger)])%list s.

(** The plain calls of the dispatcher (lines 157-170). *)
Definition plain_call (r : room) (transition : pyval) : service_call :=
  {| call_entity := lights_entity r; call_service := "turn_on";
     call_brightness := None; call_kelvin := None;
     call_transition := transition_arg transition |}.

Definition off_call (r : room) (off : pyval) : service_call :=
  {| call_entity := lights_entity r; call_service := "turn_off";
     call_brightness := None; call_kelvin := None;
     call_transition := transition_arg off |}.

(** No scene of the room is active, and every scene can be read. *)
Definition no_scene_active (h : hass) (r : room) : bool :=
  match scenes r with
  | None => true
  | Some l => forallb scene_has_trigger l && negb (existsb (scene_matches h) l)
  end.

(** The binding [b] is driven by the call [c]: its mode exists, the boost
    has a value. *)
Definition drives (cfg : natural_lighting_config) (r : room) (transition : pyval)
    (b : binding) (c : service_call) : Prop :=
  exists m level,
    dict_get (name b) (modes cfg) = Some m
    /\ boost (brightness m) (boost_brightness_pct b) = Ok level
    /\ c = binding_call r m b level transition.

(** The binding [b] can be driven. *)
Definition resolves (cfg : natural_lighting_config) (b : binding) : Prop :=
  exists m level,
    dict_get (name b) (modes cfg) = Some m
    /\ boost (brightness m) (boost_brightness_pct b) = Ok level.

(** Two rooms with the same configuration: they may differ in the three
    flags only. *)
Definition same_config (r r' : room) : Prop :=
  occupancy_entity r' = occupancy_entity r
  /\ lights_entity r' = lights_entity r
  /\ occupancy_off_delay r' = occupancy_off_delay r
  /\ luminance_entity r' = luminance_entity r
  /\ luminance_limit r' = luminance_limit r
  /\ luminance_hysteresis r' = luminance_hysteresis r
  /\ hight_luminance_off_light r' = hight_luminance_off_light r
  /\ natural_lighting r' = natural_lighting r
  /\ scenes r' = scenes r.

(** The application's setup: everything of [self] but the rooms, and the
    listeners. *)
Definition same_setup (s s' : app) : Prop :=
  self_entities s' = self_entities s
  /\ self_natural_lighting s' = self_natural_lighting s
  /\ self_transitions s' = self_transitions s
  /\ listeners s' = listeners s.

(** The luminance step of the room cannot raise and has a guard band that
    is not negative: the room has no luminance sensor, or limit, hysteresis
    and reading all convert to integers and the hysteresis is at least 0. *)
Definition luminance_settled (h : hass) (r : room) : Prop :=
  configured (luminance_entity r) = None
  \/ exists e limit hyst reading,
       configured (luminance_entity r) = Some e
       /\ int (luminance_limit r) = VInt limit
       /\ int (luminance_hysteresis r) = VInt hyst
       /\ 0 <= hyst
       /\ int (get_state h e) = VInt reading.

(** The room as an evaluation leaves it, whatever the outcome. *)
Definition evaluated (h : hass) (trigger : string) (r : room) : room :=
  match refreshed h r with
  | Raise _ => occupancy_refreshed h r
  | Ok r1 =>
      match force_light_on h (or_default (scenes r) []) with
      | Raise _ => r1
      | Ok force => decided force trigger r1
      end
  end.

(** Two modes with the same four configured bounds. *)
Definition same_bounds (m m' : mode) : Prop :=
  max_brightness m' = max_brightness m
  /\ min_brightness m' = min_brightness m
  /\ max_kelvin m' = max_kelvin m
  /\ min_kelvin m' = min_kelvin m.

(** Two natural-lighting dictionaries that differ in their modes only. *)
Definition same_sun (nl nl' : natural_lighting_config) : Prop :=
  sun_entity nl' = sun_entity nl
  /\ min_elevation_for_brightness nl' = min_elevation_for_brightness nl
  /\ max_elevation_for_brightness nl' = max_elevation_for_brightness nl
  /\ min_elevation_for_kelvin nl' = min_elevation_for_kelvin nl
  /\ max_elevation_for_kelvin nl' = max_elevation_for_kelvin nl
  /\ sun_elevation nl' = sun_elevation nl.

(** The listener that [init_natural_lighting] registers on the sun. *)
Definition sun_listener (sun : string) : listener :=
  {| listen_callback := callback_sun_elevation_for;
     listen_entity := sun; listen_attribute := Some "elevation";
     listen_new := None; listen_old := None; listen_duration := None |}.

(** An empty [natural_lighting:] section: natural lighting with every
    default. *)
Definition plain_natural_lighting_args : natural_lighting_args :=
  {| arg_modes := None; arg_sun_entity := None;
     arg_min_elevation_for_brightness := None;
     arg_max_elevation_for_brightness := None;
     arg_min_elevation_for_kelvin := None;
     arg_max_elevation_for_kelvin := None |}.

(** A host that knows the elevation of the sun. *)
Definition sun_host (elevation : pyval) : hass :=
  {| get_state := fun _ => VNone;
     get_attribute := fun e a =>
       if String.eqb e "sun.sun" && String.eqb a "elevation" then elevation else VNone;
     entity_exists := fun _ => true |}.

(** A configuration with a [natural_lighting:] section and no room. *)
Definition natural_lighting_only (na : natural_lighting_args) : args :=
  {| args_rooms := None; args_natural_lighting := Some na; args_transitions := None |}.

(** A mode of the configuration that has no name. *)
Definition nameless_mode_args : mode_args :=
  {| arg_mode_name := None; arg_max_brightness := Some 200;
     arg_min_brightness := None; arg_max_kelvin := None; arg_min_kelvin := None |}.

(** The lights of a configured room, when they pass the startup check
    (line 204): a name that is not empty, of an entity that exists. *)
Definition lights_ok (h : hass) (ra : room_args) : option string :=
  match configured (arg_lights_entity ra) with
  | Some e => if entity_exists h e then Some e else None
  | None => None
  end.

(** The room [r] is the configuration [ra] with the defaults filled in: the
    three flags are the configured ones, and [True], [True] and [False]
    when the configuration does not give them. *)
Definition built_from (h : hass) (ra : room_args) (r : room) : Prop :=
  lights_ok h ra = Some (lights_entity r)
  /\ occupancy_entity r = arg_occupancy_entity ra
  /\ occupancy_off_delay r = or_default (arg_occupancy_off_delay ra) 0
  /\ luminance_entity r = arg_luminance_entity ra
  /\ luminance_limit r = or_default (arg_luminance_limit ra) (VInt 10)
  /\ luminance_hysteresis r = or_default (arg_luminance_hysteresis ra) (VInt 0)
  /\ hight_luminance_off_light r = or_default (arg_hight_luminance_off_light ra) false
  /\ occupancy r = or_default (arg_occupancy ra) true
  /\ low_light r = or_default (arg_low_light ra) true
  /\ is_light_on r = or_default (arg_is_light_on ra) false
  /\ scenes r = match arg_scenes ra with
                | Some (Listed l) => Some l
                | _ => None
                end
  /\ (natural_lighting r = None <-> arg_natural_lighting ra = None).

(** The binding [b] is the configured [ba] with the defaults filled in: a
    mode name that is not in [nl] is replaced by ["default"]. *)
Definition binding_from (nl : natural_lighting_config) (lights : string)
    (ba : binding_args) (b : binding) : Prop :=
  name b = (if dict_has (or_default (arg_name ba) "default") (modes nl)
            then or_default (arg_name ba) "default" else "default")
  /\ boost_brightness_pct b = or_default (arg_boost_brightness_pct ba) 0
  /\ binding_lights_entity b = arg_binding_lights_entity ba
  /\ natural_entity b = Some (or_default (arg_natural_entity ba) lights).

(** A configured room that reads [self.natural_lighting['modes']] at
    startup (line 219): its lights pass the check and its
    [natural_lighting] is a list with at least one entry. *)
Definition reads_modes (h : hass) (ra : room_args) : bool :=
  match lights_ok h ra, arg_natural_lighting ra with
  | Some _, Some (Listed (_ :: _)) => true
  | _, _ => false
  end.

(** What the setup of the rooms leaves alone: all of the state but the
    tracked entities and the listeners. *)
Definition same_but_tracking (s s' : app) : Prop :=
  self_natural_lighting s' = self_natural_lighting s
  /\ self_transitions s' = self_transitions s
  /\ self_rooms s' = self_rooms s
  /\ calls s' = calls s
  /\ dispatched s' = dispatched s.

(** A listener of a room: on an entity of the host, calling
    [callback_room] for one of [names] with one of the three triggers. *)
Definition room_listener (h : hass) (names : list string) (x : listener) : Prop :=
  entity_exists h (listen_entity x) = true
  /\ exists n t,
       listen_callback x = callback_room_for n t
       /\ In n names
       /\ In t ["scene"; "occupancy"; "low_light"].

(** The listeners of [s'] are those of [s], followed by listeners that
    satisfy [P]. *)
Definition listens_more (P : listener -> Prop) (s s' : app) : Prop :=
  exists ls, listeners s' = (listeners s ++ ls)%list /\ Forall P ls.

(** The study, with a natural-lighting binding that takes every default. *)
Definition bound_study_args : room_args :=
  {| arg_occupancy_entity := None; arg_lights_entity := Some "light.study";
     arg_occupancy_off_delay := None;
     arg_luminance_entity := None;
     arg_luminance_limit := None; arg_luminance_hysteresis := None;
     arg_hight_luminance_off_light := None;
     arg_occupancy := None; arg_low_light := None; arg_is_light_on := None;
     arg_natural_lighting :=
       Some (Listed [ {| arg_name := None; arg_boost_brightness_pct := None;
                         arg_binding_lights_entity := None;
                         arg_natural_entity := None |} ]);
     arg_scenes := None |}.

(** The study, configured with two of the flags: the light counts as on,
    the room as empty. *)
Definition lit_study_args : room_args :=
  {| arg_occupancy_entity := None; arg_lights_entity := Some "light.study";
     arg_occupancy_off_delay := None;
     arg_luminance_entity := None;
     arg_luminance_limit := None; arg_luminance_hysteresis := None;
     arg_hight_luminance_off_light := None;
     arg_occupancy := Some false; arg_low_light := None; arg_is_light_on := Some true;
     arg_natural_lighting := None; arg_scenes := None |}.

(** * Properties *)

(** ** Dictionaries *)

Section DictFacts.
Variable V : Type.
Implicit Types (d : list (string * V)) (k : string) (v : V).

Lemma dict_get_set_same d k v : dict_get k (dict_set k v d) = Some v.
Proof.
  induction d as [|[k' v'] d IH]; simpl.
  - now rewrite String.eqb_refl.
  - destruct (String.eqb k k') eqn:E; simpl; rewrite E; auto.
Qed.

Lemma dict_get_set_other d k k' v :
  k <> k' -> dict_get k' (dict_set k v d) = dict_get k' d.
Proof.
  intros Hne. induction d as [|[k0 v0] d IH]; simpl.
  - destruct (String.eqb k' k) eqn:E; auto.
    apply String.eqb_eq in E. congruence.
  - destruct (String.eqb k k0) eqn:E; simpl.
    + apply String.eqb_eq in E. subst k0.
      destruct (String.eqb k' k) eqn:E'; auto.
      apply String.eqb_eq in E'. congruence.
    + now rewrite IH.
Qed.

Lemma dict_set_get d k v : dict_get k d = Some v -> dict_set k v d = d.
Proof.
  induction d as [|[k' v'] d IH]; simpl; [discriminate|].
  destruct (String.eqb k k') eqn:E; intros H.
  - now inversion H.
  - now rewrite IH.
Qed.

Lemma dict_set_set d k v v' : dict_set k v' (dict_set k v d) = dict_set k v' d.
Proof.
  induction d as [|[k0 v0] d IH]; simpl.
  - now rewrite String.eqb_refl.
  - destruct (String.eqb k k0) eqn:E; simpl; rewrite E; auto.
    now rewrite IH.
Qed.

End DictFacts.

(** ** The state *)

Lemma set_self_rooms_same s : set_self_rooms (self_rooms s) s = s.
Proof. now destruct s. Qed.

(** Unfolding the plumbing of [M]. *)
Ltac run :=
  repeat (progress (unfold update_room, the_room, invoke, listen_state, bind, ret,
                      raise, lift, gets, modify, key in *; simpl in *)).

(** ** Frames: the rules that follow the structure of a computation *)
Section Frames.
Variable R : app -> app -> Prop.
Hypothesis R_refl : forall s, R s s.
Hypothesis R_trans : forall s1 s2 s3, R s1 s2 -> R s2 s3 -> R s1 s3.

Lemma keeps_ret A (a : A) : keeps R (ret a).
Proof. intros s. apply R_refl. Qed.

Lemma keeps_raise A e : keeps R (@raise A e).
Proof. intros s. apply R_refl. Qed.

Lemma keeps_lift A (x : outcome A) : keeps R (lift x).
Proof. intros s. apply R_refl. Qed.

Lemma keeps_gets A (f : app -> A) : keeps R (gets f).
Proof. intros s. apply R_refl. Qed.

Lemma keeps_key A (x : option A) : keeps R (key x).
Proof. destruct x; intros s; apply R_refl. Qed.

Lemma keeps_bind A B (m : M A) (f : A -> M B) :
  keeps R m -> (forall a, keeps R (f a)) -> keeps R (bind m f).
Proof.
  intros Hm Hf s. unfold bind. specialize (Hm s).
  destruct (m s) as [[a|e] s']; simpl in *; auto.
  eapply R_trans; [exact Hm | apply Hf].
Qed.

Lemma keeps_for_each A (l : list A) (body : A -> M unit) :
  (forall x, keeps R (body x)) -> keeps R (for_each l body).
Proof.
  intros Hb. induction l as [|x l IH]; simpl.
  - apply keeps_ret.
  - apply keeps_bind; auto.
Qed.

Lemma keeps_modify (f : app -> app) :
  (forall s, R s (f s)) -> keeps R (modify f).
Proof. intros Hf s. apply Hf. Qed.

Lemma keeps_the_room n : keeps R (the_room n).
Proof.
  unfold the_room. apply keeps_bind; [apply keeps_gets|].
  intros a. apply keeps_key.
Qed.
End Frames.

(** The relations are reflexive and transitive. *)




Lemma same_self_refl s : same_self s s.
Proof. repeat split. Qed.

Lemma same_self_trans s1 s2 s3 : same_self s1 s2 -> same_self s2 s3 -> same_self s1 s3.
Proof. unfold same_self. intuition congruence. Qed.

Lemma same_dispatched_refl s : same_dispatched s s.
Proof. reflexivity. Qed.

Lemma same_dispatched_trans s1 s2 s3 :
  same_dispatched s1 s2 -> same_dispatched s2 s3 -> same_dispatched s1 s3.
Proof. unfold same_dispatched. congruence. Qed.

Lemma same_rooms_refl s : same_rooms s s.
Proof. reflexivity. Qed.

Lemma same_rooms_trans s1 s2 s3 : same_rooms s1 s2 -> same_rooms s2 s3 -> same_rooms s1 s3.
Proof. unfold same_rooms. congruence. Qed.

Create HintDb frames.
#[local] Hint Resolve same_self_refl same_self_trans same_dispatched_refl
  same_dispatched_trans same_rooms_refl same_rooms_trans : frames.

(** Structural proof of a [keeps] goal: follow the binds and the branches. *)
Ltac frame :=
  repeat first
    [ solve [eauto with frames]
    | match goal with
      | |- forall _, _ => intro
      | |- keeps _ (if ?x then _ else _) => destruct x
      | |- keeps _ (match ?x with _ => _ end) => destruct x
      | |- keeps _ (let (_, _) := ?x in _) => destruct x
      end
    | apply keeps_ret | apply keeps_raise | apply keeps_lift | apply keeps_gets
    | apply keeps_key | apply keeps_the_room | apply keeps_bind
    | apply keeps_for_each | apply keeps_modify ].

Lemma invoke_same_self c : keeps same_self (invoke c).
Proof. unfold invoke. frame. repeat split. Qed.

Lemma invoke_same_dispatched c : keeps same_dispatched (invoke c).
Proof. unfold invoke. frame. reflexivity. Qed.

Lemma invoke_same_rooms c : keeps same_rooms (invoke c).
Proof. unfold invoke. frame. reflexivity. Qed.

#[local] Hint Resolve invoke_same_self invoke_same_dispatched invoke_same_rooms : frames.

Lemma set_light_scenes_same_self h t l : keeps same_self (set_light_scenes h t l).
Proof. induction l as [|sc l IH]; simpl; frame. Qed.

Lemma set_light_scenes_same_dispatched h t l : keeps same_dispatched (set_light_scenes h t l).
Proof. induction l as [|sc l IH]; simpl; frame. Qed.

Lemma set_light_binding_same_self cfg r t b : keeps same_self (set_light_binding cfg r t b).
Proof. unfold set_light_binding. frame. Qed.

Lemma set_light_binding_same_dispatched cfg r t b :
  keeps same_dispatched (set_light_binding cfg r t b).
Proof. unfold set_light_binding. frame. Qed.

#[local] Hint Resolve set_light_scenes_same_self set_light_scenes_same_dispatched
  set_light_binding_same_self set_light_binding_same_dispatched : frames.

(** [set_light] reads the rooms and never writes them. *)
Lemma set_light_same_self h room_name trigger :
  keeps same_self (set_light h room_name trigger).
Proof. unfold set_light. frame. repeat split. Qed.

(** [set_light] leaves exactly one entry in the trace. *)
Lemma set_light_dispatched h room_name trigger s :
  dispatched (snd (set_light h room_name trigger s))
  = (dispatched s ++ [(room_name, trigger, transition_for s trigger)])%list.
Proof.
  unfold set_light, transition_for, or_default.
  unfold bind at 1, gets at 1. simpl.
  unfold bind at 1, modify at 1. simpl.
  match goal with
  | |- dispatched (snd (?m ?s0)) = _ =>
      assert (K : keeps same_dispatched m) by frame;
      rewrite (K s0)
  end.
  reflexivity.
Qed.

(** ** The decision engine, step by step *)

Lemma update_room_run room_name f s r :
  room_of s room_name = Some r ->
  update_room room_name f s
  = (Ok tt, set_self_rooms (dict_set room_name (f r) (self_rooms s)) s).
Proof. unfold room_of. intros H. run. now rewrite H. Qed.

Lemma room_of_set s room_name r :
  room_of (set_self_rooms (dict_set room_name r (self_rooms s)) s) room_name = Some r.
Proof. unfold room_of. simpl. apply dict_get_set_same. Qed.

Lemma room_of_set_other s n n' r :
  n <> n' ->
  room_of (set_self_rooms (dict_set n r (self_rooms s)) s) n' = room_of s n'.
Proof. unfold room_of. simpl. apply dict_get_set_other. Qed.

Lemma set_room_same s room_name r :
  room_of s room_name = Some r ->
  set_self_rooms (dict_set room_name r (self_rooms s)) s = s.
Proof.
  unfold room_of. intros H. rewrite (dict_set_get _ _ H). apply set_self_rooms_same.
Qed.

Lemma set_room_twice s room_name r r' :
  set_self_rooms
    (dict_set room_name r'
       (self_rooms (set_self_rooms (dict_set room_name r (self_rooms s)) s)))
    (set_self_rooms (dict_set room_name r (self_rooms s)) s)
  = set_self_rooms (dict_set room_name r' (self_rooms s)) s.
Proof. simpl. rewrite dict_set_set. reflexivity. Qed.

Lemma refresh_occupancy_run h room_name s r :
  room_of s room_name = Some r ->
  refresh_occupancy h room_name s
  = (Ok tt,
     set_self_rooms (dict_set room_name (occupancy_refreshed h r) (self_rooms s)) s).
Proof.
  intros H. unfold refresh_occupancy, occupancy_refreshed.
  unfold bind at 1. unfold the_room, bind, gets, key. fold (room_of s room_name).
  rewrite H. simpl.
  destruct (configured (occupancy_entity r)) as [e|].
  - now rewrite (update_room_run _ _ _ H).
  - now rewrite (set_room_same _ _ H).
Qed.

Lemma refresh_low_light_run h room_name s r :
  room_of s room_name = Some r ->
  refresh_low_light h room_name s
  = match low_light_refreshed h r with
    | Ok r1 => (Ok tt, set_self_rooms (dict_set room_name r1 (self_rooms s)) s)
    | Raise e => (Raise e, s)
    end.
Proof.
  intros H. unfold refresh_low_light, low_light_refreshed.
  unfold bind at 1. unfold the_room, bind, gets, key. fold (room_of s room_name).
  rewrite H. simpl.
  destruct (configured (luminance_entity r)) as [e|].
  - unfold lift. destruct (effective_limit r) as [limit|x]; simpl; auto.
    destruct (Py.le (int (get_state h e)) limit) as [dark|x]; simpl; auto.
    now rewrite (update_room_run _ _ _ H).
  - now rewrite (set_room_same _ _ H).
Qed.

Lemma occupancy_refreshed_frame h r :
  is_light_on (occupancy_refreshed h r) = is_light_on r
  /\ low_light (occupancy_refreshed h r) = low_light r
  /\ scenes (occupancy_refreshed h r) = scenes r
  /\ hight_luminance_off_light (occupancy_refreshed h r) = hight_luminance_off_light r
  /\ luminance_entity (occupancy_refreshed h r) = luminance_entity r
  /\ luminance_limit (occupancy_refreshed h r) = luminance_limit r
  /\ luminance_hysteresis (occupancy_refreshed h r) = luminance_hysteresis r
  /\ natural_lighting (occupancy_refreshed h r) = natural_lighting r.
Proof.
  unfold occupancy_refreshed.
  destruct (configured (occupancy_entity r)); repeat split.
Qed.

Lemma low_light_refreshed_frame h r r1 :
  low_light_refreshed h r = Ok r1 ->
  is_light_on r1 = is_light_on r
  /\ occupancy r1 = occupancy r
  /\ scenes r1 = scenes r
  /\ hight_luminance_off_light r1 = hight_luminance_off_light r
  /\ natural_lighting r1 = natural_lighting r.
Proof.
  unfold low_light_refreshed.
  destruct (configured (luminance_entity r)).
  - destruct (effective_limit r); simpl; [|discriminate].
    destruct (Py.le _ _); simpl; [|discriminate].
    intros E. inversion E. repeat split.
  - intros E. inversion E. repeat split.
Qed.

Lemma refreshed_frame h r r1 :
  refreshed h r = Ok r1 ->
  is_light_on r1 = is_light_on r
  /\ scenes r1 = scenes r
  /\ hight_luminance_off_light r1 = hight_luminance_off_light r
  /\ natural_lighting r1 = natural_lighting r.
Proof.
  unfold refreshed. intros E.
  destruct (low_light_refreshed_frame _ _ E) as (A & _ & B & C & D).
  destruct (occupancy_refreshed_frame h r) as (A' & _ & B' & C' & _ & _ & _ & D').
  repeat split; congruence.
Qed.

(** The whole of [set_is_light_on]: the sensors are read, the scene list is
    scanned, the room is decided, and the dispatcher runs or not.  An
    exception leaves the room as the steps before it made it. *)
Lemma set_is_light_on_run h room_name trigger s r :
  room_of s room_name = Some r ->
  let put x := set_self_rooms (dict_set room_name x (self_rooms s)) s in
  set_is_light_on h room_name trigger s
  = match refreshed h r with
    | Raise e => (Raise e, put (occupancy_refreshed h r))
    | Ok r1 =>
        match force_light_on h (or_default (scenes r) []) with
        | Raise e => (Raise e, put r1)
        | Ok force =>
            let r2 := decided force trigger r1 in
            if must_dispatch trigger (is_light_on r) (is_light_on r2)
            then set_light h room_name
                   (dispatch_trigger force trigger (is_light_on r)) (put r2)
            else (Ok tt, put r2)
        end
    end.
Proof.
  intros Hr put.
  unfold set_is_light_on.
  unfold bind at 1. rewrite (refresh_occupancy_run _ _ _ Hr).
  unfold bind at 1. rewrite (refresh_low_light_run h _ _ (room_of_set _ _ _)).
  unfold refreshed.
  destruct (low_light_refreshed h (occupancy_refreshed h r)) as [r1|x] eqn:Href;
    [|reflexivity].
  destruct (refreshed_frame h r Href) as (Hon & Hsc & _ & _).
  rewrite set_room_twice.
  set (s1 := set_self_rooms (dict_set room_name r1 (self_rooms s)) s).
  assert (H1 : room_of s1 room_name = Some r1) by apply room_of_set.
  unfold bind at 1. unfold the_room at 1, bind at 1, gets at 1, key.
  fold (room_of s1 room_name). rewrite H1.
  unfold ret at 1.
  unfold bind at 1, lift at 1.
  replace (match scenes r1 with
           | Some l => force_light_on h l
           | None => Ok false
           end) with (force_light_on h (or_default (scenes r) []))
    by (rewrite Hsc; destruct (scenes r); reflexivity).
  destruct (force_light_on h (or_default (scenes r) [])) as [force|x]; [|reflexivity].
  unfold decided, dispatch_trigger. rewrite Hon.
  destruct force.
  - unfold bind at 1. rewrite (update_room_run _ _ _ H1).
    subst s1. rewrite set_room_twice.
    unfold bind at 1. unfold the_room at 1, bind at 1, gets at 1, key.
    match goal with |- context [dict_get room_name (self_rooms ?x)] =>
      fold (room_of x room_name) end.
    rewrite room_of_set. unfold ret at 1. cbv beta iota.
    destruct (must_dispatch _ _ _); [destruct (_ && _)|]; reflexivity.
  - destruct (recompute r1 trigger).
    + unfold bind at 1. rewrite (update_room_run _ _ _ H1).
      subst s1. rewrite set_room_twice.
      unfold bind at 1. unfold the_room at 1, bind at 1, gets at 1, key.
      match goal with |- context [dict_get room_name (self_rooms ?x)] =>
        fold (room_of x room_name) end.
      rewrite room_of_set. unfold ret at 1. cbv beta iota.
      destruct (must_dispatch _ _ _); [destruct (_ && _)|]; reflexivity.
    + unfold bind at 1. unfold ret at 1.
      unfold bind at 1. unfold the_room at 1, bind at 1, gets at 1, key.
      fold (room_of s1 room_name). rewrite H1. unfold ret at 1.
      cbv beta iota.
      destruct (must_dispatch _ _ _); [destruct (_ && _)|]; reflexivity.
Qed.

Lemma set_light_room h n trigger s n' :
  room_of (snd (set_light h n trigger s)) n' = room_of s n'.
Proof.
  unfold room_of. destruct (set_light_same_self h n trigger s) as (_ & _ & _ & E & _).
  now rewrite E.
Qed.

Lemma decided_frame force trigger r :
  low_light (decided force trigger r) = low_light r
  /\ occupancy (decided force trigger r) = occupancy r.
Proof.
  unfold decided. destruct force; [|destruct (recompute r trigger)]; split; reflexivity.
Qed.

(** The room after an evaluation that got past the sensors and the scenes. *)
Lemma set_is_light_on_room h room_name trigger s r r1 force :
  room_of s room_name = Some r ->
  refreshed h r = Ok r1 ->
  force_light_on h (or_default (scenes r) []) = Ok force ->
  room_of (snd (set_is_light_on h room_name trigger s)) room_name
  = Some (decided force trigger r1).
Proof.
  intros Hr Href Hf. rewrite (set_is_light_on_run h _ trigger _ Hr).
  cbv zeta. rewrite Href, Hf.
  destruct (must_dispatch _ _ _); simpl.
  - rewrite set_light_room. apply room_of_set.
  - apply room_of_set.
Qed.

(** The two sensor flags after an evaluation that got past the sensors:
    nothing after the refresh touches them, whatever happens next. *)
Lemma set_is_light_on_flags h room_name trigger s r r1 :
  room_of s room_name = Some r ->
  refreshed h r = Ok r1 ->
  exists r2,
    room_of (snd (set_is_light_on h room_name trigger s)) room_name = Some r2
    /\ low_light r2 = low_light r1
    /\ occupancy r2 = occupancy r1.
Proof.
  intros Hr Href. rewrite (set_is_light_on_run h _ trigger _ Hr).
  cbv zeta. rewrite Href.
  destruct (force_light_on h (or_default (scenes r) [])) as [force|x]; simpl.
  - exists (decided force trigger r1).
    destruct (decided_frame force trigger r1) as [A B].
    destruct (must_dispatch _ _ _); simpl.
    + rewrite set_light_room. now rewrite room_of_set.
    + now rewrite room_of_set.
  - exists r1. now rewrite room_of_set.
Qed.

(** The trace after such an evaluation. *)
Lemma set_is_light_on_dispatched h room_name trigger s r r1 force :
  room_of s room_name = Some r ->
  refreshed h r = Ok r1 ->
  force_light_on h (or_default (scenes r) []) = Ok force ->
  dispatched (snd (set_is_light_on h room_name trigger s))
  = (dispatched s
     ++ if must_dispatch trigger (is_light_on r)
             (is_light_on (decided force trigger r1))
        then let t := dispatch_trigger force trigger (is_light_on r) in
             [(room_name, t, transition_for s t)]
        else [])%list.
Proof.
  intros Hr Href Hf. rewrite (set_is_light_on_run h _ trigger _ Hr).
  cbv zeta. rewrite Href, Hf.
  destruct (must_dispatch _ _ _); simpl.
  - rewrite set_light_dispatched. reflexivity.
  - now rewrite app_nil_r.
Qed.

(** An evaluation writes no room but its own. *)
Lemma set_is_light_on_other_rooms h room_name trigger s n :
  room_name <> n ->
  room_of (snd (set_is_light_on h room_name trigger s)) n = room_of s n.
Proof.
  intros Hn. destruct (room_of s room_name) as [r|] eqn:Hr.
  - rewrite (set_is_light_on_run h _ trigger _ Hr). cbv zeta.
    destruct (refreshed h r) as [r1|x]; [|now apply room_of_set_other].
    destruct (force_light_on h (or_default (scenes r) [])) as [force|x];
      [|now apply room_of_set_other].
    destruct (must_dispatch _ _ _); simpl.
    + rewrite set_light_room. now apply room_of_set_other.
    + now apply room_of_set_other.
  - unfold set_is_light_on, refresh_occupancy.
    unfold bind at 1. unfold bind at 1. unfold the_room, bind, gets, key.
    fold (room_of s room_name). rewrite Hr. reflexivity.
Qed.

(** ** The scene list *)

(** On a list whose scenes all have a trigger, the scan of lines 306-312
    finds whether some scene is active and forces the light. *)
Lemma force_light_on_exists h l :
  forallb scene_has_trigger l = true ->
  force_light_on h l
  = Ok (existsb (fun sc => scene_matches h sc && scene_forces sc) l).
Proof.
  induction l as [|sc l IH]; simpl; [reflexivity|].
  intros H. apply andb_prop in H. destruct H as [H1 H2].
  unfold scene_has_trigger in H1. unfold scene_matches at 1, scene_forces at 1.
  destruct (scene_trigger_entity sc) as [e|]; [|discriminate].
  destruct (scene_trigger_value sc) as [v|]; [|discriminate].
  destruct (Py.eq (get_state h e) v && _); simpl; auto.
Qed.

(** ** Luminance and hysteresis *)

(** The flag as the luminance step leaves it, for a sensor, a limit and a
    hysteresis that [int] turns into integers. *)
Lemma low_light_refreshed_ints h r e limit hyst reading :
  configured (luminance_entity r) = Some e ->
  int (luminance_limit r) = VInt limit ->
  int (luminance_hysteresis r) = VInt hyst ->
  int (get_state h e) = VInt reading ->
  low_light_refreshed h r
  = Ok (with_low_light
          (reading <=? (if low_light r then limit + hyst else limit - hyst)) r).
Proof.
  intros He Hl Hh Hr. unfold low_light_refreshed, effective_limit.
  rewrite He, Hl, Hh, Hr.
  destruct (low_light r); reflexivity.
Qed.




(** ** The decision *)

Lemma recompute_iff r trigger :
  recompute r trigger = true
  <-> ~ (is_light_on r = true /\ low_light r = false)
      \/ hight_luminance_off_light r = true
      \/ trigger = "occupancy".
Proof.
  unfold recompute. rewrite !orb_true_iff, String.eqb_eq.
  destruct (is_light_on r), (low_light r); simpl; intuition congruence.
Qed.

(** C3.  In an evaluation where no force-on scene is active, [is_light_on]
    becomes [occupancy and low_light] exactly when the room is not "on with
    abundant light", or turns its lights off on high luminance, or the
    trigger is [occupancy]; otherwise it is left as it was. *)
Theorem recompute_rule h room_name trigger s r r1 :
  room_of s room_name = Some r ->
  refreshed h r = Ok r1 ->
  force_light_on h (or_default (scenes r) []) = Ok false ->
  exists r2,
    room_of (snd (set_is_light_on h room_name trigger s)) room_name = Some r2
    /\ occupancy r2 = occupancy r1
    /\ low_light r2 = low_light r1
    /\ let fires := ~ (is_light_on r = true /\ low_light r2 = false)
                    \/ hight_luminance_off_light r = true
                    \/ trigger = "occupancy" in
       (fires -> is_light_on r2 = occupancy r2 && low_light r2)
       /\ (~ fires -> is_light_on r2 = is_light_on r).
Proof.
  intros Hr Href Hf.
  destruct (refreshed_frame h r Href) as (Hon & _ & Hh & _).
  exists (decided false trigger r1).
  split; [now apply set_is_light_on_room with (r := r)|].
  destruct (decided_frame false trigger r1) as [L O].
  split; [exact O|]. split; [exact L|].
  cbv zeta. rewrite L, O, <- Hon, <- Hh.
  unfold decided. destruct (recompute r1 trigger) eqn:E.
  - split; [reflexivity|]. intros N. apply recompute_iff in E. contradiction.
  - split; [|reflexivity]. intros F. apply recompute_iff in F. congruence.
Qed.

(** A lit room in abundant light, presence gone, luminance trigger: the
    rule does not fire and the light stays on. *)
Lemma recompute_rule_witness :
  exists r2,
    room_of (snd (set_is_light_on (scene_host "off" "50" "off") "room" "low_light"
                    (app_of None [("room", scene_room true false true)]))) "room"
    = Some r2
    /\ occupancy r2 = false
    /\ low_light r2 = false
    /\ let fires := ~ (true = true /\ low_light r2 = false)
                    \/ false = true
                    \/ "low_light" = "occupancy" in
       (fires -> is_light_on r2 = occupancy r2 && low_light r2)
       /\ (~ fires -> is_light_on r2 = true).
Proof.
  apply (@recompute_rule (scene_host "off" "50" "off") "room" "low_light"
           (app_of None [("room", scene_room true false true)])
           (scene_room true false true)
           (with_low_light false (with_occupancy false (scene_room true false true))));
    reflexivity.
Defined.

(** C5.  If some configured scene's trigger entity is in its trigger state
    and the scene has [scene_force_light_on] set, the evaluation sets
    [is_light_on] to true, whatever the occupancy and low-light flags are:
    the recompute rule is not consulted. *)
Theorem force_on_overrides h room_name trigger s r r1 l sc :
  room_of s room_name = Some r ->
  refreshed h r = Ok r1 ->
  scenes r = Some l ->
  forallb scene_has_trigger l = true ->
  In sc l ->
  scene_matches h sc = true ->
  scene_forces sc = true ->
  exists r2,
    room_of (snd (set_is_light_on h room_name trigger s)) room_name = Some r2
    /\ occupancy r2 = occupancy r1
    /\ low_light r2 = low_light r1
    /\ is_light_on r2 = true.
Proof.
  intros Hr Href Hl Hkeys Hin Hm Hforce.
  assert (Hf : force_light_on h (or_default (scenes r) []) = Ok true).
  { rewrite Hl. simpl. rewrite (force_light_on_exists h l Hkeys). f_equal.
    apply existsb_exists. exists sc. split; [exact Hin|]. now rewrite Hm, Hforce. }
  exists (decided true trigger r1).
  split; [now apply set_is_light_on_room with (r := r)|].
  repeat split.
Qed.

(** Nobody in the room, plenty of light, the scene switch on: light on. *)
Lemma force_on_overrides_witness :
  exists r2,
    room_of (snd (set_is_light_on (scene_host "off" "50" "on") "room" "scene"
                    (app_of None [("room", scene_room false false true)]))) "room"
    = Some r2
    /\ occupancy r2 = false
    /\ low_light r2 = false
    /\ is_light_on r2 = true.
Proof.
  apply (@force_on_overrides (scene_host "off" "50" "on") "room" "scene"
           (app_of None [("room", scene_room false false true)])
           (scene_room false false true)
           (with_low_light false (with_occupancy false (scene_room false false true)))
           [movie_scene true] (movie_scene true));
    try reflexivity.
  left. reflexivity.
Defined.

(** ** The dispatcher *)

(** One binding: the mode is looked up, the boost applied, the light driven. *)
Lemma set_light_binding_run cfg r transition b s :
  set_light_binding cfg r transition b s
  = match dict_get (name b) (modes cfg) with
    | None => (Raise KeyError, s)
    | Some m =>
        match boost (brightness m) (boost_brightness_pct b) with
        | Ok level =>
            (Ok tt, set_calls (calls s ++ [binding_call r m b level transition])%list s)
        | Raise e => (Raise e, s)
        end
    end.
Proof.
  unfold set_light_binding, binding_call. run.
  destruct (dict_get (name b) (modes cfg)) as [m|]; [|reflexivity].
  destruct (boost (brightness m) (boost_brightness_pct b)); [|reflexivity].
  destruct (binding_lights_entity b); reflexivity.
Qed.

(** Inversion of a successful bind. *)
Lemma bind_ok A B (m : M A) (f : A -> M B) s b s' :
  bind m f s = (Ok b, s') ->
  exists a s1, m s = (Ok a, s1) /\ f a s1 = (Ok b, s').
Proof.
  unfold bind. destruct (m s) as [[a|e] s1]; [|discriminate].
  intros H. now exists a, s1.
Qed.

Lemma the_room_ok room_name s r s' :
  the_room room_name s = (Ok r, s') -> s' = s /\ room_of s room_name = Some r.
Proof.
  unfold room_of. run. destruct (dict_get room_name (self_rooms s)); [|discriminate].
  intros H. now inversion H.
Qed.

Lemma set_light_scenes_calls h transition l s b s' :
  set_light_scenes h transition l s = (Ok b, s') ->
  if b then exists c, calls s' = (calls s ++ [c])%list else calls s' = calls s.
Proof.
  induction l as [|sc l IH]; simpl.
  - run. intros H. now inversion H.
  - run.
    destruct (scene_trigger_entity sc) as [e|]; [|discriminate].
    destruct (scene_trigger_value sc) as [v|]; [|discriminate].
    destruct (Py.eq (get_state h e) v); [|exact IH].
    destruct (scene_entity sc) as [x|]; simpl; [|discriminate].
    intros H. inversion H. simpl. eexists. reflexivity.
Qed.

Lemma for_each_bindings_calls cfg r transition bs s s' :
  for_each bs (set_light_binding cfg r transition) s = (Ok tt, s') ->
  exists cs, calls s' = (calls s ++ cs)%list /\ List.length cs = List.length bs.
Proof.
  revert s. induction bs as [|b bs IH]; intros s; simpl.
  - run. intros H. inversion H. exists []. now rewrite app_nil_r.
  - intros H. apply bind_ok in H. destruct H as ([] & s1 & H1 & H).
    rewrite set_light_binding_run in H1.
    destruct (dict_get (name b) (modes cfg)) as [m|]; [|discriminate].
    destruct (boost (brightness m) (boost_brightness_pct b)) as [level|]; [|discriminate].
    inversion H1. subst s1. clear H1.
    destruct (IH _ H) as (cs & E & L).
    exists (binding_call r m b level transition :: cs).
    rewrite E. simpl. rewrite <- app_assoc. split; [reflexivity|]. now rewrite L.
Qed.

(** A call of [set_light] that returns has driven at least one entity. *)
Lemma set_light_calls h room_name trigger s s' :
  set_light h room_name trigger s = (Ok tt, s') ->
  exists c cs, calls s' = (calls s ++ c :: cs)%list.
Proof.
  unfold set_light. intros H.
  apply bind_ok in H. destruct H as (trs & s1 & H1 & H).
  unfold gets in H1. inversion H1. subst trs s1. clear H1.
  apply bind_ok in H. destruct H as ([] & s2 & H2 & H).
  unfold modify in H2. inversion H2. clear H2.
  assert (C2 : calls s2 = calls s) by now subst s2.
  assert (T2 : self_transitions s2 = self_transitions s) by now subst s2.
  rewrite <- C2. clear C2.
  apply bind_ok in H. destruct H as (r & s3 & H3 & H).
  apply the_room_ok in H3. destruct H3 as [-> _].
  destruct (is_light_on r).
  - apply bind_ok in H. destruct H as (by_scene & s4 & H4 & H).
    apply bind_ok in H. destruct H as (cfg & s5 & H5 & H).
    unfold gets in H5. inversion H5. subst cfg s5. clear H5.
    apply bind_ok in H. destruct H as (by_nl & s6 & H6 & H).
    assert (S4 : if by_scene then exists c, calls s4 = (calls s2 ++ [c])%list
                 else calls s4 = calls s2).
    { destruct (scenes r) as [l|].
      - now apply set_light_scenes_calls in H4.
      - unfold ret in H4. inversion H4. reflexivity. }
    destruct by_scene.
    + unfold ret in H6. inversion H6. subst by_nl s6. simpl in H.
      unfold ret in H. inversion H. subst s'.
      destruct S4 as [c Hc]. now exists c, [].
    + rewrite <- S4.
      destruct (self_natural_lighting s4) as [cfg|];
        [destruct (natural_lighting r) as [bs|]|].
      * apply bind_ok in H6. destruct H6 as ([] & s7 & H7 & H6).
        unfold ret in H6. inversion H6. subst by_nl s7. clear H6.
        apply for_each_bindings_calls in H7. destruct H7 as (cs & E & L).
        destruct bs as [|b bs]; simpl in H.
        -- destruct cs; [|discriminate]. rewrite app_nil_r in E.
           unfold invoke, modify in H. inversion H. simpl.
           rewrite E. eexists _, []. reflexivity.
        -- destruct cs as [|c cs]; [discriminate|].
           unfold ret in H. inversion H. subst s'. now exists c, cs.
      * unfold ret in H6. inversion H6. subst by_nl s6. simpl in H.
        unfold invoke, modify in H. inversion H. simpl.
        eexists _, []. reflexivity.
      * unfold ret in H6. inversion H6. subst by_nl s6. simpl in H.
        unfold invoke, modify in H. inversion H. simpl.
        eexists _, []. reflexivity.
  - apply bind_ok in H. destruct H as (off & s4 & H4 & H).
    destruct (dict_get "off" (self_transitions s)); [|discriminate].
    unfold key, ret in H4. inversion H4. subst off s4.
    unfold invoke, modify in H. inversion H. simpl.
    eexists _, []. reflexivity.
Qed.

Lemma must_dispatch_iff trigger old new :
  must_dispatch trigger old new = true
  <-> In trigger ["init"; "scene"; "natural_lighting"] \/ new <> old.
Proof.
  unfold must_dispatch. rewrite orb_true_iff, negb_true_iff, existsb_exists.
  split; intros [H|H].
  - left. destruct H as (x & Hin & E). apply String.eqb_eq in E. now subst.
  - right. destruct old, new; simpl in H; congruence.
  - left. exists trigger. split; [exact H|apply String.eqb_refl].
  - right. destruct old, new; simpl; congruence.
Qed.

(** C4.  An evaluation dispatches a device action iff the trigger is one of
    init, scene, natural_lighting, or [is_light_on] changed; and when a
    force-on scene fired on a scene trigger in a room that was off, the
    dispatcher is entered with the occupancy trigger, hence with the
    occupancy transition, instead of the scene's. *)
Theorem dispatch_rule h room_name trigger s r r1 force :
  room_of s room_name = Some r ->
  refreshed h r = Ok r1 ->
  force_light_on h (or_default (scenes r) []) = Ok force ->
  let out := set_is_light_on h room_name trigger s in
  exists r2,
    room_of (snd out) room_name = Some r2
    /\ let wanted := In trigger ["init"; "scene"; "natural_lighting"]
                     \/ is_light_on r2 <> is_light_on r in
       (wanted ->
        exists t,
          dispatched (snd out)
          = (dispatched s ++ [(room_name, t, transition_for s t)])%list
          /\ (force = true /\ trigger = "scene" /\ is_light_on r = false ->
              t = "occupancy")
          /\ (~ (force = true /\ trigger = "scene" /\ is_light_on r = false) ->
              t = trigger))
       /\ (~ wanted -> dispatched (snd out) = dispatched s /\ calls (snd out) = calls s)
       /\ (fst out = Ok tt -> (calls (snd out) <> calls s <-> wanted)).
Proof.
  intros Hr Href Hf out.
  exists (decided force trigger r1).
  split; [now apply set_is_light_on_room with (r := r)|].
  cbv zeta.
  pose proof (set_is_light_on_dispatched h room_name trigger s Hr Href Hf) as Hd.
  pose proof (set_is_light_on_run h room_name trigger s Hr) as Hrun.
  cbv zeta in Hrun. rewrite Href, Hf in Hrun. fold out in Hd, Hrun.
  pose proof (must_dispatch_iff trigger (is_light_on r)
                (is_light_on (decided force trigger r1))) as Hiff.
  destruct (must_dispatch trigger (is_light_on r)
              (is_light_on (decided force trigger r1))) eqn:E.
  - assert (W : In trigger ["init"; "scene"; "natural_lighting"]
                \/ is_light_on (decided force trigger r1) <> is_light_on r)
      by now apply Hiff.
    split; [|split].
    + intros _. exists (dispatch_trigger force trigger (is_light_on r)).
      split; [exact Hd|]. unfold dispatch_trigger. split.
      * intros (-> & -> & ->). reflexivity.
      * intros N. destruct force; simpl; auto.
        destruct (String.eqb trigger "scene") eqn:Et; simpl; auto.
        destruct (is_light_on r); simpl; auto.
        apply String.eqb_eq in Et. exfalso. apply N. auto.
    + intros N. contradiction.
    + intros Hok. split; [intros _; exact W|]. intros _.
      destruct out as [[[]|x] s'] eqn:Eout; [|discriminate].
      symmetry in Hrun.
      destruct (set_light_calls _ _ _ _ Hrun) as (c & cs & Ec).
      simpl. rewrite Ec. simpl. intros Eq.
      apply (f_equal (@List.length _)) in Eq.
      rewrite length_app in Eq. simpl in Eq. lia.
  - assert (W : ~ (In trigger ["init"; "scene"; "natural_lighting"]
                   \/ is_light_on (decided force trigger r1) <> is_light_on r)).
    { intros W. apply Hiff in W. discriminate. }
    split; [|split].
    + intros W'. contradiction.
    + intros _. split.
      * rewrite Hd. apply app_nil_r.
      * rewrite Hrun. reflexivity.
    + intros _. split; [|intros W'; contradiction].
      intros N. exfalso. apply N. rewrite Hrun. reflexivity.
Qed.

(** The switch of a force-on scene turns on in a dark, empty, unlit room:
    the dispatcher is entered with the occupancy trigger. *)
Lemma dispatch_rule_witness :
  let out := set_is_light_on (scene_host "off" "50" "on") "room" "scene"
               (app_of None [("room", scene_room false false true)]) in
  dispatched (snd out) = [("room", "occupancy", VNone)]
  /\ exists c, calls (snd out) = [c].
Proof.
  destruct (@dispatch_rule (scene_host "off" "50" "on") "room" "scene"
              (app_of None [("room", scene_room false false true)])
              (scene_room false false true)
              (with_low_light false (with_occupancy false (scene_room false false true)))
              true eq_refl eq_refl eq_refl) as (r2 & _ & Hyes & _ & _).
  destruct Hyes as (t & Hd & Ht & _); [left; right; left; reflexivity|].
  rewrite (Ht (conj eq_refl (conj eq_refl eq_refl))) in Hd.
  split; [exact Hd|]. eexists. reflexivity.
Defined.

(** ** Conversion of sensor values *)

(** What [int] does with a value it cannot convert: it hands it back. *)
Lemma int_unconverted val e :
  Py.contains val [VStr "unknown"; VStr "unavailable"] = false ->
  (let? f := PyBuiltin.float val in Py.int_of_float f) = Raise e ->
  int val = val.
Proof. unfold int. intros -> ->. reflexivity. Qed.

(** C2 (the code departs from it).  [int] gives 0 for the two sentinels,
    but a value that is neither numeric nor a sentinel comes back
    unchanged, not as 0: a string that is no number, the state [None] of a
    missing entity.  The comparison with the threshold then raises, and
    the evaluation fails. *)
Theorem int_returns_unconverted_value :
  int (VStr "unknown") = VInt 0
  /\ int (VStr "unavailable") = VInt 0
  /\ int (VStr "abc") = VStr "abc"
  /\ int VNone = VNone
  /\ fst (set_is_light_on (host_of [("sensor.lux", VStr "abc")]) "room" "low_light"
            (app_of None [("room", lux_room true)]))
     = Raise TypeError.
Proof. repeat split; vm_compute; reflexivity. Qed.

(** ** A pass over the rooms *)

(** The loop stops at the first room whose evaluation raises. *)
Lemma for_each_raise A (body : A -> M unit) x rest s e s' :
  body x s = (Raise e, s') ->
  for_each (x :: rest) body s = (Raise e, s').
Proof. intros H. simpl. unfold bind. now rewrite H. Qed.

(** C9 (the code departs from it).  In the initialization pass the hall is
    evaluated first; its luminance sensor is missing, the evaluation
    raises, and the study, which comes next, is never evaluated: no
    service call is made for it.  Without the hall, the same pass drives
    the study's light.  The pass of the sun-elevation handler stops in the
    same way: the hall's active scene has no [scene_entity], the
    dispatcher raises on it, and the study is not driven again. *)
Theorem pass_stops_at_first_exception :
  let both := initialize two_lights_host
                (rooms_args [("hall", hall_args); ("study", study_args)]) fresh in
  let alone := initialize two_lights_host (rooms_args [("study", study_args)]) fresh in
  let cfg := Some (default_natural_lighting [("default", default_mode)]) in
  let switch_on := host_of [("input_boolean.movie", VStr "on")] in
  let both_sun :=
    callback_sun_elevation switch_on (VInt 0)
      (app_of cfg [("hall", sunlit_room "light.hall" 0 (Some [nameless_scene]));
                   ("study", sunlit_room "light.study" 0 None)]) in
  let alone_sun :=
    callback_sun_elevation switch_on (VInt 0)
      (app_of cfg [("study", sunlit_room "light.study" 0 None)]) in
  (fst both = Raise TypeError
   /\ dict_keys (self_rooms (snd both)) = ["hall"; "study"]
   /\ dispatched (snd both) = []
   /\ calls (snd both) = []
   /\ fst alone = Ok tt
   /\ dispatched (snd alone) = [("study", "init", VNone)]
   /\ map call_entity (calls (snd alone)) = ["light.study"])
  /\ (fst both_sun = Raise KeyError
      /\ dispatched (snd both_sun) = [("hall", "natural_lighting", VInt 10)]
      /\ calls (snd both_sun) = []
      /\ fst alone_sun = Ok tt
      /\ dispatched (snd alone_sun) = [("study", "natural_lighting", VInt 10)]
      /\ map call_entity (calls (snd alone_sun)) = ["light.study"]).
Proof. repeat split; vm_compute; reflexivity. Qed.

(** ** Finite checks *)

Lemma in_zrange lo n z : lo <= z < lo + Z.of_nat n -> In z (zrange lo n).
Proof.
  intros H. unfold zrange. apply in_map_iff.
  exists (Z.to_nat (z - lo)). split; [lia|]. apply in_seq. lia.
Qed.

Lemma forallb_zrange (p : Z -> bool) lo n z :
  forallb p (zrange lo n) = true -> lo <= z < lo + Z.of_nat n -> p z = true.
Proof.
  intros H Hz. rewrite forallb_forall in H. apply H. now apply in_zrange.
Qed.

(** ** The range scaler *)

Lemma max_ints v lo : Py.max (VInt v) (VInt lo) = Ok (VInt (Z.max v lo)).
Proof.
  unfold Py.max, Py.gt, Py.order. simpl. unfold Py.is_gt, Z.max.
  rewrite (Z.compare_antisym v lo). destruct (v ?= lo); reflexivity.
Qed.

Lemma min_ints v hi : Py.min (VInt v) (VInt hi) = Ok (VInt (Z.min v hi)).
Proof.
  unfold Py.min, Py.lt, Py.order. simpl. unfold Py.is_lt, Z.min.
  rewrite (Z.compare_antisym v hi). destruct (v ?= hi); reflexivity.
Qed.

(** [scale] sees an integer value only through its clamp to the source range. *)
Lemma scale_clamp v src dst :
  fst src <= snd src ->
  scale (VInt v) src dst = scale (VInt (clamp v (fst src) (snd src))) src dst.
Proof.
  intros H. unfold scale. rewrite !max_ints. cbn [obind]. rewrite !min_ints.
  cbn [obind]. unfold clamp. replace (Z.min (Z.max (Z.min (Z.max v (fst src)) (snd src)) (fst src)) (snd src))
    with (Z.min (Z.max v (fst src)) (snd src)) by lia.
  reflexivity.
Qed.

Lemma scale_exact_clamp v src dst :
  fst src <= snd src ->
  scale_exact v src dst = scale_exact (clamp v (fst src) (snd src)) src dst.
Proof.
  intros H. unfold scale_exact, clamp.
  replace (Z.min (Z.max (Z.min (Z.max v (fst src)) (snd src)) (fst src)) (snd src))
    with (Z.min (Z.max v (fst src)) (snd src)) by lia.
  reflexivity.
Qed.

(** A range on which [scale] is exact at every point is one on which it is
    exact for every integer. *)
Lemma scale_is_exact_everywhere src dst n v :
  fst src <= snd src ->
  snd src < fst src + Z.of_nat n ->
  forallb (scale_is_exact src dst) (zrange (fst src) n) = true ->
  scale (VInt v) src dst = Ok (VInt (scale_exact v src dst)).
Proof.
  intros H Hn Hall. rewrite scale_clamp, scale_exact_clamp by exact H.
  assert (Hc : scale_is_exact src dst (clamp v (fst src) (snd src)) = true).
  { apply forallb_zrange with (lo := fst src) (n := n); [exact Hall|].
    unfold clamp. lia. }
  unfold scale_is_exact in Hc.
  destruct (scale (VInt (clamp v (fst src) (snd src))) src dst) as [[| | x | |]|];
    try discriminate.
  apply Z.eqb_eq in Hc. now rewrite Hc.
Qed.




(** ** The brightness boost *)

(** Without boost the brightness passes through, whatever it is. *)
Lemma boost_zero b : boost b 0 = Ok b.
Proof. reflexivity. Qed.

(** With a boost the result, when there is one, is an integer of [1, 255]. *)
Lemma boost_range b boost_pct v :
  boost_pct <> 0 ->
  boost b boost_pct = Ok v ->
  exists x, v = VInt x /\ 1 <= x <= 255.
Proof.
  intros Hp. unfold boost.
  destruct (boost_pct =? 0) eqn:E; [apply Z.eqb_eq in E; contradiction|].
  cbn [negb].
  destruct (Py.truediv b (VInt 100)) as [q|]; [|discriminate]. cbn [obind].
  destruct (Py.float_mul q (VInt boost_pct)) as [p|]; [|discriminate]. cbn [obind].
  destruct (Py.add_float b p) as [t|]; [|discriminate]. cbn [obind].
  destruct (Py.int_of_float t) as [x|]; [|discriminate]. cbn [obind].
  intros H. inversion H. eexists. split; [reflexivity|].
  destruct (x >? 255) eqn:E1.
  - simpl. lia.
  - destruct (x <? 1) eqn:E2; lia.
Qed.

(** Every brightness of [0, 255] under every boost of [-100, 100]. *)
Lemma boost_table :
  forallb (fun b =>
             forallb (fun p => (p =? 0) || boost_within_one b p) (zrange (-100) 201))
          (zrange 0 256)
  = true.
Proof. vm_compute. reflexivity. Qed.

Lemma boost_close b boost_pct :
  0 <= b <= 255 -> -100 <= boost_pct <= 100 -> boost_pct <> 0 ->
  exists x,
    boost (VInt b) boost_pct = Ok (VInt x)
    /\ (x = boost_exact b boost_pct \/ x = boost_exact b boost_pct - 1).
Proof.
  intros Hb Hp Hnz.
  pose proof (@forallb_zrange _ _ _ b boost_table) as H1.
  cbv beta in H1. specialize (H1 ltac:(lia)).
  pose proof (@forallb_zrange _ _ _ boost_pct H1) as H2.
  cbv beta in H2. specialize (H2 ltac:(lia)).
  apply orb_true_iff in H2. destruct H2 as [H2|H2]; [apply Z.eqb_eq in H2; contradiction|].
  unfold boost_within_one in H2.
  destruct (boost (VInt b) boost_pct) as [[| | x | |]|]; try discriminate.
  exists x. split; [reflexivity|].
  apply orb_true_iff in H2. destruct H2 as [H2|H2]; apply Z.eqb_eq in H2; auto.
Qed.

(** C6 (as amended).  For a binding driven by the dispatcher: with a boost
    of 0 the mode's brightness is sent as it is, not clamped; with another
    boost the brightness sent is the truncation of the binary64 value of
    [b + b/100*boost], clamped to [1, 255]; for [b] in [0, 255] and a
    boost in [-100, 100] the call is always made and the brightness is the
    exact [int(b + b*boost/100)] clamped to [1, 255], or one less. *)
Theorem boost_spec cfg r transition b m s :
  dict_get (name b) (modes cfg) = Some m ->
  let driven level :=
    (Ok tt, set_calls (calls s ++ [binding_call r m b level transition])%list s) in
  (boost_brightness_pct b = 0 ->
   set_light_binding cfg r transition b s = driven (brightness m))
  /\ (boost_brightness_pct b <> 0 ->
      forall s', set_light_binding cfg r transition b s = (Ok tt, s') ->
      exists x,
        boost (brightness m) (boost_brightness_pct b) = Ok (VInt x)
        /\ 1 <= x <= 255
        /\ (Ok tt, s') = driven (VInt x))
  /\ (boost_brightness_pct b <> 0 ->
      forall z, brightness m = VInt z ->
      0 <= z <= 255 -> -100 <= boost_brightness_pct b <= 100 ->
      exists x,
        set_light_binding cfg r transition b s = driven (VInt x)
        /\ (x = boost_exact z (boost_brightness_pct b)
            \/ x = boost_exact z (boost_brightness_pct b) - 1)).
Proof.
  intros Hm driven. subst driven. cbv beta.
  rewrite set_light_binding_run, Hm.
  split; [|split].
  - intros ->. now rewrite boost_zero.
  - intros Hnz s' H.
    destruct (boost (brightness m) (boost_brightness_pct b)) as [v|] eqn:E;
      [|discriminate].
    destruct (boost_range _ Hnz E) as (x & -> & Hx).
    exists x. split; [reflexivity|]. split; [exact Hx|]. exact (eq_sym H).
  - intros Hnz z Hz Hzr Hpr. rewrite Hz.
    destruct (boost_close Hzr Hpr Hnz) as (x & E & Hx).
    exists x. rewrite E. split; [reflexivity|exact Hx].
Qed.

(** Brightness 250 boosted by 50 percent is sent as 255. *)
Lemma boost_spec_witness :
  exists x,
    set_light_binding (default_natural_lighting [("default", bright_mode)])
      (sunlit_room "light.room" 50 None) (VInt 10) (boosted_binding 50)
      (app_of None [])
    = (Ok tt,
       set_calls [binding_call (sunlit_room "light.room" 50 None) bright_mode
                    (boosted_binding 50) (VInt x) (VInt 10)]
         (app_of None []))
    /\ x = 255.
Proof.
  destruct (@boost_spec (default_natural_lighting [("default", bright_mode)])
              (sunlit_room "light.room" 50 None) (VInt 10) (boosted_binding 50)
              bright_mode (app_of None []) eq_refl) as (_ & _ & H).
  destruct (H ltac:(discriminate) 250 eq_refl ltac:(lia) ltac:(simpl; lia))
    as (x & E & Hx).
  exists x. split; [exact E|].
  change (boost_exact 250 (boost_brightness_pct (boosted_binding 50))) with 255 in Hx.
  destruct Hx as [Hx|Hx]; [exact Hx|].
  exfalso. subst x. rewrite set_light_binding_run in E. vm_compute in E. discriminate.
Defined.

(** C6 (as stated, refuted).  With a boost of 0 the brightness is not
    clamped: a mode whose lower bound is 0 has brightness 0 when the sun is
    at -30, and 0 is what the dispatcher sends, where the clamp would give
    1.  With a boost the arithmetic is binary64: 220 boosted by -50 percent
    is sent as 109, where [int(220 + 220 * -50 / 100)] is 110. *)
Lemma boost_not_exact :
  calls (snd (callback_sun_elevation (host_of []) (VInt (-30))
                (app_of (Some (default_natural_lighting [("default", dim_mode)]))
                   [("room", sunlit_room "light.room" 0 None)])))
  = [ {| call_entity := "light.room"; call_service := "turn_on";
         call_brightness := Some (VInt 0); call_kelvin := Some (VInt 2000);
         call_transition := Some (VInt 10) |} ]
  /\ boost_exact 0 0 = 1
  /\ boost (VInt 220) (-50) = Ok (VInt 109)
  /\ boost_exact 220 (-50) = 110.
Proof. repeat split; vm_compute; reflexivity. Qed.

(** ** The sun elevation *)

Lemma keeps_weaken (R R' : app -> app -> Prop) A (m : M A) :
  (forall s s', R s s' -> R' s s') -> keeps R m -> keeps R' m.
Proof. intros H K s. apply H, K. Qed.

Lemma set_light_same_rooms h n t : keeps same_rooms (set_light h n t).
Proof.
  apply keeps_weaken with (R := same_self); [|apply set_light_same_self].
  intros s s' (_ & _ & _ & E & _). exact E.
Qed.

#[local] Hint Resolve set_light_same_rooms : frames.

(** The handler never writes a room. *)
Lemma callback_sun_elevation_same_rooms h new :
  keeps same_rooms (callback_sun_elevation h new).
Proof. unfold callback_sun_elevation. frame. reflexivity. Qed.

Lemma set_modes_recomputed nl ms ms' :
  set_modes nl ms = (Ok tt, ms') -> Forall2 (recomputed nl) ms ms'.
Proof.
  revert ms'. induction ms as [|[n m] ms IH]; intros ms'; simpl.
  - intros H. inversion H. constructor.
  - destruct (scale _ _ (min_brightness m, max_brightness m)) as [b|] eqn:Eb;
      [|discriminate].
    destruct (scale _ _ (min_kelvin m, max_kelvin m)) as [k|] eqn:Ek; [|discriminate].
    destruct (set_modes nl ms) as [res rest] eqn:E.
    intros H. inversion H. subst res ms'. constructor.
    + unfold recomputed. simpl. repeat split; assumption.
    + now apply IH.
Qed.

(** The loop of lines 439-441. *)
Lemma redrive_loop h names s s' :
  for_each names
    (fun room_name =>
       r <- the_room room_name ;;
       if has_bindings r && is_light_on r
       then set_light h room_name "natural_lighting"
       else ret tt) s = (Ok tt, s') ->
  same_self s s'
  /\ dispatched s'
     = (dispatched s
        ++ map (fun n => (n, "natural_lighting", transition_for s "natural_lighting"))
             (filter (redriven s) names))%list.
Proof.
  revert s. induction names as [|n names IH]; intros s; simpl.
  - unfold ret. intros H. inversion H. split; [apply same_self_refl|].
    now rewrite app_nil_r.
  - intros H. apply bind_ok in H. destruct H as ([] & s1 & H1 & H).
    apply bind_ok in H1. destruct H1 as (r & s0 & Hr & H1).
    apply the_room_ok in Hr. destruct Hr as [-> Hr].
    assert (S1 : same_self s s1
                 /\ dispatched s1
                    = (dispatched s
                       ++ if redriven s n
                          then [(n, "natural_lighting",
                                 transition_for s "natural_lighting")]
                          else [])%list).
    { unfold redriven. rewrite Hr.
      destruct (has_bindings r && is_light_on r).
      - pose proof (set_light_same_self h n "natural_lighting" s) as K.
        pose proof (set_light_dispatched h n "natural_lighting" s) as D.
        rewrite H1 in K, D. simpl in K, D. now split.
      - unfold ret in H1. inversion H1. split; [apply same_self_refl|].
        now rewrite app_nil_r. }
    destruct S1 as [K1 D1]. destruct (IH _ H) as [K2 D2].
    split; [eapply same_self_trans; eauto|].
    assert (Et : transition_for s1 "natural_lighting"
                 = transition_for s "natural_lighting").
    { unfold transition_for. destruct K1 as (_ & _ & -> & _). reflexivity. }
    assert (Ef : filter (redriven s1) names = filter (redriven s) names).
    { apply filter_ext. intros x. unfold redriven, room_of.
      destruct K1 as (_ & _ & _ & -> & _). reflexivity. }
    rewrite D2, D1, Et, Ef, <- app_assoc. f_equal.
    destruct (redriven s n); reflexivity.
Qed.

(** A run of the handler that returns. *)
Lemma callback_sun_elevation_ok h new s s' :
  callback_sun_elevation h new s = (Ok tt, s') ->
  exists nl nl',
    self_natural_lighting s = Some nl
    /\ self_natural_lighting s' = Some nl'
    /\ sun_elevation nl' = int new
    /\ Forall2 (recomputed nl') (modes nl) (modes nl')
    /\ dispatched s'
       = (dispatched s
          ++ map (fun n => (n, "natural_lighting",
                            transition_for s "natural_lighting"))
               (filter (redriven s) (dict_keys (self_rooms s))))%list.
Proof.
  unfold callback_sun_elevation. intros H.
  apply bind_ok in H. destruct H as (cfg & s0 & H0 & H).
  unfold gets in H0. inversion H0. subst cfg s0. clear H0.
  destruct (self_natural_lighting s) as [nl|] eqn:Enl; [|discriminate].
  unfold set_natural_lighting in H.
  destruct (set_modes (with_sun_elevation (int new) nl)
              (modes (with_sun_elevation (int new) nl))) as [res ms] eqn:Em.
  apply bind_ok in H. destruct H as ([] & s1 & H1 & H).
  unfold modify in H1. injection H1 as Hs1.
  apply bind_ok in H. destruct H as ([] & s2 & H2 & H).
  unfold lift in H2. injection H2 as Hres Hs2. subst res s2.
  apply bind_ok in H. destruct H as (rooms & s3 & H3 & H).
  unfold gets in H3. injection H3 as Hrooms Hs3. subst rooms s3.
  apply redrive_loop in H. destruct H as [K D].
  exists nl, (with_modes ms (with_sun_elevation (int new) nl)).
  split; [reflexivity|].
  destruct K as (_ & K & _). rewrite K. subst s1.
  split; [reflexivity|]. split; [reflexivity|].
  split; [exact (set_modes_recomputed _ _ Em)|].
  exact D.
Qed.



(** ** Scene bindings at startup and afterwards *)


Lemma same_listeners_refl s : same_listeners s s.
Proof. reflexivity. Qed.

Lemma same_listeners_trans s1 s2 s3 :
  same_listeners s1 s2 -> same_listeners s2 s3 -> same_listeners s1 s3.
Proof. unfold same_listeners. congruence. Qed.

#[local] Hint Resolve same_listeners_refl same_listeners_trans : frames.

Lemma add_entity_same_listeners e : keeps same_listeners (add_entity e).
Proof.
  unfold add_entity. frame. unfold same_listeners.
  destruct (existsb _ _); reflexivity.
Qed.

#[local] Hint Resolve add_entity_same_listeners : frames.

Lemma init_bindings_same_listeners lights l : keeps same_listeners (init_bindings lights l).
Proof. induction l as [|ba l IH]; simpl; unfold init_binding; frame. Qed.

(** The scene loop of [init_rooms] registers the listeners of the valid
    scenes, and nothing else. *)
Lemma listen_scenes_run h room_name l s :
  for_each l (listen_scene h room_name) s
  = (Ok tt,
     set_listeners (listeners s ++ flat_map (scene_listeners h room_name) l)%list s).
Proof.
  revert s. induction l as [|sc l IH]; intros s; simpl.
  - rewrite app_nil_r. unfold ret. now destruct s.
  - unfold bind. unfold listen_scene at 1, scene_listeners at 1.
    destruct (scene_is_valid h sc).
    + destruct (scene_trigger_entity sc) as [t|].
      * run. rewrite IH. simpl. now rewrite <- !app_assoc.
      * unfold ret. now rewrite IH.
    + unfold ret. now rewrite IH.
Qed.

Lemma listen_sensors_run h room_name r s :
  exists ls,
    listen_sensors h room_name r s = (Ok tt, set_listeners (listeners s ++ ls)%list s)
    /\ Forall (fun x => listen_callback x <> callback_room_for room_name "scene") ls.
Proof.
  unfold listen_sensors. run.
  destruct (configured (occupancy_entity r)) as [e|];
    [destruct (entity_exists h e); [destruct (occupancy_off_delay r >? 0)|]|];
    (destruct (configured (luminance_entity r)) as [e'|];
     [destruct (entity_exists h e')|]);
    simpl;
    eexists; (split;
      [ rewrite <- ?app_assoc; simpl;
        try reflexivity;
        instantiate (1 := []); rewrite app_nil_r; now destruct s
      | repeat constructor; simpl; discriminate ]).
Qed.

(** The dispatcher turns on the first scene whose switch is in its state. *)
Lemma set_light_scenes_first h transition pre sc post e s :
  forallb scene_has_trigger pre = true ->
  existsb (scene_matches h) pre = false ->
  scene_matches h sc = true ->
  scene_entity sc = Some e ->
  set_light_scenes h transition (pre ++ sc :: post) s
  = (Ok true, set_calls (calls s ++ [scene_call e transition])%list s).
Proof.
  intros Hk Hn Hm He. induction pre as [|x pre IH]; simpl.
  - unfold scene_matches in Hm. run.
    destruct (scene_trigger_entity sc) as [t|]; [|discriminate].
    destruct (scene_trigger_value sc) as [v|]; [|discriminate].
    rewrite Hm, He. reflexivity.
  - simpl in Hk, Hn. apply andb_prop in Hk. destruct Hk as [Hx Hk].
    apply orb_false_elim in Hn. destruct Hn as [Hnx Hn].
    unfold scene_has_trigger in Hx. unfold scene_matches in Hnx. run.
    destruct (scene_trigger_entity x) as [t|]; [|discriminate].
    destruct (scene_trigger_value x) as [v|]; [|discriminate].
    rewrite Hnx. now apply IH.
Qed.

(** A room whose lights exist is kept, with its scene list as configured
    and with the listeners of its valid scenes. *)
Lemma init_room_kept h rooms room_name ra lights s rooms' s' :
  configured (arg_lights_entity ra) = Some lights ->
  entity_exists h lights = true ->
  init_room h rooms room_name ra s = (Ok rooms', s') ->
  exists r ls,
    dict_get room_name rooms' = Some r
    /\ scenes r = match arg_scenes ra with
                  | Some (Listed l) => Some l
                  | _ => None
                  end
    /\ listeners s'
       = (listeners s
          ++ flat_map (scene_listeners h room_name) (or_default (scenes r) [])
          ++ ls)%list
    /\ Forall (fun x => listen_callback x <> callback_room_for room_name "scene") ls.
Proof.
  intros Hl He. unfold init_room. rewrite Hl, He. cbn [negb]. intros H.
  apply bind_ok in H. destruct H as ([] & s1 & H1 & H).
  pose proof (add_entity_same_listeners lights s) as L1.
  rewrite H1 in L1. simpl in L1.
  apply bind_ok in H. destruct H as (bindings & s2 & H2 & H).
  assert (L2 : listeners s2 = listeners s1).
  { destruct (arg_natural_lighting ra) as [[l|]|].
    - apply bind_ok in H2. destruct H2 as (bs & s2' & H2 & H2').
      unfold ret in H2'. injection H2' as _ ->.
      pose proof (init_bindings_same_listeners lights l s1) as K.
      now rewrite H2 in K.
    - unfold ret in H2. now injection H2 as _ ->.
    - unfold ret in H2. now injection H2 as _ ->. }
  apply bind_ok in H. destruct H as ([] & s3 & H3 & H).
  rewrite listen_scenes_run in H3. injection H3 as Hs3.
  apply bind_ok in H. destruct H as ([] & s4 & H4 & H).
  match type of H4 with
  | listen_sensors h room_name ?r s3 = _ =>
      destruct (listen_sensors_run h room_name r s3) as (ls & E4 & F4);
      rewrite E4 in H4; exists r, ls
  end.
  injection H4 as Hs4. unfold ret in H. injection H as Hr ->.
  split; [subst rooms'; apply dict_get_set_same|].
  split; [reflexivity|].
  split; [|exact F4].
  subst s' s3. simpl. rewrite L2, L1. now rewrite <- app_assoc.
Qed.

(** C10.  Room initialization stores the configured scene list as it is: a
    binding that fails the startup check is not removed, it only gets no
    listener.  It is therefore still read by every later evaluation: by the
    force-on scan, where it forces the light when its switch is in its
    state, and by the dispatcher, which turns it on as the first scene
    whose switch is in its state. *)
Theorem scenes_stored_verbatim h rooms room_name ra lights l s rooms' s' :
  configured (arg_lights_entity ra) = Some lights ->
  entity_exists h lights = true ->
  arg_scenes ra = Some (Listed l) ->
  init_room h rooms room_name ra s = (Ok rooms', s') ->
  exists r ls,
    dict_get room_name rooms' = Some r
    /\ scenes r = Some l
    /\ listeners s'
       = (listeners s ++ flat_map (scene_listeners h room_name) l ++ ls)%list
    /\ Forall (fun x => listen_callback x <> callback_room_for room_name "scene") ls
    /\ (forall sc, In sc l -> scene_is_valid h sc = false ->
        scene_listeners h room_name sc = []
        /\ (forall h',
              forallb scene_has_trigger l = true ->
              scene_matches h' sc = true ->
              scene_forces sc = true ->
              force_light_on h' (or_default (scenes r) []) = Ok true)
        /\ (forall h' transition pre post e st,
              l = (pre ++ sc :: post)%list ->
              forallb scene_has_trigger pre = true ->
              existsb (scene_matches h') pre = false ->
              scene_matches h' sc = true ->
              scene_entity sc = Some e ->
              set_light_scenes h' transition (or_default (scenes r) []) st
              = (Ok true, set_calls (calls st ++ [scene_call e transition])%list st))).
Proof.
  intros Hl He Hsc H.
  destruct (@init_room_kept h rooms room_name ra lights s rooms' s' Hl He H)
    as (r & ls & Hr & Hs & Hls & F).
  rewrite Hsc in Hs. rewrite Hs in Hls. simpl in Hls.
  exists r, ls. repeat (split; [assumption|]).
  intros sc Hin Hinv. rewrite Hs. simpl. split; [|split].
  - unfold scene_listeners. now rewrite Hinv.
  - intros h' Hk Hm Hf. rewrite (force_light_on_exists h' l Hk). f_equal.
    apply existsb_exists. exists sc. split; [exact Hin|]. now rewrite Hm, Hf.
  - intros h' transition pre post e st -> Hk Hn Hm Hent.
    now apply set_light_scenes_first.
Qed.

(** The den has one scene binding, whose target is a light: the startup
    check refuses it and gives it no listener, the room keeps it, and with
    the switch on it forces the den's light. *)
Lemma scenes_stored_verbatim_witness :
  exists rooms' s' r,
    init_room (den_host "off" "off") [] "den" den_args fresh = (Ok rooms', s')
    /\ dict_get "den" rooms' = Some r
    /\ scenes r = Some [lamp_scene]
    /\ scene_listeners (den_host "off" "off") "den" lamp_scene = []
    /\ force_light_on (den_host "off" "on") (or_default (scenes r) []) = Ok true.
Proof.
  destruct (init_room (den_host "off" "off") [] "den" den_args fresh)
    as [[rooms'|x] s'] eqn:E; [|vm_compute in E; discriminate].
  destruct (@scenes_stored_verbatim (den_host "off" "off") [] "den" den_args
              "light.den" [lamp_scene] fresh rooms' s' eq_refl eq_refl eq_refl E)
    as (r & ls & Hr & Hs & _ & _ & Hinv).
  destruct (Hinv lamp_scene (or_introl eq_refl) eq_refl) as (Hno & Hforce & _).
  exists rooms', s', r.
  split; [reflexivity|]. split; [exact Hr|]. split; [exact Hs|].
  split; [exact Hno|].
  exact (Hforce (den_host "off" "on") eq_refl eq_refl eq_refl).
Defined.

(** The same den from startup to a later evaluation: no listener is
    registered for the scene, and when the switch is on the evaluation
    lights the den and turns the refused scene on. *)
Example refused_scene_still_drives :
  let started := initialize (den_host "off" "off")
                   (rooms_args [("den", den_args)]) fresh in
  let later := callback_room (den_host "off" "on") "den" "occupancy" (snd started) in
  scene_is_valid (den_host "off" "off") lamp_scene = false
  /\ fst started = Ok tt
  /\ option_map scenes (room_of (snd started) "den") = Some (Some [lamp_scene])
  /\ map listen_callback (listeners (snd started))
     = [callback_room_for "den" "occupancy"]
  /\ option_map is_light_on (room_of (snd later) "den") = Some true
  /\ calls (snd later)
     = (calls (snd started) ++ [scene_call "light.lamp" VNone])%list.
Proof. repeat split; vm_compute; reflexivity. Qed.

(** * Further properties of the code *)

(** ** The tracked entities *)

Lemma tracked_iff e l : existsb (String.eqb e) l = true <-> In e l.
Proof.
  rewrite existsb_exists. split.
  - intros (x & Hin & E). apply String.eqb_eq in E. now subst.
  - intros H. exists e. split; [exact H|apply String.eqb_refl].
Qed.

(** X1.  [add_entity] keeps the list of tracked entities free of
    duplicates: the entity is in the list afterwards, what was tracked
    stays tracked, an entity already tracked changes nothing, and adding
    it a second time changes nothing. *)
Theorem add_entity_no_duplicates e s :
  NoDup (self_entities s) ->
  let s' := snd (add_entity e s) in
  fst (add_entity e s) = Ok tt
  /\ NoDup (self_entities s')
  /\ In e (self_entities s')
  /\ (forall x, In x (self_entities s) -> In x (self_entities s'))
  /\ (In e (self_entities s) -> s' = s)
  /\ (~ In e (self_entities s) -> self_entities s' = (self_entities s ++ [e])%list)
  /\ snd (add_entity e s') = s'.
Proof.
  intros Hnd s'. subst s'. unfold add_entity, modify. simpl.
  destruct (existsb (String.eqb e) (self_entities s)) eqn:E.
  - apply tracked_iff in E. rewrite (proj2 (tracked_iff e _) E).
    repeat split; auto. intros N. contradiction.
  - assert (N : ~ In e (self_entities s)).
    { intros H. apply tracked_iff in H. congruence. }
    simpl.
    assert (E' : existsb (String.eqb e) (self_entities s ++ [e]) = true).
    { apply tracked_iff, in_or_app. right. now left. }
    rewrite E'.
    split; [reflexivity|]. split.
    + apply NoDup_app; [exact Hnd | constructor; [intros []|constructor] |].
      intros x Hx [<-|[]]. contradiction.
    + split; [apply in_or_app; right; now left|].
      split; [intros x Hx; apply in_or_app; now left|].
      split; [intros H; contradiction|]. split; reflexivity.
Qed.

Lemma add_entity_no_duplicates_witness :
  self_entities (snd (add_entity "light.hall"
                        (set_entities ["sun.sun"; "light.hall"] fresh)))
  = ["sun.sun"; "light.hall"].
Proof.
  destruct (@add_entity_no_duplicates "light.hall"
              (set_entities ["sun.sun"; "light.hall"] fresh))
    as (_ & _ & _ & _ & Hsame & _).
  - repeat constructor; simpl; intuition discriminate.
  - rewrite Hsame; [reflexivity|]. simpl. auto.
Defined.

(** ** The transition table *)

Lemma dict_get_app_one V k (l : list (string * V)) k' v' :
  dict_get k (l ++ [(k', v')])
  = match dict_get k l with
    | Some v => Some v
    | None => if String.eqb k k' then Some v' else None
    end.
Proof.
  induction l as [|[k0 v0] l IH]; simpl; [reflexivity|].
  destruct (String.eqb k k0); auto.
Qed.

Lemma dict_get_set V k k' (v : V) d :
  dict_get k (dict_set k' v d) = if String.eqb k k' then Some v else dict_get k d.
Proof.
  destruct (String.eqb k k') eqn:E.
  - apply String.eqb_eq in E. subst. apply dict_get_set_same.
  - apply dict_get_set_other. intros ->. now rewrite String.eqb_refl in E.
Qed.

(** [d.update(u)]: the last value that [u] gives to a key wins, and a key
    that [u] does not have keeps the value of [d]. *)
Lemma dict_get_update V k (d u : list (string * V)) :
  dict_get k (dict_update d u)
  = match dict_get k (rev u) with
    | Some v => Some v
    | None => dict_get k d
    end.
Proof.
  unfold dict_update. revert d. induction u as [|[k' v'] u IH]; intros d; simpl.
  - reflexivity.
  - rewrite IH, dict_get_app_one, dict_get_set.
    destruct (dict_get k (rev u)); [reflexivity|].
    destruct (String.eqb k k'); reflexivity.
Qed.

(** X2.  [init_transitions]: a transition given in the configuration
    replaces the default of its trigger (the last value given wins), every
    other trigger keeps its default, and the six triggers of the defaults,
    ["off"] among them, are always in the table. *)
Theorem init_transitions_lookup a k :
  dict_get k (init_transitions a)
  = match dict_get k (rev (or_default (args_transitions a) [])) with
    | Some v => Some v
    | None => dict_get k default_transitions
    end
  /\ (In k ["init"; "occupancy"; "low_light"; "scene"; "natural_lighting"; "off"] ->
      dict_has k (init_transitions a) = true)
  /\ (args_transitions a = None -> init_transitions a = default_transitions).
Proof.
  assert (E : dict_get k (init_transitions a)
              = match dict_get k (rev (or_default (args_transitions a) [])) with
                | Some v => Some v
                | None => dict_get k default_transitions
                end)
    by (unfold init_transitions; apply dict_get_update).
  split; [exact E|]. split.
  - intros Hin. unfold dict_has. rewrite E.
    destruct (dict_get k (rev _)); [reflexivity|].
    simpl in Hin.
    repeat (destruct Hin as [<-|Hin]; [reflexivity|]). destruct Hin.
  - intros H. unfold init_transitions. now rewrite H.
Qed.

Lemma init_transitions_lookup_witness :
  dict_has "off"
    (init_transitions
       {| args_rooms := None; args_natural_lighting := None;
          args_transitions := Some [("scene", VInt 3); ("scene", VInt 4)] |}) = true
  /\ dict_get "scene"
       (init_transitions
          {| args_rooms := None; args_natural_lighting := None;
             args_transitions := Some [("scene", VInt 3); ("scene", VInt 4)] |})
     = Some (VInt 4).
Proof.
  destruct (init_transitions_lookup
              {| args_rooms := None; args_natural_lighting := None;
                 args_transitions := Some [("scene", VInt 3); ("scene", VInt 4)] |}
              "off") as (_ & H & _).
  split.
  - apply H. simpl. auto 10.
  - destruct (init_transitions_lookup
                {| args_rooms := None; args_natural_lighting := None;
                   args_transitions := Some [("scene", VInt 3); ("scene", VInt 4)] |}
                "scene") as (E & _ & _).
    exact E.
Defined.

(** ** The branches of the dispatcher *)

Lemma set_calls_same s : set_calls (calls s) s = s.
Proof. now destruct s. Qed.

(** The start of [set_light]: the transition is read, the debug line is
    written, the room is looked up. *)
Ltac enter_set_light Hr :=
  unfold set_light;
  unfold bind at 1; unfold gets at 1;
  unfold bind at 1; unfold modify at 1;
  unfold bind at 1; unfold the_room at 1, bind at 1, gets at 1, key;
  match goal with
  | |- context [dict_get ?n (self_rooms (set_dispatched ?d ?s))] =>
      change (dict_get n (self_rooms (set_dispatched d s))) with (room_of s n)
  end;
  rewrite Hr; unfold ret at 1.

Lemma set_light_scenes_none h transition l s :
  forallb scene_has_trigger l = true ->
  existsb (scene_matches h) l = false ->
  set_light_scenes h transition l s = (Ok false, s).
Proof.
  induction l as [|x l IH]; simpl; [reflexivity|].
  intros Hk Hn. apply andb_prop in Hk. destruct Hk as [Hx Hk].
  apply orb_false_elim in Hn. destruct Hn as [Hnx Hn].
  unfold scene_has_trigger in Hx. unfold scene_matches in Hnx. run.
  destruct (scene_trigger_entity x) as [t|]; [|discriminate].
  destruct (scene_trigger_value x) as [v|]; [|discriminate].
  rewrite Hnx. now apply IH.
Qed.

Lemma no_scene_active_run h transition r s :
  no_scene_active h r = true ->
  match scenes r with
  | Some l => set_light_scenes h transition l
  | None => ret false
  end s = (Ok false, s).
Proof.
  unfold no_scene_active. destruct (scenes r) as [l|]; [|reflexivity].
  intros H. apply andb_prop in H. destruct H as [Hk Hn].
  apply negb_true_iff in Hn. now apply set_light_scenes_none.
Qed.

(** X3.  A room that is off gets exactly one service call, [turn_off] on
    its lights, with the ["off"] transition unless that is [None]; no
    scene, no binding and no sensor is read.  The only way to fail is a
    transition table without ["off"]. *)
Theorem set_light_off_branch h room_name trigger s r :
  room_of s room_name = Some r ->
  is_light_on r = false ->
  set_light h room_name trigger s
  = match dict_get "off" (self_transitions s) with
    | Some off =>
        (Ok tt, set_calls (calls s ++ [off_call r off])%list (entered s room_name trigger))
    | None => (Raise KeyError, entered s room_name trigger)
    end.
Proof.
  intros Hr Hoff. enter_set_light Hr. rewrite Hoff.
  unfold bind, key, invoke, modify, ret, raise.
  destruct (dict_get "off" (self_transitions s)); reflexivity.
Qed.

Lemma set_light_off_branch_witness :
  calls (snd (set_light (host_of []) "room" "occupancy"
                (app_of None [("room", lux_room true)])))
  = [off_call (lux_room true) VNone].
Proof.
  rewrite (@set_light_off_branch (host_of []) "room" "occupancy"
             (app_of None [("room", lux_room true)]) (lux_room true) eq_refl eq_refl).
  reflexivity.
Defined.

(** X4.  In a lit room the first scene whose switch is in its state is the
    only thing driven: one [turn_on] on the scene, whatever scenes follow
    it and whatever natural-lighting bindings the room has. *)
Theorem set_light_scene_branch h room_name trigger s r pre sc post e :
  room_of s room_name = Some r ->
  is_light_on r = true ->
  scenes r = Some (pre ++ sc :: post)%list ->
  forallb scene_has_trigger pre = true ->
  existsb (scene_matches h) pre = false ->
  scene_matches h sc = true ->
  scene_entity sc = Some e ->
  set_light h room_name trigger s
  = (Ok tt,
     set_calls (calls s ++ [scene_call e (transition_for s trigger)])%list
       (entered s room_name trigger)).
Proof.
  intros Hr Hon Hsc Hk Hn Hm He. enter_set_light Hr. rewrite Hon, Hsc.
  unfold bind at 1.
  rewrite (@set_light_scenes_first h _ pre sc post e _ Hk Hn Hm He).
  reflexivity.
Qed.

Lemma set_light_scene_branch_witness :
  calls (snd (set_light (host_of [("input_boolean.movie", VStr "on")]) "room" "scene"
                (app_of (Some (default_natural_lighting [("default", bright_mode)]))
                   [("room", sunlit_room "light.room" 50 (Some [movie_scene false]))])))
  = [scene_call "scene.movie" (VInt 10)].
Proof.
  rewrite (@set_light_scene_branch (host_of [("input_boolean.movie", VStr "on")])
             "room" "scene"
             (app_of (Some (default_natural_lighting [("default", bright_mode)]))
                [("room", sunlit_room "light.room" 50 (Some [movie_scene false]))])
             (sunlit_room "light.room" 50 (Some [movie_scene false]))
             [] (movie_scene false) [] "scene.movie"
             eq_refl eq_refl eq_refl eq_refl eq_refl eq_refl eq_refl).
  reflexivity.
Defined.

Lemma for_each_bindings_ok cfg r transition bs s s' :
  for_each bs (set_light_binding cfg r transition) s = (Ok tt, s') ->
  exists cs,
    s' = set_calls (calls s ++ cs)%list s
    /\ Forall2 (drives cfg r transition) bs cs.
Proof.
  revert s. induction bs as [|b bs IH]; intros s; simpl.
  - unfold ret. intros H. injection H as <-. exists [].
    rewrite app_nil_r, set_calls_same. split; [reflexivity|constructor].
  - intros H. apply bind_ok in H. destruct H as ([] & s1 & H1 & H).
    rewrite set_light_binding_run in H1.
    destruct (dict_get (name b) (modes cfg)) as [m|] eqn:Em; [|discriminate].
    destruct (boost (brightness m) (boost_brightness_pct b)) as [level|] eqn:Eb;
      [|discriminate].
    injection H1 as <-.
    destruct (IH _ H) as (cs & -> & F).
    exists (binding_call r m b level transition :: cs). split.
    + simpl. now rewrite <- app_assoc.
    + constructor; [|exact F]. now exists m, level.
Qed.

Lemma for_each_bindings_total cfg r transition bs s :
  Forall (resolves cfg) bs ->
  fst (for_each bs (set_light_binding cfg r transition) s) = Ok tt.
Proof.
  intros F. revert s. induction F as [|b bs (m & level & Em & Eb) F IH]; intros s; simpl.
  - reflexivity.
  - unfold bind. rewrite set_light_binding_run, Em, Eb. apply IH.
Qed.

Lemma drives_resolves cfg r transition bs cs :
  Forall2 (drives cfg r transition) bs cs -> Forall (resolves cfg) bs.
Proof.
  induction 1 as [|b c bs cs (m & level & Em & Eb & _) F IH]; constructor; auto.
  now exists m, level.
Qed.

(** X5.  In a lit room where no scene is active, with natural lighting on
    and at least one binding, the dispatcher makes one call for each
    binding, in order, each a [turn_on] with the brightness and kelvin of
    the binding's mode, and no plain [turn_on]; it returns exactly when
    every binding has a mode and a boost that can be computed. *)
Theorem set_light_natural_branch h room_name trigger s r cfg b bs :
  room_of s room_name = Some r ->
  is_light_on r = true ->
  no_scene_active h r = true ->
  self_natural_lighting s = Some cfg ->
  natural_lighting r = Some (b :: bs) ->
  (fst (set_light h room_name trigger s) = Ok tt <-> Forall (resolves cfg) (b :: bs))
  /\ (forall s', set_light h room_name trigger s = (Ok tt, s') ->
      exists cs,
        s' = set_calls (calls s ++ cs)%list (entered s room_name trigger)
        /\ Forall2 (drives cfg r (transition_for s trigger)) (b :: bs) cs).
Proof.
  intros Hr Hon Hns Hcfg Hb.
  assert (E : set_light h room_name trigger s
              = match for_each (b :: bs)
                        (set_light_binding cfg r (transition_for s trigger))
                        (entered s room_name trigger) with
                | (Ok _, s1) => (Ok tt, s1)
                | (Raise x, s1) => (Raise x, s1)
                end).
  { enter_set_light Hr. rewrite Hon.
    unfold bind at 1. rewrite (no_scene_active_run h _ r _ Hns).
    unfold bind at 1, gets at 1.
    change (self_natural_lighting (set_dispatched _ s)) with (self_natural_lighting s).
    rewrite Hcfg, Hb.
    unfold bind at 1. unfold bind at 1.
    fold (transition_for s trigger). fold (entered s room_name trigger).
    destruct (for_each (b :: bs) _ _) as [[[]|x] s1]; reflexivity. }
  split; [split|].
  - intros Hok. rewrite E in Hok.
    destruct (for_each (b :: bs) _ _) as [[[]|x] s1] eqn:El; [|discriminate].
    apply for_each_bindings_ok in El. destruct El as (cs & _ & F).
    exact (drives_resolves F).
  - intros F. rewrite E.
    pose proof (for_each_bindings_total r (transition_for s trigger)
                  (entered s room_name trigger) F) as T.
    destruct (for_each (b :: bs) _ _) as [[[]|x] s1]; [reflexivity|discriminate].
  - intros s' H. rewrite E in H.
    destruct (for_each (b :: bs) _ _) as [[[]|x] s1] eqn:El; [|discriminate].
    injection H as <-.
    apply for_each_bindings_ok in El. destruct El as (cs & -> & F).
    now exists cs.
Qed.

Lemma set_light_natural_branch_witness :
  fst (set_light (host_of []) "room" "natural_lighting"
         (app_of (Some (default_natural_lighting [("default", bright_mode)]))
            [("room", sunlit_room "light.room" 50 None)]))
  = Ok tt.
Proof.
  apply (@set_light_natural_branch (host_of []) "room" "natural_lighting"
           (app_of (Some (default_natural_lighting [("default", bright_mode)]))
              [("room", sunlit_room "light.room" 50 None)])
           (sunlit_room "light.room" 50 None)
           (default_natural_lighting [("default", bright_mode)])
           (boosted_binding 50) [] eq_refl eq_refl eq_refl eq_refl eq_refl).
  constructor; [|constructor].
  exists bright_mode, (VInt 255). split; [reflexivity|]. vm_compute. reflexivity.
Defined.

(** X6.  In a lit room where no scene is active, and natural lighting is
    off or the room has no binding, the dispatcher makes exactly one call:
    a plain [turn_on] of the room's lights, with the trigger's transition
    unless that is [None]. *)
Theorem set_light_plain_branch h room_name trigger s r :
  room_of s room_name = Some r ->
  is_light_on r = true ->
  no_scene_active h r = true ->
  self_natural_lighting s = None \/ has_bindings r = false ->
  set_light h room_name trigger s
  = (Ok tt,
     set_calls (calls s ++ [plain_call r (transition_for s trigger)])%list
       (entered s room_name trigger)).
Proof.
  intros Hr Hon Hns Hnl. enter_set_light Hr. rewrite Hon.
  unfold bind at 1. rewrite (no_scene_active_run h _ r _ Hns).
  unfold bind at 1, gets at 1.
  change (self_natural_lighting (set_dispatched _ s)) with (self_natural_lighting s).
  unfold has_bindings in Hnl.
  destruct (self_natural_lighting s) as [cfg|];
    [destruct (natural_lighting r) as [[|b bs]|]|];
    try reflexivity.
  destruct Hnl; discriminate.
Qed.

Lemma set_light_plain_branch_witness :
  calls (snd (set_light (host_of []) "room" "occupancy"
                (app_of None [("room", sunlit_room "light.room" 50 None)])))
  = [plain_call (sunlit_room "light.room" 50 None) VNone].
Proof.
  rewrite (@set_light_plain_branch (host_of []) "room" "occupancy"
             (app_of None [("room", sunlit_room "light.room" 50 None)])
             (sunlit_room "light.room" 50 None)
             eq_refl eq_refl eq_refl (or_introl eq_refl)).
  reflexivity.
Defined.

(** ** What an evaluation writes *)

Lemma dict_keys_set V k (v v' : V) d :
  dict_get k d = Some v' -> dict_keys (dict_set k v d) = dict_keys d.
Proof.
  unfold dict_keys. induction d as [|[k0 v0] d IH]; simpl; [discriminate|].
  destruct (String.eqb k k0) eqn:E; simpl; auto.
  intros H. now rewrite IH.
Qed.

(** The state after an evaluation of an existing room: the room is
    [evaluated], and the rest is what the dispatcher, if it ran, left. *)
Lemma set_is_light_on_state h room_name trigger s r :
  room_of s room_name = Some r ->
  let s' := snd (set_is_light_on h room_name trigger s) in
  self_rooms s' = dict_set room_name (evaluated h trigger r) (self_rooms s)
  /\ same_setup s s'.
Proof.
  intros Hr. cbv zeta. rewrite (set_is_light_on_run h _ trigger _ Hr). cbv zeta.
  unfold evaluated.
  destruct (refreshed h r) as [r1|x]; [|split; [reflexivity|repeat split]].
  destruct (force_light_on h (or_default (scenes r) [])) as [force|x];
    [|split; [reflexivity|repeat split]].
  destruct (must_dispatch _ _ _); [|split; [reflexivity|repeat split]].
  match goal with
  | |- context [set_light h room_name ?t ?s0] =>
      destruct (set_light_same_self h room_name t s0) as (A & B & C & D & E)
  end.
  split; [exact D|]. repeat split; assumption.
Qed.

Lemma with_flags_same r :
  with_occupancy (occupancy r) r = r
  /\ with_low_light (low_light r) r = r
  /\ with_is_light_on (is_light_on r) r = r.
Proof. destruct r; repeat split. Qed.

Lemma evaluated_same_config h trigger r : same_config r (evaluated h trigger r).
Proof.
  assert (Hocc : same_config r (occupancy_refreshed h r)).
  { unfold occupancy_refreshed.
    destruct (configured (occupancy_entity r)); repeat split. }
  assert (Href : forall r1, refreshed h r = Ok r1 -> same_config r r1).
  { unfold refreshed, low_light_refreshed. intros r1.
    destruct (configured (luminance_entity (occupancy_refreshed h r))).
    - destruct (effective_limit _); simpl; [|discriminate].
      destruct (Py.le _ _); simpl; [|discriminate].
      intros E. injection E as <-.
      unfold same_config in *. simpl. exact Hocc.
    - intros E. injection E as <-. exact Hocc. }
  unfold evaluated. destruct (refreshed h r) as [r1|x] eqn:E; [|exact Hocc].
  specialize (Href r1 eq_refl).
  destruct (force_light_on h (or_default (scenes r) [])) as [force|]; [|exact Href].
  unfold decided. destruct force; [|destruct (recompute r1 trigger)];
    unfold same_config in *; simpl; exact Href.
Qed.

(** X7.  An evaluation writes nothing but three flags of its own room,
    whatever its outcome: the room's configuration, the other rooms, the
    set of room names, the natural-lighting dictionary, the transitions,
    the tracked entities and the listeners are as before.  A room without
    presence sensor keeps its occupancy flag, a room without luminance
    sensor keeps its low-light flag. *)
Theorem evaluation_writes_three_flags h room_name trigger s r :
  room_of s room_name = Some r ->
  let s' := snd (set_is_light_on h room_name trigger s) in
  exists r2,
    room_of s' room_name = Some r2
    /\ same_config r r2
    /\ (configured (occupancy_entity r) = None -> occupancy r2 = occupancy r)
    /\ (configured (luminance_entity r) = None -> low_light r2 = low_light r)
    /\ (forall n, room_name <> n -> room_of s' n = room_of s n)
    /\ dict_keys (self_rooms s') = dict_keys (self_rooms s)
    /\ same_setup s s'.
Proof.
  intros Hr s'. subst s'.
  destruct (set_is_light_on_state h room_name trigger s Hr) as [Hrooms Hsetup].
  exists (evaluated h trigger r).
  split; [unfold room_of; rewrite Hrooms; apply dict_get_set_same|].
  split; [apply evaluated_same_config|].
  split; [|split; [|split; [|split]]].
  - intros Hno. unfold evaluated, refreshed, low_light_refreshed, occupancy_refreshed.
    rewrite Hno.
    destruct (configured (luminance_entity r)).
    + destruct (effective_limit r); simpl; [|reflexivity].
      destruct (Py.le _ _); simpl; [|reflexivity].
      destruct (force_light_on _ _) as [force|]; [|reflexivity].
      apply (decided_frame force trigger (with_low_light a0 r)).
    + destruct (force_light_on _ _) as [force|]; [|reflexivity].
      apply (decided_frame force trigger r).
  - intros Hno. unfold evaluated, refreshed, low_light_refreshed.
    destruct (occupancy_refreshed_frame h r) as (_ & Hl & _ & _ & He & _).
    rewrite He, Hno.
    destruct (force_light_on _ _) as [force|]; [|exact Hl].
    destruct (decided_frame force trigger (occupancy_refreshed h r)) as [A _].
    now rewrite A.
  - intros n Hn. now apply set_is_light_on_other_rooms.
  - rewrite Hrooms. unfold room_of in Hr. exact (dict_keys_set _ _ _ Hr).
  - exact Hsetup.
Qed.

Lemma evaluation_writes_three_flags_witness :
  exists r2,
    room_of (snd (set_is_light_on (host_of []) "room" "occupancy"
                    (app_of None [("room", sunlit_room "light.room" 0 None)]))) "room"
    = Some r2
    /\ occupancy r2 = true /\ low_light r2 = true.
Proof.
  destruct (@evaluation_writes_three_flags (host_of []) "room" "occupancy"
              (app_of None [("room", sunlit_room "light.room" 0 None)])
              (sunlit_room "light.room" 0 None) eq_refl)
    as (r2 & H & _ & Ho & Hl & _).
  exists r2. split; [exact H|]. split; [exact (Ho eq_refl)|exact (Hl eq_refl)].
Defined.

(** ** The presence sensor *)

Lemma contains_occupied_word st :
  Py.contains (VStr st) [VStr "on"; VStr "home"; VBool true; VStr "true"; VStr "True"]
  = occupied_word st.
Proof.
  cbv [Py.contains Py.eq Py.as_num existsb occupied_word].
  destruct (String.eqb st "on"), (String.eqb st "home"), (String.eqb st "true"),
    (String.eqb st "True"); reflexivity.
Qed.

(** X8.  For a room with a presence sensor, an evaluation sets the
    occupancy flag from the sensor's state, whatever happens afterwards in
    the evaluation: a string counts as occupied exactly when it is ["on"],
    ["home"], ["true"] or ["True"] (so ["off"], ["On"], ["unavailable"] do
    not), a boolean counts as itself, and the state [None] of a missing
    entity counts as not occupied. *)
Theorem occupancy_from_sensor h room_name trigger s r e :
  room_of s room_name = Some r ->
  configured (occupancy_entity r) = Some e ->
  exists r2,
    room_of (snd (set_is_light_on h room_name trigger s)) room_name = Some r2
    /\ (forall st, get_state h e = VStr st -> occupancy r2 = occupied_word st)
    /\ (forall b, get_state h e = VBool b -> occupancy r2 = b)
    /\ (get_state h e = VNone -> occupancy r2 = false).
Proof.
  intros Hr He.
  destruct (set_is_light_on_state h room_name trigger s Hr) as [Hrooms _].
  exists (evaluated h trigger r).
  split; [unfold room_of; rewrite Hrooms; apply dict_get_set_same|].
  assert (Hocc : occupancy (evaluated h trigger r)
                 = Py.contains (get_state h e)
                     [VStr "on"; VStr "home"; VBool true; VStr "true"; VStr "True"]).
  { assert (H0 : occupancy (occupancy_refreshed h r)
                 = Py.contains (get_state h e)
                     [VStr "on"; VStr "home"; VBool true; VStr "true"; VStr "True"])
      by (unfold occupancy_refreshed; now rewrite He).
    unfold evaluated.
    destruct (refreshed h r) as [r1|x] eqn:E; [|exact H0].
    unfold refreshed in E.
    destruct (low_light_refreshed_frame _ _ E) as (_ & Ho & _).
    destruct (force_light_on _ _) as [force|]; [|congruence].
    destruct (decided_frame force trigger r1) as [_ B]. congruence. }
  rewrite Hocc. split; [|split].
  - intros st ->. apply contains_occupied_word.
  - intros b ->. now destruct b.
  - intros ->. reflexivity.
Qed.

Lemma occupancy_from_sensor_witness :
  exists r2,
    room_of (snd (set_is_light_on (scene_host "On" "5" "off") "room" "occupancy"
                    (app_of None [("room", scene_room false true false)]))) "room"
    = Some r2
    /\ occupancy r2 = false.
Proof.
  destruct (@occupancy_from_sensor (scene_host "On" "5" "off") "room" "occupancy"
              (app_of None [("room", scene_room false true false)])
              (scene_room false true false) "binary_sensor.presence" eq_refl eq_refl)
    as (r2 & H & Hw & _).
  exists r2. split; [exact H|]. exact (Hw "On" eq_refl).
Defined.

(** ** A room that does not exist *)

(** X9.  For a room name that is not in [self.rooms], the evaluation
    raises [KeyError] and leaves the state as it was; the dispatcher
    raises [KeyError] too, after its debug line and before any service
    call. *)
Theorem unknown_room_raises h room_name trigger s :
  room_of s room_name = None ->
  set_is_light_on h room_name trigger s = (Raise KeyError, s)
  /\ callback_room h room_name trigger s = (Raise KeyError, s)
  /\ set_light h room_name trigger s = (Raise KeyError, entered s room_name trigger).
Proof.
  intros Hr.
  assert (E : set_is_light_on h room_name trigger s = (Raise KeyError, s)).
  { unfold set_is_light_on, refresh_occupancy.
    unfold bind at 1. unfold bind at 1. unfold the_room, bind, gets, key.
    fold (room_of s room_name). now rewrite Hr. }
  split; [exact E|]. split; [exact E|].
  enter_set_light Hr. reflexivity.
Qed.

Lemma unknown_room_raises_witness :
  callback_room (host_of []) "attic" "occupancy"
    (app_of None [("room", lux_room true)])
  = (Raise KeyError, app_of None [("room", lux_room true)]).
Proof.
  apply (@unknown_room_raises (host_of []) "attic" "occupancy"
           (app_of None [("room", lux_room true)]) eq_refl).
Defined.

(** ** Evaluating twice *)

Lemma decided_idem force trigger r :
  decided force trigger (decided force trigger r) = decided force trigger r.
Proof.
  destruct r as [oe le od lue ll lh hl occ low on nl sc].
  unfold decided, recompute. simpl.
  destruct force, on, low, occ, hl, (String.eqb trigger "occupancy"); reflexivity.
Qed.

Lemma occupancy_refreshed_fixed h r r' :
  same_config r r' ->
  occupancy r' = occupancy (occupancy_refreshed h r) ->
  occupancy_refreshed h r' = r'.
Proof.
  intros (E & _) Ho. unfold occupancy_refreshed in *. rewrite E.
  destruct (configured (occupancy_entity r)); [|reflexivity].
  cbn [occupancy with_occupancy] in Ho. rewrite <- Ho. apply with_flags_same.
Qed.

Lemma low_light_refreshed_fixed h r r1 r' :
  luminance_settled h r ->
  low_light_refreshed h r = Ok r1 ->
  same_config r r' ->
  low_light r' = low_light r1 ->
  low_light_refreshed h r' = Ok r'.
Proof.
  intros Hs H1 (_ & _ & _ & Ee & El & Eh & _) Hl.
  destruct Hs as [Hnone|(e & limit & hyst & reading & He & Hlim & Hhyst & Hpos & Hread)].
  - unfold low_light_refreshed. now rewrite Ee, Hnone.
  - rewrite (low_light_refreshed_ints h r He Hlim Hhyst Hread) in H1.
    injection H1 as <-. cbn [low_light with_low_light] in Hl.
    rewrite (@low_light_refreshed_ints h r' e limit hyst reading); try congruence.
    f_equal.
    replace (reading <=? (if low_light r' then limit + hyst else limit - hyst))
      with (low_light r'); [apply with_flags_same|].
    rewrite Hl. destruct (low_light r).
    + destruct (reading <=? limit + hyst) eqn:E; [exact (eq_sym E)|].
      symmetry. apply Z.leb_gt. apply Z.leb_gt in E. lia.
    + destruct (reading <=? limit - hyst) eqn:E; [|exact (eq_sym E)].
      symmetry. apply Z.leb_le. apply Z.leb_le in E. lia.
Qed.

Lemma luminance_settled_refreshed h r :
  luminance_settled h r -> exists r1, refreshed h r = Ok r1.
Proof.
  intros Hs. unfold refreshed.
  destruct (occupancy_refreshed_frame h r) as (_ & _ & _ & _ & Ee & El & Eh & _).
  destruct Hs as [Hnone|(e & limit & hyst & reading & He & Hlim & Hhyst & Hpos & Hread)].
  - unfold low_light_refreshed. rewrite Ee, Hnone. eauto.
  - rewrite (@low_light_refreshed_ints h (occupancy_refreshed h r) e limit hyst reading);
      try congruence.
    eauto.
Qed.

(** After an evaluation that got past the scenes, the room is a fixed
    point of the evaluation. *)
Lemma evaluated_fixed h trigger r force :
  luminance_settled h r ->
  force_light_on h (or_default (scenes r) []) = Ok force ->
  let r2 := evaluated h trigger r in
  refreshed h r2 = Ok r2
  /\ force_light_on h (or_default (scenes r2) []) = Ok force
  /\ decided force trigger r2 = r2
  /\ (force = true -> is_light_on r2 = true).
Proof.
  intros Hs Hf r2.
  destruct (luminance_settled_refreshed Hs) as (r1 & Href).
  assert (E2 : r2 = decided force trigger r1)
    by (subst r2; unfold evaluated; now rewrite Href, Hf).
  pose proof (evaluated_same_config h trigger r) as Hcfg. fold r2 in Hcfg.
  destruct (decided_frame force trigger r1) as [Dl Do].
  assert (Hs0 : luminance_settled h (occupancy_refreshed h r)).
  { destruct (occupancy_refreshed_frame h r) as (_ & _ & _ & _ & Ee & El & Eh & _).
    unfold luminance_settled. rewrite Ee, El, Eh. exact Hs. }
  assert (Hc0 : same_config (occupancy_refreshed h r) r2).
  { assert (C0 : same_config r (occupancy_refreshed h r))
      by (unfold occupancy_refreshed;
          destruct (configured (occupancy_entity r)); repeat split).
    unfold same_config in *. intuition congruence. }
  split; [|split; [|split]].
  - unfold refreshed.
    assert (Ho : occupancy r2 = occupancy (occupancy_refreshed h r)).
    { unfold refreshed in Href.
      destruct (low_light_refreshed_frame _ _ Href) as (_ & Ho & _). congruence. }
    rewrite (occupancy_refreshed_fixed h Hcfg Ho).
    apply (low_light_refreshed_fixed Hs0 Href Hc0). congruence.
  - destruct Hcfg as (_ & _ & _ & _ & _ & _ & _ & _ & Esc). now rewrite Esc.
  - rewrite E2. apply decided_idem.
  - intros ->. rewrite E2. reflexivity.
Qed.



(** ** The range scaler at its edges *)

(** X11.  [scale] raises [ZeroDivisionError] for every integer value when
    the source range is a single point, and [TypeError] when the value is
    [None] or a string, whatever the ranges are. *)
Theorem scale_errors :
  (forall v a dst, scale (VInt v) (a, a) dst = Raise ZeroDivisionError)
  /\ (forall src dst, scale VNone src dst = Raise TypeError)
  /\ (forall w src dst, scale (VStr w) src dst = Raise TypeError).
Proof.
  split; [|split; reflexivity].
  intros v a dst. unfold scale. rewrite max_ints. cbn [obind fst snd].
  rewrite min_ints. cbn [obind].
  unfold Py.sub, Py.as_num, Py.num_arith. cbn [obind].
  unfold Py.truediv, Py.as_num, Py.int_truediv.
  now rewrite Z.sub_diag.
Qed.

(** ** The natural-lighting dictionary *)

Lemma with_modes_same nl : with_modes (modes nl) nl = nl.
Proof. now destruct nl. Qed.

Lemma set_modes_keeps nl ms :
  Forall2 (fun old new => fst new = fst old /\ same_bounds (snd old) (snd new))
    ms (snd (set_modes nl ms)).
Proof.
  induction ms as [|[n m] ms IH]; simpl; [constructor|].
  destruct (scale _ _ (min_brightness m, max_brightness m)) as [b|].
  - destruct (scale _ _ (min_kelvin m, max_kelvin m)) as [k|].
    + destruct (set_modes nl ms) as [res rest]. simpl in *.
      constructor; [repeat split|exact IH].
    + simpl. constructor; [repeat split|].
      clear. induction ms as [|x ms IH]; constructor; [repeat split|exact IH].
  - simpl. constructor; [repeat split|].
    clear. induction ms as [|x ms IH]; constructor; [repeat split|exact IH].
Qed.

Lemma set_modes_again nl nl2 ms ms' :
  set_modes nl ms = (Ok tt, ms') ->
  same_sun nl nl2 ->
  set_modes nl2 ms' = (Ok tt, ms').
Proof.
  intros H (_ & E1 & E2 & E3 & E4 & E5). revert ms' H.
  induction ms as [|[n m] ms IH]; intros ms'; simpl.
  - intros H. injection H as <-. reflexivity.
  - destruct (scale _ _ (min_brightness m, max_brightness m)) as [b|] eqn:Eb;
      [|discriminate].
    destruct (scale _ _ (min_kelvin m, max_kelvin m)) as [k|] eqn:Ek; [|discriminate].
    destruct (set_modes nl ms) as [res rest] eqn:E.
    intros H. injection H as -> <-. simpl.
    rewrite E1, E2, E3, E4, E5, Eb, Ek, (IH rest eq_refl). reflexivity.
Qed.

(** What a call of [set_natural_lighting] keeps, whatever its outcome. *)
Lemma set_natural_lighting_frame nl :
  Forall2 (fun old new => fst new = fst old /\ same_bounds (snd old) (snd new))
    (modes nl) (modes (snd (set_natural_lighting nl)))
  /\ same_sun nl (snd (set_natural_lighting nl)).
Proof.
  unfold set_natural_lighting.
  pose proof (set_modes_keeps nl (modes nl)) as K.
  destruct (set_modes nl (modes nl)) as [res ms]. simpl in *.
  split; [exact K|repeat split].
Qed.

(** X12.  [set_natural_lighting] never adds, drops, renames or reorders a
    mode and never changes a configured bound or an elevation range, even
    when it raises; when it returns, every mode holds the scaled
    brightness and kelvin, and a second call changes nothing. *)
Theorem set_natural_lighting_keeps_modes nl :
  let out := set_natural_lighting nl in
  Forall2 (fun old new => fst new = fst old /\ same_bounds (snd old) (snd new))
    (modes nl) (modes (snd out))
  /\ same_sun nl (snd out)
  /\ (fst out = Ok tt ->
      Forall2 (recomputed nl) (modes nl) (modes (snd out))
      /\ set_natural_lighting (snd out) = (Ok tt, snd out)).
Proof.
  cbv zeta. destruct (set_natural_lighting_frame nl) as [K S].
  split; [exact K|]. split; [exact S|]. clear K S.
  unfold set_natural_lighting.
  destruct (set_modes nl (modes nl)) as [res ms] eqn:E. simpl.
  intros ->. split; [exact (set_modes_recomputed _ _ E)|].
  rewrite (@set_modes_again nl (with_modes ms nl) (modes nl) ms E);
    [|repeat split].
  now destruct nl.
Qed.

Lemma set_natural_lighting_keeps_modes_witness :
  set_natural_lighting
    (snd (set_natural_lighting (default_natural_lighting [("default", default_mode)])))
  = (Ok tt,
     snd (set_natural_lighting (default_natural_lighting [("default", default_mode)]))).
Proof.
  destruct (set_natural_lighting_keeps_modes
              (default_natural_lighting [("default", default_mode)])) as (_ & _ & H).
  apply H. reflexivity.
Defined.

(** X13.  When the new sun elevation cannot be converted ([int] hands back
    [None] or a string), the handler stores it all the same, raises
    [TypeError] at the first mode and does nothing else: no mode is
    recomputed and no room is driven. *)
Theorem sun_elevation_unreadable h new s nl n m rest :
  self_natural_lighting s = Some nl ->
  modes nl = (n, m) :: rest ->
  int new = VNone \/ (exists w, int new = VStr w) ->
  callback_sun_elevation h new s
  = (Raise TypeError,
     set_self_natural_lighting (Some (with_sun_elevation (int new) nl)) s).
Proof.
  intros Hnl Hm Hbad. unfold callback_sun_elevation.
  unfold bind at 1, gets at 1. rewrite Hnl.
  unfold set_natural_lighting. cbn [modes with_sun_elevation]. rewrite Hm.
  assert (Es : forall src dst, scale (int new) src dst = Raise TypeError).
  { intros src dst. destruct Hbad as [->|(w & ->)]; reflexivity. }
  cbn [set_modes sun_elevation with_sun_elevation]. rewrite Es.
  unfold bind, modify, lift. cbn [with_modes]. rewrite <- Hm.
  now destruct nl.
Qed.

Lemma sun_elevation_unreadable_witness :
  fst (callback_sun_elevation (host_of []) VNone
         (app_of (Some (default_natural_lighting [("default", default_mode)]))
            [("room", sunlit_room "light.room" 0 None)]))
  = Raise TypeError.
Proof.
  rewrite (@sun_elevation_unreadable (host_of []) VNone
             (app_of (Some (default_natural_lighting [("default", default_mode)]))
                [("room", sunlit_room "light.room" 0 None)])
             (default_natural_lighting [("default", default_mode)])
             "default" default_mode [] eq_refl eq_refl (or_introl eq_refl)).
  reflexivity.
Defined.

(** ** [init_natural_lighting] *)

Lemma dict_has_set V k k' (v : V) d :
  dict_has k (dict_set k' v d) = String.eqb k k' || dict_has k d.
Proof.
  unfold dict_has. rewrite dict_get_set. destruct (String.eqb k k'); reflexivity.
Qed.

Lemma dict_keys_set_cases V k (v : V) d :
  dict_keys (dict_set k v d)
  = if dict_has k d then dict_keys d else (dict_keys d ++ [k])%list.
Proof.
  unfold dict_keys, dict_has. induction d as [|[k0 v0] d IH]; simpl; [reflexivity|].
  destruct (String.eqb k k0) eqn:E; simpl; [reflexivity|].
  rewrite IH. destruct (dict_get k d); reflexivity.
Qed.

Lemma dict_has_in V k (d : list (string * V)) :
  dict_has k d = true <-> In k (dict_keys d).
Proof.
  unfold dict_has, dict_keys. induction d as [|[k0 v0] d IH]; simpl.
  - split; [discriminate|intros []].
  - destruct (String.eqb k k0) eqn:E.
    + apply String.eqb_eq in E. subst. split; auto.
    + rewrite IH. split; [auto|]. intros [->|H]; [|exact H].
      now rewrite String.eqb_refl in E.
Qed.

Lemma dict_set_nodup V k (v : V) d :
  NoDup (dict_keys d) -> NoDup (dict_keys (dict_set k v d)).
Proof.
  intros H. rewrite dict_keys_set_cases.
  destruct (dict_has k d) eqn:E; [exact H|].
  apply NoDup_app; [exact H | constructor; [intros []|constructor] |].
  intros x Hx [<-|[]]. apply dict_has_in in Hx. congruence.
Qed.

Lemma add_modes_ok ms l ms' :
  add_modes ms l = Ok ms' ->
  (NoDup (dict_keys ms) -> NoDup (dict_keys ms'))
  /\ (forall k, dict_has k ms = true -> dict_has k ms' = true)
  /\ (forall ma n, In ma l -> arg_mode_name ma = Some n -> dict_has n ms' = true).
Proof.
  revert ms ms'. induction l as [|ma l IH]; intros ms ms'; simpl.
  - intros H. injection H as <-. split; [auto|]. split; [auto|]. intros ma n [].
  - unfold add_mode at 1. destruct (arg_mode_name ma) as [n|] eqn:En; [|discriminate].
    cbn [obind]. intros H. destruct (IH _ _ H) as (A & B & C).
    split; [|split].
    + intros Hn. apply A. now apply dict_set_nodup.
    + intros k Hk. apply B. rewrite dict_has_set, Hk. apply orb_true_r.
    + intros ma' n' [<-|Hin] Hn'.
      * apply B. rewrite dict_has_set. replace n' with n by congruence.
        now rewrite String.eqb_refl.
      * exact (C ma' n' Hin Hn').
Qed.

Lemma add_modes_nameless ms l ma :
  In ma l -> arg_mode_name ma = None -> add_modes ms l = Raise KeyError.
Proof.
  revert ms. induction l as [|x l IH]; intros ms; [intros []|].
  intros [->|Hin] Hn; simpl; unfold add_mode at 1.
  - now rewrite Hn.
  - destruct (arg_mode_name x); [|reflexivity]. cbn [obind]. now apply IH.
Qed.

Lemma same_names_keys (ms ms' : list (string * mode)) :
  Forall2 (fun old new => fst new = fst old /\ same_bounds (snd old) (snd new)) ms ms' ->
  dict_keys ms' = dict_keys ms.
Proof.
  unfold dict_keys. induction 1 as [|a b ms ms' [E _] F IH]; simpl; [reflexivity|].
  now rewrite E, IH.
Qed.

(** X14.  When natural lighting is configured and [init_natural_lighting]
    returns, the dictionary it returns has a mode ["default"] and a mode
    for every name the configuration gives, no name twice; the sun entity
    is tracked, exactly one listener, on the sun's elevation, has been
    registered, and the stored elevation is the converted reading. *)
Theorem init_natural_lighting_enabled h a na s res s' :
  args_natural_lighting a = Some na ->
  init_natural_lighting h a s = (Ok res, s') ->
  let sun := or_default (arg_sun_entity na) "sun.sun" in
  exists nl,
    res = Some nl
    /\ dict_has "default" (modes nl) = true
    /\ NoDup (dict_keys (modes nl))
    /\ (forall l ma n, arg_modes na = Some (Listed l) -> In ma l ->
                       arg_mode_name ma = Some n -> dict_has n (modes nl) = true)
    /\ sun_elevation nl = int (get_attribute h sun "elevation")
    /\ In sun (self_entities s')
    /\ listeners s' = (listeners s ++ [sun_listener sun])%list
    /\ self_rooms s' = self_rooms s /\ calls s' = calls s.
Proof.
  intros Ha H sun. unfold init_natural_lighting in H. rewrite Ha in H.
  apply bind_ok in H. destruct H as (ms & s1 & H1 & H).
  unfold lift in H1. injection H1 as Hms <-.
  apply bind_ok in H. destruct H as ([] & s2 & H2 & H).
  apply bind_ok in H. destruct H as ([] & s3 & H3 & H).
  fold sun in H2, H3, H.
  unfold listen_state, modify in H3. injection H3 as <-.
  match type of H with
  | (let (_, _) := set_natural_lighting ?x in _) _ = _ =>
      pose proof (set_natural_lighting_frame x) as K;
      destruct (set_natural_lighting x) as [r nl'] eqn:En
  end.
  simpl snd in K.
  destruct K as (Kn & Ks).
  apply bind_ok in H. destruct H as ([] & s4 & H4 & H).
  unfold lift in H4. injection H4 as -> <-.
  unfold ret in H. injection H as <- <-.
  exists nl'. split; [reflexivity|].
  pose proof (same_names_keys Kn) as Ek. cbn [modes] in Ek.
  assert (Hd : dict_has "default" ms = true /\ NoDup (dict_keys ms)
               /\ forall l ma n, arg_modes na = Some (Listed l) -> In ma l ->
                    arg_mode_name ma = Some n -> dict_has n ms = true).
  { destruct (arg_modes na) as [[l|]|].
    - destruct (add_modes_ok _ _ Hms) as (A & B & C).
      split; [apply B; reflexivity|]. split.
      + apply A. repeat constructor. intros [].
      + intros l' ma n E. injection E as <-. apply C.
    - injection Hms as <-. split; [reflexivity|].
      split; [repeat constructor; intros []|]. intros; discriminate.
    - injection Hms as <-. split; [reflexivity|].
      split; [repeat constructor; intros []|]. intros; discriminate. }
  destruct Hd as (D1 & D2 & D3).
  assert (Hh : forall k, dict_has k ms = true -> dict_has k (modes nl') = true).
  { intros k Hk. apply dict_has_in. rewrite Ek. now apply dict_has_in. }
  split; [now apply Hh|]. split; [now rewrite Ek|].
  split; [intros l ma n E Hin Hn; apply Hh; exact (D3 l ma n E Hin Hn)|].
  destruct Ks as (_ & _ & _ & _ & _ & Ke). cbn [sun_elevation] in Ke.
  split; [exact Ke|].
  assert (N : NoDup (@nil string)) by constructor.
  simpl. unfold add_entity, modify in H2. injection H2 as <-.
  split.
  { destruct (existsb (String.eqb sun) (self_entities s)) eqn:E.
    - now apply tracked_iff.
    - simpl. apply in_or_app. right. now left. }
  split; [destruct (existsb _ _); reflexivity|].
  split; destruct (existsb _ _); reflexivity.
Qed.

Lemma init_natural_lighting_enabled_witness :
  exists nl,
    fst (init_natural_lighting (sun_host (VInt 0))
           (natural_lighting_only plain_natural_lighting_args) fresh) = Ok (Some nl)
    /\ dict_has "default" (modes nl) = true.
Proof.
  destruct (init_natural_lighting (sun_host (VInt 0))
              (natural_lighting_only plain_natural_lighting_args) fresh)
    as [[res|x] s'] eqn:E; [|vm_compute in E; discriminate].
  destruct (@init_natural_lighting_enabled (sun_host (VInt 0))
              (natural_lighting_only plain_natural_lighting_args)
              plain_natural_lighting_args fresh res s' eq_refl E)
    as (nl & -> & Hd & _).
  exists nl. split; [reflexivity|exact Hd].
Defined.

(** X15.  A configured mode without a [name] makes
    [init_natural_lighting] raise [KeyError] before anything is tracked or
    registered: the state is as it was. *)
Theorem init_natural_lighting_nameless_mode h a na l ma s :
  args_natural_lighting a = Some na ->
  arg_modes na = Some (Listed l) ->
  In ma l ->
  arg_mode_name ma = None ->
  init_natural_lighting h a s = (Raise KeyError, s).
Proof.
  intros Ha Hm Hin Hn. unfold init_natural_lighting. rewrite Ha, Hm.
  rewrite (add_modes_nameless _ _ _ Hin Hn). reflexivity.
Qed.

Lemma init_natural_lighting_nameless_mode_witness :
  init_natural_lighting (sun_host (VInt 0))
    (natural_lighting_only
       {| arg_modes := Some (Listed [nameless_mode_args]);
          arg_sun_entity := None;
          arg_min_elevation_for_brightness := None;
          arg_max_elevation_for_brightness := None;
          arg_min_elevation_for_kelvin := None;
          arg_max_elevation_for_kelvin := None |}) fresh
  = (Raise KeyError, fresh).
Proof.
  apply (@init_natural_lighting_nameless_mode (sun_host (VInt 0))
           (natural_lighting_only
              {| arg_modes := Some (Listed [nameless_mode_args]);
                 arg_sun_entity := None;
                 arg_min_elevation_for_brightness := None;
                 arg_max_elevation_for_brightness := None;
                 arg_min_elevation_for_kelvin := None;
                 arg_max_elevation_for_kelvin := None |})
           _ [nameless_mode_args] nameless_mode_args fresh eq_refl eq_refl
           (or_introl eq_refl) eq_refl).
Defined.

(** ** The default configuration of natural lighting *)

Lemma default_scales v :
  scale (VInt v) (-20, 20) (100, 255) = Ok (VInt (scale_exact v (-20, 20) (100, 255)))
  /\ scale (VInt v) (0, 20) (2000, 5500) = Ok (VInt (scale_exact v (0, 20) (2000, 5500))).
Proof.
  split.
  - apply (@scale_is_exact_everywhere (-20, 20) (100, 255) 41 v);
      [simpl; lia | simpl; lia | vm_compute; reflexivity].
  - apply (@scale_is_exact_everywhere (0, 20) (2000, 5500) 21 v);
      [simpl; lia | simpl; lia | vm_compute; reflexivity].
Qed.

Lemma default_levels_bounds v :
  let b := scale_exact v (-20, 20) (100, 255) in
  let k := scale_exact v (0, 20) (2000, 5500) in
  100 <= b <= 255 /\ 2000 <= k <= 5500
  /\ (v <= -20 -> b = 100) /\ (20 <= v -> b = 255 /\ k = 5500)
  /\ (v <= 0 -> k = 2000).
Proof.
  unfold scale_exact, clamp. cbn [fst snd].
  assert (Q1 : forall x, 0 <= x <= 40 -> 100 <= (x * 155 + 4000) ÷ 40 <= 255).
  { intros x Hx. split.
    - change 100 with (4000 ÷ 40). apply Z.quot_le_mono; lia.
    - change 255 with (10200 ÷ 40). apply Z.quot_le_mono; lia. }
  assert (Q2 : forall x, 0 <= x <= 20 -> 2000 <= (x * 3500 + 40000) ÷ 20 <= 5500).
  { intros x Hx. split.
    - change 2000 with (40000 ÷ 20). apply Z.quot_le_mono; lia.
    - change 5500 with (110000 ÷ 20). apply Z.quot_le_mono; lia. }
  split; [|split; [|split; [|split]]].
  - replace ((Z.min (Z.max v (-20)) 20 - -20) * (255 - 100) + 100 * (20 - -20))
      with ((Z.min (Z.max v (-20)) 20 + 20) * 155 + 4000) by lia.
    change (20 - -20) with 40. apply Q1. lia.
  - replace ((Z.min (Z.max v 0) 20 - 0) * (5500 - 2000) + 2000 * (20 - 0))
      with (Z.min (Z.max v 0) 20 * 3500 + 40000) by lia.
    change (20 - 0) with 20. apply Q2. lia.
  - intros H. replace (Z.min (Z.max v (-20)) 20) with (-20) by lia. reflexivity.
  - intros H. replace (Z.min (Z.max v (-20)) 20) with 20 by lia.
    replace (Z.min (Z.max v 0) 20) with 20 by lia. split; reflexivity.
  - intros H. replace (Z.min (Z.max v 0) 20) with 0 by lia. reflexivity.
Qed.

(** X16.  With a [natural_lighting:] section that sets nothing, for every
    integer sun elevation the initialization returns one mode, ["default"],
    whose brightness is within [100, 255] and whose kelvin is within
    [2000, 5500]: brightness 100 up to elevation -20 and 255 from
    elevation 20, kelvin 2000 up to elevation 0 and 5500 from elevation 20,
    and in between the truncated linear value. *)
Theorem default_levels h v s :
  int (get_attribute h "sun.sun" "elevation") = VInt v ->
  exists nl s' b k,
    init_natural_lighting h (natural_lighting_only plain_natural_lighting_args) s
    = (Ok (Some nl), s')
    /\ modes nl
       = [("default", with_kelvin (VInt k) (with_brightness (VInt b) default_mode))]
    /\ b = scale_exact v (-20, 20) (100, 255)
    /\ k = scale_exact v (0, 20) (2000, 5500)
    /\ 100 <= b <= 255 /\ 2000 <= k <= 5500
    /\ (v <= -20 -> b = 100) /\ (20 <= v -> b = 255 /\ k = 5500)
    /\ (v <= 0 -> k = 2000).
Proof.
  intros Hv.
  destruct (default_scales v) as [Eb Ek].
  unfold init_natural_lighting, natural_lighting_only.
  cbn [args_natural_lighting plain_natural_lighting_args arg_modes arg_sun_entity
       arg_min_elevation_for_brightness arg_max_elevation_for_brightness
       arg_min_elevation_for_kelvin arg_max_elevation_for_kelvin or_default].
  rewrite Hv.
  unfold set_natural_lighting. unfold bind at 1, lift at 1.
  cbn [modes set_modes sun_elevation min_elevation_for_brightness
       max_elevation_for_brightness min_elevation_for_kelvin max_elevation_for_kelvin
       default_mode min_brightness max_brightness min_kelvin max_kelvin].
  rewrite Eb, Ek.
  cbn [with_modes].
  eexists _, _, _, _. split; [reflexivity|]. split; [reflexivity|].
  split; [reflexivity|]. split; [reflexivity|].
  apply default_levels_bounds.
Qed.

Lemma default_levels_witness :
  exists nl s',
    init_natural_lighting (sun_host (VStr "-3.5"))
      (natural_lighting_only plain_natural_lighting_args) fresh
    = (Ok (Some nl), s')
    /\ option_map brightness (dict_get "default" (modes nl)) = Some (VInt 165)
    /\ option_map kelvin (dict_get "default" (modes nl)) = Some (VInt 2000).
Proof.
  destruct (@default_levels (sun_host (VStr "-3.5")) (-3) fresh eq_refl)
    as (nl & s' & b & k & E & Em & -> & -> & _).
  exists nl, s'. split; [exact E|]. rewrite Em. split; reflexivity.
Defined.

(** ** [init_rooms]: the rooms it builds *)

Lemma Forall_dict_set V (P : string * V -> Prop) k v d :
  Forall P d -> P (k, v) -> Forall P (dict_set k v d).
Proof.
  intros F Hp. induction F as [|[k' v'] d Hx F IH]; simpl.
  - constructor; [exact Hp|constructor].
  - destruct (String.eqb k k') eqn:E.
    + apply String.eqb_eq in E. subst k'. now constructor.
    + now constructor.
Qed.

Lemma Forall_dict_del V (P : string * V -> Prop) k d :
  Forall P d -> Forall P (dict_del k d).
Proof.
  intros F. induction F as [|[k' v'] d Hx F IH]; simpl; [constructor|].
  destruct (String.eqb k k'); [exact F|now constructor].
Qed.

Lemma dict_get_in V k (v : V) d : dict_get k d = Some v -> In (k, v) d.
Proof.
  induction d as [|[k' v'] d IH]; simpl; [discriminate|].
  destruct (String.eqb k k') eqn:E.
  - apply String.eqb_eq in E. intros H. injection H as <-. subst. now left.
  - intros H. right. now apply IH.
Qed.

(** One turn of the loop over the configured rooms. *)
Lemma init_room_step h rooms room_name ra s rooms' s' :
  init_room h rooms room_name ra s = (Ok rooms', s') ->
  match lights_ok h ra with
  | None => rooms' = dict_del room_name rooms /\ s' = s
  | Some _ => exists r, rooms' = dict_set room_name r rooms /\ built_from h ra r
  end.
Proof.
  unfold init_room, lights_ok.
  destruct (configured (arg_lights_entity ra)) as [e|] eqn:El.
  - destruct (entity_exists h e) eqn:Ee; cbn [negb].
    + intros H.
      apply bind_ok in H. destruct H as ([] & s1 & _ & H).
      apply bind_ok in H. destruct H as (bindings & s2 & H2 & H).
      apply bind_ok in H. destruct H as ([] & s3 & _ & H).
      apply bind_ok in H. destruct H as ([] & s4 & _ & H).
      unfold ret in H. injection H as <- _.
      eexists. split; [reflexivity|].
      unfold built_from, lights_ok. cbn. rewrite El, Ee.
      repeat (split; [reflexivity|]).
      destruct (arg_natural_lighting ra) as [[l|]|].
      * apply bind_ok in H2. destruct H2 as (bs & s2' & _ & H2).
        unfold ret in H2. injection H2 as <- _. split; discriminate.
      * unfold ret in H2. injection H2 as <- _. split; discriminate.
      * unfold ret in H2. injection H2 as <- _. split; reflexivity.
    + unfold ret. intros H. injection H as <- <-. now split.
  - unfold ret. intros H. injection H as <- <-. now split.
Qed.

Lemma init_rooms_loop_builds h all l rooms s rooms' s' :
  incl l all ->
  Forall (fun nr => exists ra, In (fst nr, ra) all /\ built_from h ra (snd nr)) rooms ->
  init_rooms_loop h rooms l s = (Ok rooms', s') ->
  Forall (fun nr => exists ra, In (fst nr, ra) all /\ built_from h ra (snd nr)) rooms'.
Proof.
  revert rooms s. induction l as [|[n ra] l IH]; intros rooms s Hincl F; simpl.
  - unfold ret. intros H. now injection H as <- _.
  - intros H. apply bind_ok in H. destruct H as (rooms1 & s1 & H1 & H).
    apply init_room_step in H1.
    apply (IH rooms1 s1); [intros x Hx; apply Hincl; now right| |exact H].
    destruct (lights_ok h ra).
    + destruct H1 as (r & -> & B). apply Forall_dict_set; [exact F|].
      exists ra. split; [apply Hincl; now left|exact B].
    + destruct H1 as [-> _]. now apply Forall_dict_del.
Qed.



(** ** [init_rooms]: the natural-lighting bindings *)

Lemma same_but_tracking_refl s : same_but_tracking s s.
Proof. repeat split. Qed.

Lemma same_but_tracking_trans s1 s2 s3 :
  same_but_tracking s1 s2 -> same_but_tracking s2 s3 -> same_but_tracking s1 s3.
Proof. unfold same_but_tracking. intuition congruence. Qed.

Lemma add_entity_run e s :
  exists s',
    add_entity e s = (Ok tt, s')
    /\ same_but_tracking s s'
    /\ listeners s' = listeners s
    /\ In e (self_entities s')
    /\ (forall x, In x (self_entities s) -> In x (self_entities s')).
Proof.
  unfold add_entity, modify.
  destruct (existsb (String.eqb e) (self_entities s)) eqn:E.
  - exists s. split; [reflexivity|]. split; [apply same_but_tracking_refl|].
    split; [reflexivity|]. split; [now apply tracked_iff|auto].
  - eexists. split; [reflexivity|]. split; [repeat split|].
    split; [reflexivity|]. simpl. split.
    + apply in_or_app. right. now left.
    + intros x Hx. apply in_or_app. now left.
Qed.

(** X18.  With natural lighting enabled, the bindings of a room are built
    without an exception, one per configured entry and in the same order:
    the mode name is the configured one when it is a known mode and
    ["default"] otherwise (also when no name is given), the boost defaults
    to 0, and [natural_entity] defaults to the room's lights.  So every
    binding names a known mode once ["default"] is one.  Every configured
    [natural_entity] is tracked afterwards, and nothing but the tracked
    entities changes. *)
Theorem init_bindings_resolve lights l nl s :
  self_natural_lighting s = Some nl ->
  exists bs s',
    init_bindings lights l s = (Ok bs, s')
    /\ Forall2 (binding_from nl lights) l bs
    /\ (dict_has "default" (modes nl) = true ->
        Forall (fun b => dict_has (name b) (modes nl) = true) bs)
    /\ Forall (fun ba => forall e, arg_natural_entity ba = Some e ->
                                   In e (self_entities s')) l
    /\ (forall x, In x (self_entities s) -> In x (self_entities s'))
    /\ same_but_tracking s s'
    /\ listeners s' = listeners s.
Proof.
  revert s. induction l as [|ba l IH]; intros s Hnl.
  - exists [], s. simpl. unfold ret.
    split; [reflexivity|]. split; [constructor|]. split; [constructor|].
    split; [constructor|]. split; [auto|]. split; [apply same_but_tracking_refl|reflexivity].
  - assert (S1 : exists s1,
               init_binding lights ba s
               = (Ok {| name := if dict_has (or_default (arg_name ba) "default") (modes nl)
                                then or_default (arg_name ba) "default" else "default";
                        boost_brightness_pct := or_default (arg_boost_brightness_pct ba) 0;
                        binding_lights_entity := arg_binding_lights_entity ba;
                        natural_entity := Some (or_default (arg_natural_entity ba) lights) |},
                  s1)
               /\ same_but_tracking s s1
               /\ listeners s1 = listeners s
               /\ (forall e, arg_natural_entity ba = Some e -> In e (self_entities s1))
               /\ (forall x, In x (self_entities s) -> In x (self_entities s1))).
    { unfold init_binding. unfold bind at 1, gets at 1. rewrite Hnl.
      destruct (arg_natural_entity ba) as [e|].
      - destruct (add_entity_run e s) as (s1 & E & K & L & I & J).
        exists s1. unfold bind. rewrite E. unfold ret.
        split; [reflexivity|]. split; [exact K|]. split; [exact L|].
        split; [|exact J]. intros e' H. now injection H as <-.
      - exists s. unfold bind, ret.
        split; [reflexivity|]. split; [apply same_but_tracking_refl|].
        split; [reflexivity|]. split; [discriminate|auto]. }
    destruct S1 as (s1 & E1 & K1 & L1 & I1 & J1).
    assert (Hnl1 : self_natural_lighting s1 = Some nl).
    { destruct K1 as (-> & _). exact Hnl. }
    destruct (IH s1 Hnl1) as (bs & s' & E & F & D & T & J & K & L).
    eexists. exists s'. simpl. unfold bind at 1. rewrite E1.
    unfold bind at 1. rewrite E. unfold ret.
    split; [reflexivity|]. split.
    { constructor; [|exact F]. repeat split. }
    split.
    { intros Hd. constructor; [|now apply D]. cbn [name].
      destruct (dict_has (or_default (arg_name ba) "default") (modes nl)) eqn:Eh;
        [exact Eh|exact Hd]. }
    split.
    { constructor; [|exact T]. intros e He. apply J. now apply I1. }
    split; [auto|]. split; [eapply same_but_tracking_trans; eauto|congruence].
Qed.

Lemma init_bindings_resolve_witness :
  exists bs s',
    init_bindings "light.den"
      [ {| arg_name := Some "cosy"; arg_boost_brightness_pct := None;
           arg_binding_lights_entity := None; arg_natural_entity := Some "light.spot" |} ]
      (snd (initialize (sun_host (VInt 10))
                 (natural_lighting_only plain_natural_lighting_args) fresh))
    = (Ok bs, s')
    /\ map name bs = ["default"]
    /\ In "light.spot" (self_entities s').
Proof.
  destruct (self_natural_lighting (snd (initialize (sun_host (VInt 10))
                 (natural_lighting_only plain_natural_lighting_args) fresh)))
    as [nl|] eqn:Hnl; [|vm_compute in Hnl; discriminate].
  destruct (@init_bindings_resolve "light.den"
              [ {| arg_name := Some "cosy"; arg_boost_brightness_pct := None;
                   arg_binding_lights_entity := None;
                   arg_natural_entity := Some "light.spot" |} ] nl _ Hnl)
    as (bs & s' & E & F & D & T & _).
  exists bs, s'. split; [exact E|]. split.
  - vm_compute in E. injection E as <- _. reflexivity.
  - inversion T as [|x l' Hx _]. now apply Hx.
Defined.

(** ** [init_rooms] without natural lighting *)

Lemma bind_run A B (m : M A) (f : A -> M B) s a s1 :
  m s = (Ok a, s1) -> bind m f s = f a s1.
Proof. intros E. unfold bind. now rewrite E. Qed.

Lemma bind_raises A B (m : M A) (f : A -> M B) s e s1 :
  m s = (Raise e, s1) -> bind m f s = (Raise e, s1).
Proof. intros E. unfold bind. now rewrite E. Qed.

(** One turn of the loop when natural lighting is off: the room is built,
    unless it reads the modes. *)
Lemma init_room_disabled h rooms room_name ra s :
  self_natural_lighting s = None ->
  exists s',
    same_but_tracking s s'
    /\ if reads_modes h ra
       then init_room h rooms room_name ra s = (Raise TypeError, s')
       else exists rooms', init_room h rooms room_name ra s = (Ok rooms', s').
Proof.
  intros Hnl. unfold reads_modes, lights_ok, init_room.
  destruct (configured (arg_lights_entity ra)) as [e|].
  2:{ exists s. split; [apply same_but_tracking_refl|]. eexists. reflexivity. }
  destruct (entity_exists h e); cbn [negb].
  2:{ exists s. split; [apply same_but_tracking_refl|]. eexists. reflexivity. }
  destruct (add_entity_run e s) as (s1 & E1 & K1 & _).
  rewrite (@bind_run _ _ _ _ _ _ _ E1).
  assert (Hnl1 : self_natural_lighting s1 = None).
  { destruct K1 as (-> & _). exact Hnl. }
  assert (Rest : forall bindings,
             exists s' rooms',
               same_but_tracking s s'
               /\ (bs <- ret bindings ;;
                   for_each (or_default match arg_scenes ra with
                                        | Some (Listed l) => Some l
                                        | _ => None
                                        end []) (listen_scene h room_name) ;;
                   listen_sensors h room_name
                     {| occupancy_entity := arg_occupancy_entity ra;
                        lights_entity := e;
                        occupancy_off_delay := or_default (arg_occupancy_off_delay ra) 0;
                        luminance_entity := arg_luminance_entity ra;
                        luminance_limit := or_default (arg_luminance_limit ra) (VInt 10);
                        luminance_hysteresis :=
                          or_default (arg_luminance_hysteresis ra) (VInt 0);
                        hight_luminance_off_light :=
                          or_default (arg_hight_luminance_off_light ra) false;
                        occupancy := or_default (arg_occupancy ra) true;
                        low_light := or_default (arg_low_light ra) true;
                        is_light_on := or_default (arg_is_light_on ra) false;
                        natural_lighting := bs;
                        scenes := match arg_scenes ra with
                                  | Some (Listed l) => Some l
                                  | _ => None
                                  end |} ;;
                   ret (dict_set room_name
                          {| occupancy_entity := arg_occupancy_entity ra;
                             lights_entity := e;
                             occupancy_off_delay := or_default (arg_occupancy_off_delay ra) 0;
                             luminance_entity := arg_luminance_entity ra;
                             luminance_limit := or_default (arg_luminance_limit ra) (VInt 10);
                             luminance_hysteresis :=
                               or_default (arg_luminance_hysteresis ra) (VInt 0);
                             hight_luminance_off_light :=
                               or_default (arg_hight_luminance_off_light ra) false;
                             occupancy := or_default (arg_occupancy ra) true;
                             low_light := or_default (arg_low_light ra) true;
                             is_light_on := or_default (arg_is_light_on ra) false;
                             natural_lighting := bs;
                             scenes := match arg_scenes ra with
                                       | Some (Listed l) => Some l
                                       | _ => None
                                       end |} rooms))%app s1
                  = (Ok rooms', s')).
  { intros bindings. unfold bind at 1, ret at 1.
    unfold bind at 1. rewrite listen_scenes_run.
    unfold bind at 1.
    match goal with
    | |- context [listen_sensors h room_name ?r ?s0] =>
        destruct (listen_sensors_run h room_name r s0) as (ls & E4 & _)
    end.
    rewrite E4. unfold ret.
    eexists. eexists. split; [|reflexivity].
    eapply same_but_tracking_trans; [exact K1|]. repeat split. }
  destruct (arg_natural_lighting ra) as [[[|ba l]|]|].
  - destruct (Rest (Some [])) as (s' & rooms' & K & E).
    exists s'. split; [exact K|]. exists rooms'.
    simpl init_bindings. exact E.
  - exists s1. split; [exact K1|].
    simpl init_bindings. unfold init_binding.
    unfold bind, gets. rewrite Hnl1. reflexivity.
  - destruct (Rest (Some [ {| name := "default"; boost_brightness_pct := 0;
                              binding_lights_entity := None;
                              natural_entity := Some e |} ])) as (s' & rooms' & K & E).
    exists s'. split; [exact K|]. exists rooms'. exact E.
  - destruct (Rest None) as (s' & rooms' & K & E).
    exists s'. split; [exact K|]. exists rooms'. exact E.
Qed.

Lemma init_rooms_loop_disabled h l rooms s :
  self_natural_lighting s = None ->
  existsb (fun nra => reads_modes h (snd nra)) l = true ->
  exists s',
    init_rooms_loop h rooms l s = (Raise TypeError, s')
    /\ same_but_tracking s s'.
Proof.
  revert rooms s. induction l as [|[n ra] l IH]; intros rooms s Hnl Hex;
    [discriminate|].
  simpl in Hex. simpl init_rooms_loop.
  destruct (init_room_disabled h rooms n ra s Hnl) as (s1 & K1 & E1).
  destruct (reads_modes h ra).
  - exists s1. unfold bind. rewrite E1. now split.
  - destruct E1 as (rooms1 & E1). simpl in Hex.
    assert (Hnl1 : self_natural_lighting s1 = None).
    { destruct K1 as (-> & _). exact Hnl. }
    destruct (IH rooms1 s1 Hnl1 Hex) as (s' & E & K).
    exists s'. unfold bind. rewrite E1. split; [exact E|].
    eapply same_but_tracking_trans; eauto.
Qed.

(** X19.  Startup fails when the configuration has no [natural_lighting:]
    section but a room with valid lights lists a natural-lighting binding:
    [initialize] raises TypeError (the mode name is looked up in
    [self.natural_lighting], which is [False]).  No room is stored, no light
    is driven and the dispatcher is not entered. *)
Theorem bindings_need_natural_lighting h a s :
  args_natural_lighting a = None ->
  existsb (fun nra => reads_modes h (snd nra)) (or_default (args_rooms a) []) = true ->
  exists s',
    initialize h a s = (Raise TypeError, s')
    /\ self_natural_lighting s' = None
    /\ self_rooms s' = self_rooms s
    /\ calls s' = calls s
    /\ dispatched s' = dispatched s.
Proof.
  intros Hna Hex. unfold initialize, init_natural_lighting. rewrite Hna.
  unfold bind at 1, modify at 1.
  unfold bind at 1, ret at 1.
  unfold bind at 1, modify at 1.
  unfold bind at 1, modify at 1.
  unfold init_rooms.
  destruct (@init_rooms_loop_disabled h (or_default (args_rooms a) []) []
              (set_self_transitions (init_transitions a)
                 (set_self_natural_lighting None (set_entities [] s)))
              eq_refl Hex) as (s' & E & K).
  exists s'. rewrite (@bind_raises _ _ _ _ _ _ _ E). split; [reflexivity|].
  destruct K as (K1 & K2 & K3 & K4 & K5).
  split; [rewrite K1; reflexivity|].
  split; [rewrite K3; reflexivity|].
  split; [rewrite K4; reflexivity|rewrite K5; reflexivity].
Qed.

Lemma bindings_need_natural_lighting_witness :
  exists s',
    initialize two_lights_host
      (rooms_args [("hall", hall_args); ("study", bound_study_args)]) fresh
    = (Raise TypeError, s')
    /\ self_rooms s' = []
    /\ calls s' = [].
Proof.
  destruct (@bindings_need_natural_lighting two_lights_host
              (rooms_args [("hall", hall_args); ("study", bound_study_args)]) fresh
              eq_refl eq_refl) as (s' & E & _ & R & C & _).
  exists s'. split; [exact E|]. split; [exact R|exact C].
Defined.

(** ** [init_rooms]: the listeners *)

Lemma listens_more_refl P s : listens_more P s s.
Proof. exists []. split; [now rewrite app_nil_r|constructor]. Qed.

Lemma listens_more_trans P s1 s2 s3 :
  listens_more P s1 s2 -> listens_more P s2 s3 -> listens_more P s1 s3.
Proof.
  intros (l1 & E1 & F1) (l2 & E2 & F2). exists (l1 ++ l2)%list. split.
  - now rewrite E2, E1, app_assoc.
  - apply Forall_app. now split.
Qed.

Lemma same_listeners_more P A (m : M A) :
  keeps same_listeners m -> keeps (listens_more P) m.
Proof.
  intros K s. exists []. split; [rewrite app_nil_r; apply K|constructor].
Qed.

Lemma listen_state_more (P : listener -> Prop) l :
  P l -> keeps (listens_more P) (listen_state l).
Proof.
  intros H s. exists [l]. split; [reflexivity|]. constructor; [exact H|constructor].
Qed.

Lemma scene_is_valid_trigger h sc t :
  scene_is_valid h sc = true -> scene_trigger_entity sc = Some t ->
  entity_exists h t = true.
Proof.
  unfold scene_is_valid. intros H Ht. rewrite Ht in H.
  destruct (scene_entity sc) as [e|]; [|discriminate].
  destruct (scene_trigger_value sc); [|discriminate].
  apply andb_prop in H. destruct H as [H _].
  apply andb_prop in H. now destruct H as [_ H].
Qed.

Lemma listen_scene_more h names room_name sc :
  In room_name names ->
  keeps (listens_more (room_listener h names)) (listen_scene h room_name sc).
Proof.
  intros Hn. unfold listen_scene.
  destruct (scene_is_valid h sc) eqn:Hv;
    [|apply keeps_ret; apply listens_more_refl].
  destruct (scene_trigger_entity sc) as [t|] eqn:Ht;
    [|apply keeps_ret; apply listens_more_refl].
  pose proof (@scene_is_valid_trigger _ _ _ Hv Ht) as He.
  apply keeps_bind;
    [apply listens_more_trans| |intros _];
    apply listen_state_more; (split; [exact He|]);
    exists room_name, "scene"; (split; [reflexivity|split; [exact Hn|now left]]).
Qed.

Lemma listen_sensors_more h names room_name r :
  In room_name names ->
  keeps (listens_more (room_listener h names)) (listen_sensors h room_name r).
Proof.
  intros Hn. unfold listen_sensors.
  apply keeps_bind; [apply listens_more_trans| |intros _].
  - destruct (configured (occupancy_entity r)) as [e|];
      [|apply keeps_ret; apply listens_more_refl].
    destruct (entity_exists h e) eqn:He;
      [|apply keeps_ret; apply listens_more_refl].
    assert (P : forall new duration,
               room_listener h names
                 {| listen_callback := callback_room_for room_name "occupancy";
                    listen_entity := e; listen_attribute := None;
                    listen_new := new; listen_old := None;
                    listen_duration := duration |}).
    { intros new duration. split; [exact He|].
      exists room_name, "occupancy".
      split; [reflexivity|split; [exact Hn|right; now left]]. }
    destruct (occupancy_off_delay r >? 0).
    + apply keeps_bind;
        [apply listens_more_trans| |intros _];
        apply listen_state_more; apply P.
    + apply listen_state_more; apply P.
  - destruct (configured (luminance_entity r)) as [e|];
      [|apply keeps_ret; apply listens_more_refl].
    destruct (entity_exists h e) eqn:He;
      [|apply keeps_ret; apply listens_more_refl].
    apply listen_state_more. split; [exact He|].
    exists room_name, "low_light".
    split; [reflexivity|split; [exact Hn|right; right; now left]].
Qed.

Lemma init_room_more h names rooms room_name ra :
  In room_name names ->
  keeps (listens_more (room_listener h names)) (init_room h rooms room_name ra).
Proof.
  intros Hn. unfold init_room.
  destruct (configured (arg_lights_entity ra)) as [lights|];
    [|apply keeps_ret; apply listens_more_refl].
  destruct (negb (entity_exists h lights));
    [apply keeps_ret; apply listens_more_refl|].
  apply keeps_bind; [apply listens_more_trans| |intros _].
  { apply same_listeners_more, add_entity_same_listeners. }
  apply keeps_bind; [apply listens_more_trans| |intros bindings].
  { apply same_listeners_more.
    destruct (arg_natural_lighting ra) as [[l|]|]; frame.
    apply init_bindings_same_listeners. }
  apply keeps_bind; [apply listens_more_trans| |intros _].
  { apply keeps_for_each; [apply listens_more_refl|apply listens_more_trans|].
    intros sc. now apply listen_scene_more. }
  apply keeps_bind; [apply listens_more_trans| |intros _].
  { now apply listen_sensors_more. }
  apply keeps_ret; apply listens_more_refl.
Qed.

Lemma init_rooms_loop_more h names l rooms :
  incl (map fst l) names ->
  keeps (listens_more (room_listener h names)) (init_rooms_loop h rooms l).
Proof.
  revert rooms. induction l as [|[n ra] l IH]; intros rooms Hincl; simpl.
  - apply keeps_ret; apply listens_more_refl.
  - apply keeps_bind; [apply listens_more_trans| |intros rooms'].
    + apply init_room_more. apply Hincl. now left.
    + apply IH. intros x Hx. apply Hincl. now right.
Qed.

(** X20.  Whatever its outcome, [init_rooms] only adds listeners, and each
    one it adds is on an entity that exists on the host and calls
    [callback_room] for a configured room with the trigger ["scene"],
    ["occupancy"] or ["low_light"]: a sensor or scene switch that the host
    does not know is never listened to. *)
Theorem init_rooms_listeners h a s :
  exists ls,
    listeners (snd (init_rooms h a s)) = (listeners s ++ ls)%list
    /\ Forall (room_listener h (map fst (or_default (args_rooms a) []))) ls.
Proof.
  unfold init_rooms.
  exact (@init_rooms_loop_more h (map fst (or_default (args_rooms a) []))
           (or_default (args_rooms a) []) [] (fun x Hx => Hx) s).
Qed.

(** ** [initialize]: the first evaluation of the rooms *)

#[local] Hint Resolve same_but_tracking_refl same_but_tracking_trans : frames.

Lemma add_entity_same_but_tracking e : keeps same_but_tracking (add_entity e).
Proof.
  unfold add_entity. apply keeps_modify. intros s.
  destruct (existsb _ _); repeat split.
Qed.

Lemma listen_state_same_but_tracking l : keeps same_but_tracking (listen_state l).
Proof. intros s. repeat split. Qed.

#[local] Hint Resolve add_entity_same_but_tracking listen_state_same_but_tracking : frames.

Lemma init_natural_lighting_same_but_tracking h a :
  keeps same_but_tracking (init_natural_lighting h a).
Proof. unfold init_natural_lighting. frame. Qed.

Lemma init_bindings_same_but_tracking lights l :
  keeps same_but_tracking (init_bindings lights l).
Proof. induction l as [|ba l IH]; simpl; unfold init_binding; frame. Qed.

#[local] Hint Resolve init_bindings_same_but_tracking : frames.

Lemma init_rooms_same_but_tracking h a : keeps same_but_tracking (init_rooms h a).
Proof.
  unfold init_rooms. generalize (@nil (string * room)).
  induction (or_default (args_rooms a) []) as [|[n ra] l IH]; intros rooms; simpl.
  - frame.
  - apply keeps_bind; [apply same_but_tracking_trans| |intros rooms'; apply IH].
    unfold init_room, listen_scene, listen_sensors. frame.
Qed.

(** The loop of lines 93-94, when it returns. *)
Lemma init_loop h names s s' :
  for_each names (fun room_name => set_is_light_on h room_name "init") s = (Ok tt, s') ->
  dispatched s'
  = (dispatched s ++ map (fun n => (n, "init", transition_for s "init")) names)%list
  /\ self_transitions s' = self_transitions s
  /\ dict_keys (self_rooms s') = dict_keys (self_rooms s)
  /\ Forall (fun n => In n (dict_keys (self_rooms s))) names.
Proof.
  revert s. induction names as [|n names IH]; intros s; simpl.
  - unfold ret. intros H. injection H as <-.
    rewrite app_nil_r. repeat split. constructor.
  - intros H. apply bind_ok in H. destruct H as ([] & s1 & H1 & H).
    assert (S1 : dispatched s1 = (dispatched s ++ [(n, "init", transition_for s "init")])%list
                 /\ self_transitions s1 = self_transitions s
                 /\ dict_keys (self_rooms s1) = dict_keys (self_rooms s)
                 /\ In n (dict_keys (self_rooms s))).
    { destruct (room_of s n) as [r|] eqn:Hr.
      - pose proof (set_is_light_on_state h n "init" s Hr) as St.
        cbv zeta in St. destruct St as (Rm & _ & _ & Tr & _).
        destruct (refreshed h r) as [r1|x] eqn:Href.
        2:{ rewrite (set_is_light_on_run h n "init" s Hr) in H1. cbv zeta in H1.
            rewrite Href in H1. discriminate. }
        destruct (force_light_on h (or_default (scenes r) [])) as [force|x] eqn:Hf.
        2:{ rewrite (set_is_light_on_run h n "init" s Hr) in H1. cbv zeta in H1.
            rewrite Href, Hf in H1. discriminate. }
        pose proof (set_is_light_on_dispatched h n "init" s Hr Href Hf) as D.
        rewrite H1 in D, Rm, Tr. cbn [snd] in D, Rm, Tr.
        split; [|split; [exact Tr|split]].
        + rewrite D. f_equal. unfold dispatch_trigger.
          rewrite andb_false_r. reflexivity.
        + rewrite Rm. now apply (dict_keys_set n _ _ Hr).
        + apply dict_has_in. unfold dict_has. unfold room_of in Hr. now rewrite Hr.
      - exfalso. revert H1. unfold set_is_light_on, refresh_occupancy.
        unfold bind at 1. unfold bind at 1. unfold the_room, bind, gets, key.
        fold (room_of s n). rewrite Hr. discriminate. }
    destruct S1 as (D1 & T1 & K1 & I1).
    destruct (IH _ H) as (D & T & K & F).
    assert (Et : transition_for s1 "init" = transition_for s "init").
    { unfold transition_for. now rewrite T1. }
    split; [|split; [congruence|split; [congruence|]]].
    + rewrite D, D1, Et, <- app_assoc. reflexivity.
    + constructor; [exact I1|]. now rewrite <- K1.
Qed.

(** X21.  An initialization that returns has entered the dispatcher exactly
    once for every stored room, in the order of the rooms, each time with
    the trigger ["init"] and its transition (none by default): the lights of
    every room are driven at startup, on or off, whether or not the decision
    changed. *)
Theorem initialize_drives_every_room h a s s' :
  initialize h a s = (Ok tt, s') ->
  self_transitions s' = init_transitions a
  /\ dispatched s'
     = (dispatched s
        ++ map (fun n => (n, "init", transition_for s' "init"))
             (dict_keys (self_rooms s')))%list.
Proof.
  unfold initialize. intros H.
  apply bind_ok in H. destruct H as ([] & s1 & H1 & H).
  apply bind_ok in H. destruct H as (nl & s2 & H2 & H).
  apply bind_ok in H. destruct H as ([] & s3 & H3 & H).
  apply bind_ok in H. destruct H as ([] & s4 & H4 & H).
  apply bind_ok in H. destruct H as (rooms & s5 & H5 & H).
  apply bind_ok in H. destruct H as ([] & s6 & H6 & H).
  unfold set_all_lights in H.
  apply bind_ok in H. destruct H as (rs & s7 & H7 & H).
  unfold gets in H7. injection H7 as <- <-.
  apply init_loop in H. destruct H as (D & T & K & _).
  unfold modify in H1, H3, H4, H6.
  injection H1 as <-. injection H3 as <-. injection H4 as <-. injection H6 as <-.
  destruct (init_natural_lighting_same_but_tracking h a (set_entities [] s))
    as (_ & _ & _ & _ & D2).
  rewrite H2 in D2. cbn [snd] in D2.
  destruct (init_rooms_same_but_tracking h a
              (set_self_transitions (init_transitions a)
                 (set_self_natural_lighting nl s2))) as (_ & T5 & _ & _ & D5).
  rewrite H5 in T5, D5. cbn [snd] in T5, D5.
  split.
  - rewrite T. exact T5.
  - rewrite D, K. unfold transition_for. rewrite T.
    cbn [dispatched set_self_rooms self_transitions self_rooms].
    rewrite D5. cbn. rewrite D2. reflexivity.
Qed.

Lemma initialize_drives_every_room_witness :
  exists s',
    initialize two_lights_host
      (rooms_args [("study", study_args); ("den", den_args); ("office", study_args)]) fresh
    = (Ok tt, s')
    /\ dispatched s' = [("study", "init", VNone); ("office", "init", VNone)].
Proof.
  destruct (initialize two_lights_host
              (rooms_args [("study", study_args); ("den", den_args);
                           ("office", study_args)]) fresh)
    as [[[]|x] s'] eqn:E; [|vm_compute in E; discriminate].
  exists s'. split; [reflexivity|].
  destruct (initialize_drives_every_room _ _ _ E) as [_ D].
  rewrite D. vm_compute in E. injection E as <-. reflexivity.
Defined.

(** ** A luminance sensor without a reading *)

(** X22.  A luminance sensor whose state is ["unavailable"] or ["unknown"]
    reads as 0: the room is in low light exactly when 0 is within the
    threshold.  A sensor whose state is [None] (the host does not know the
    entity) makes the evaluation raise TypeError at the comparison of line
    300: the occupancy flag is already refreshed, the two other flags keep
    their values and the dispatcher is not entered. *)
Theorem luminance_without_reading h room_name trigger s r e limit hyst :
  room_of s room_name = Some r ->
  configured (luminance_entity r) = Some e ->
  int (luminance_limit r) = VInt limit ->
  int (luminance_hysteresis r) = VInt hyst ->
  (get_state h e = VStr "unavailable" \/ get_state h e = VStr "unknown" ->
   exists r2,
     room_of (snd (set_is_light_on h room_name trigger s)) room_name = Some r2
     /\ (low_light r2 = true
         <-> 0 <= (if low_light r then limit + hyst else limit - hyst)))
  /\ (get_state h e = VNone ->
      set_is_light_on h room_name trigger s
      = (Raise TypeError,
         set_self_rooms (dict_set room_name (occupancy_refreshed h r) (self_rooms s)) s)
      /\ low_light (occupancy_refreshed h r) = low_light r
      /\ is_light_on (occupancy_refreshed h r) = is_light_on r).
Proof.
  intros Hr He Hl Hh.
  destruct (occupancy_refreshed_frame h r) as (Hon & Hlow & _ & _ & E1 & E2 & E3 & _).
  split.
  - intros Hst.
    assert (Hv : int (get_state h e) = VInt 0).
    { destruct Hst as [-> | ->]; reflexivity. }
    assert (Href : refreshed h r
                   = Ok (with_low_light
                           (0 <=? (if low_light r then limit + hyst else limit - hyst))
                           (occupancy_refreshed h r))).
    { unfold refreshed.
      rewrite (low_light_refreshed_ints h (occupancy_refreshed h r) (e := e)
                 (limit := limit) (hyst := hyst) (reading := 0));
        try congruence.
      now rewrite Hlow. }
    destruct (set_is_light_on_flags h room_name trigger s Hr Href) as (r2 & H2 & L & _).
    exists r2. split; [exact H2|]. simpl in L. rewrite L. apply Z.leb_le.
  - intros Hst. split; [|split; [exact Hlow|exact Hon]].
    rewrite (set_is_light_on_run h room_name trigger s Hr). cbv zeta.
    assert (Href : refreshed h r = Raise TypeError).
    { unfold refreshed, low_light_refreshed, effective_limit.
      rewrite E1, E2, E3, He, Hl, Hh, Hst.
      destruct (low_light (occupancy_refreshed h r)); reflexivity. }
    now rewrite Href.
Qed.

Lemma luminance_without_reading_witness :
  callback_room (host_of []) "room" "low_light" (app_of None [("room", lux_room true)])
  = (Raise TypeError, app_of None [("room", lux_room true)]).
Proof.
  apply (proj2 (@luminance_without_reading (host_of []) "room" "low_light"
                  (app_of None [("room", lux_room true)]) (lux_room true)
                  "sensor.lux" 10 2 eq_refl eq_refl eq_refl eq_refl)).
  reflexivity.
Defined.

(** ** The target of a scene *)

Lemma domain_of_prefix d x :
  dotless d = true -> domain_of (String.append d (String.append "." x)) = d.
Proof.
  induction d as [|c d IH]; simpl in *; [reflexivity|].
  intros H. apply andb_prop in H. destruct H as [Hc Hd].
  apply negb_true_iff in Hc. rewrite Hc. now rewrite IH.
Qed.

(** X23.  The domain of a scene's target is the text before its first dot.
    When the dispatcher finds the first scene of the list active, it turns
    the target on and stops; a target in the [script] domain never gets a
    transition, a target in any other domain gets the trigger's transition
    unless that is [None]. *)
Theorem scene_target_domain h transition sc post d x s :
  scene_matches h sc = true ->
  dotless d = true ->
  scene_entity sc = Some (String.append d (String.append "." x)) ->
  exists c,
    set_light_scenes h transition (sc :: post) s
    = (Ok true, set_calls (calls s ++ [c])%list s)
    /\ call_entity c = String.append d (String.append "." x)
    /\ call_service c = "turn_on"
    /\ call_brightness c = None
    /\ call_kelvin c = None
    /\ call_transition c
       = if String.eqb d "script" then None
         else if Py.eq transition VNone then None else Some transition.
Proof.
  intros Hm Hd He.
  exists (scene_call (String.append d (String.append "." x)) transition).
  split.
  - exact (@set_light_scenes_first h transition [] sc post _ s eq_refl eq_refl Hm He).
  - unfold scene_call, transition_arg. cbn [call_entity call_service call_brightness
      call_kelvin call_transition]. rewrite (@domain_of_prefix d x Hd). repeat split.
Qed.

Lemma scene_target_domain_witness :
  exists c,
    set_light_scenes (host_of [("input_boolean.movie", VStr "on")]) (VInt 10)
      [ {| scene_entity := Some "script.movie.start";
           scene_trigger_entity := Some "input_boolean.movie";
           scene_trigger_value := Some (VStr "on");
           scene_force_light_on := None |} ] fresh
    = (Ok true, set_calls [c] fresh)
    /\ call_transition c = None.
Proof.
  destruct (@scene_target_domain (host_of [("input_boolean.movie", VStr "on")]) (VInt 10)
              {| scene_entity := Some "script.movie.start";
                 scene_trigger_entity := Some "input_boolean.movie";
                 scene_trigger_value := Some (VStr "on");
                 scene_force_light_on := None |} [] "script" "movie.start" fresh
              eq_refl eq_refl eq_refl) as (c & E & _ & _ & _ & _ & T).
  exists c. split; [exact E|exact T].
Defined.

(** ** [int] on Python integers *)

Lemma digits2_pos_iter p d : digits2_pos (Pos.iter xO p d) = (digits2_pos p + d)%positive.
Proof.
  induction d as [|d IH] using Pos.peano_ind.
  - simpl. now rewrite Pos.add_1_r.
  - rewrite Pos.iter_succ. simpl. rewrite IH. now rewrite Pos.add_succ_r.
Qed.

Lemma Zpos_iter p d : Zpos (Pos.iter xO p d) = Zpos p * 2 ^ Zpos d.
Proof.
  induction d as [|d IH] using Pos.peano_ind.
  - simpl. lia.
  - rewrite Pos.iter_succ, Pos2Z.inj_xO, IH, Pos2Z.inj_succ, Z.pow_succ_r; lia.
Qed.

Lemma digits2_pos_lower p : 2 ^ (Zpos (digits2_pos p) - 1) <= Zpos p.
Proof.
  induction p as [p IH|p IH|]; simpl digits2_pos.
  - rewrite Pos2Z.inj_succ.
    replace (Z.succ (Zpos (digits2_pos p)) - 1) with (Z.succ (Zpos (digits2_pos p) - 1)) by lia.
    rewrite Z.pow_succ_r by lia. lia.
  - rewrite Pos2Z.inj_succ.
    replace (Z.succ (Zpos (digits2_pos p)) - 1) with (Z.succ (Zpos (digits2_pos p) - 1)) by lia.
    rewrite Z.pow_succ_r by lia. lia.
  - simpl. lia.
Qed.

Lemma digits2_pos_small p : Zpos p < 2 ^ 53 -> Zpos (digits2_pos p) <= 53.
Proof.
  intros H. destruct (Z_le_gt_dec (Zpos (digits2_pos p)) 53) as [L|G]; [exact L|].
  exfalso. pose proof (digits2_pos_lower p) as K.
  assert (2 ^ 53 <= 2 ^ (Zpos (digits2_pos p) - 1)) by (apply Z.pow_le_mono_r; lia).
  lia.
Qed.

Lemma binary_round_small s p :
  Zpos p < 2 ^ 53 ->
  Py.int_of_float (binary_round Py.prec Py.emax s p 0) = Ok (if s then Zneg p else Zpos p).
Proof.
  intros H. pose proof (@digits2_pos_small p H) as D.
  unfold binary_round, shl_align.
  assert (F : fexp Py.prec Py.emax (Zpos (digits2_pos p) + 0) = Zpos (digits2_pos p) - 53).
  { unfold fexp, emin, Py.prec, Py.emax. lia. }
  rewrite F.
  destruct (Zpos (digits2_pos p) - 53 - 0) as [|q|q] eqn:E; [|lia|].
  - unfold binary_round_aux, shr_fexp. cbn [Zdigits2 shr_record_of_loc].
    assert (F0 : fexp Py.prec Py.emax (Zpos (digits2_pos p) + 0) - 0 = 0).
    { rewrite F. lia. }
    rewrite F0. cbn [shr shr_m loc_of_shr_record round_nearest_even Zdigits2 shr_record_of_loc].
    rewrite F0. cbn [shr shr_m]. 
    cbn. destruct s; reflexivity.
  - unfold binary_round_aux, shr_fexp. cbn [Zdigits2 shr_record_of_loc].
    rewrite digits2_pos_iter.
    assert (F1 : fexp Py.prec Py.emax (Zpos (digits2_pos p + q) + (Zpos (digits2_pos p) - 53))
                 - (Zpos (digits2_pos p) - 53) = 0).
    { unfold fexp, emin, Py.prec, Py.emax. lia. }
    rewrite F1. cbn [shr shr_m loc_of_shr_record round_nearest_even Zdigits2 shr_record_of_loc].
    rewrite digits2_pos_iter, F1. cbn [shr shr_m].
    assert (Ee : Zpos (digits2_pos p) - 53 = Zneg q) by lia.
    rewrite Ee.
    replace (Z.neg q <=? Py.emax - Py.prec) with true
      by (symmetry; apply Z.leb_le; unfold Py.emax, Py.prec; lia).
    unfold Py.int_of_float.
    rewrite Z.shiftr_div_pow2 by lia. rewrite Zpos_iter, Z.div_mul by lia.
    destruct s; reflexivity.
Qed.

(** X24.  [int] hands an integer back unchanged as long as its magnitude is
    at most 2^53: the detour through [float] is exact there.  The bound is
    sharp: 2^53 + 1 comes back as 2^53. *)
Theorem int_keeps_integers z :
  Z.abs z <= 2 ^ 53 ->
  int (VInt z) = VInt z
  /\ int (VInt (2 ^ 53 + 1)) = VInt (2 ^ 53).
Proof.
  intros H. split; [|vm_compute; reflexivity].
  destruct (Z.eq_dec (Z.abs z) (2 ^ 53)) as [E|N].
  { destruct z as [|p|p]; [discriminate E| |].
    - simpl in E. injection E as ->. vm_compute. reflexivity.
    - simpl in E. injection E as ->. vm_compute. reflexivity. }
  unfold int.
  change (Py.contains (VInt z) [VStr "unknown"; VStr "unavailable"]) with false.
  cbv iota. unfold PyBuiltin.float, Py.float_of_Z, binary_normalize.
  destruct z as [|p|p]; [reflexivity| |].
  - assert (B : Zpos p < 2 ^ 53) by (simpl in H, N; lia).
    pose proof (@binary_round_small false p B) as R.
    destruct (binary_round Py.prec Py.emax false p 0); cbn [obind];
      try rewrite R; try reflexivity; discriminate R.
  - assert (B : Zpos p < 2 ^ 53) by (simpl in H, N; lia).
    pose proof (@binary_round_small true p B) as R.
    destruct (binary_round Py.prec Py.emax true p 0); cbn [obind];
      try rewrite R; try reflexivity; discriminate R.
Qed.

Lemma int_keeps_integers_witness : int (VInt (-4503599627370497)) = VInt (-4503599627370497).
Proof.
  apply (@int_keeps_integers (-4503599627370497)). vm_compute. discriminate.
Defined.
